(** * Online Learning Platform API: authorization and data-consistency core

    A shallow embedding of [backend/server.js]: the SQLite tables as lists
    of rows, the process-wide [rateLimiters] Map as a [gmap], the Express
    middleware chain and the route handlers as programs over a small
    signature of effects (one constructor per SQL statement the server
    issues, plus [Date.now], [console.error] and the Map accesses).

    Conventions.
    - Timestamps are integers: [clock] is [Date.now()] in milliseconds,
      SQLite's [CURRENT_TIMESTAMP] is the clock truncated to seconds, and
      [new Date().toISOString()] is the millisecond clock itself.
    - The FOREIGN KEY clauses of the schema are not enforced: SQLite only
      enforces them under [PRAGMA foreign_keys = ON], which the server never
      issues.  UNIQUE and CHECK constraints are enforced.
    - [jwt.verify], [jwt.sign], [bcrypt] and the e-mail validators are
      opaque library primitives, taken as section variables.
    - Body fields carry the type their validator demands (a string, an
      integer), optional fields are [None] when [undefined]; [completed]
      is kept as a JavaScript value because the handler tests its
      truthiness.  Strings are sequences of 8-bit characters, so lengths
      and trimming are those of ASCII text.
    - Of the read-only GET routes only GET /api/lessons/:id is modelled.
    - The startup checks of the configuration and the request path of the
      web client ([apiRequest], with what [fetch] does to a request) come
      after the server, each with its own conventions. *)

From stdpp Require Import gmap strings list.
From Stdlib Require Import ZArith Lia Ascii String List.
Import ListNotations.
Local Open Scope string_scope.
Local Open Scope Z_scope.

(** ** JavaScript values that reach a truthiness test *)

Inductive jsval :=
| JBool (b : bool)
| JNum (n : Z)
| JStr (s : string).

(** [v ? a : b] and [!v] *)
Definition truthy (v : jsval) : bool :=
  match v with
  | JBool b => b
  | JNum n => negb (n =? 0)
  | JStr s => negb (String.eqb s "")
  end.

(** ** Rows of the six tables (the CREATE TABLE statements) *)

Record user_row := User {
  user_id : Z;
  email : string;
  password_hash : string;
  role : string }.

Record course_row := Course {
  course_id : Z;
  title : string;
  description : string;
  instructor_id : Z;
  course_created_at : Z;
  course_updated_at : Z }.

Record lesson_row := Lesson {
  lesson_id : Z;
  lesson_course_id : Z;
  lesson_title : string;
  content : string;
  order_index : Z;
  lesson_created_at : Z;
  lesson_updated_at : Z }.

Record enrollment_row := Enrollment {
  enrollment_id : Z;
  student_id : Z;
  enrollment_course_id : Z;
  enrolled_at : Z }.

Record progress_row := Progress {
  progress_id : Z;
  progress_student_id : Z;
  progress_lesson_id : Z;
  completed : Z;
  completed_at : option Z }.

Record audit_row := Audit {
  audit_id : Z;
  audit_user_id : option Z;
  action : string;
  resource_type : string;
  resource_id : option Z;
  audit_timestamp : Z;
  ip_address : option string }.

(** A table with an AUTOINCREMENT key: its rows in rowid order and the
    largest rowid ever handed out. *)
Record table (R : Type) := Table { rows : list R; last_id : Z }.
Arguments Table {R} _ _.
Arguments rows {R} _.
Arguments last_id {R} _.

(** One entry of the [rateLimiters] Map: [{ count, resetTime }]. *)
Record limiter := Limiter { count : Z; resetTime : Z }.

(** ** The state of the process and of its database *)

Record world := World {
  users : table user_row;
  courses : table course_row;
  lessons : table lesson_row;
  enrollments : table enrollment_row;
  progress : table progress_row;
  audit_log : table audit_row;
  audit_fault : bool;   (* the storage engine rejects writes to audit_log *)
  rateLimiters : gmap string limiter;
  console : list string;
  clock : Z }.

Definition with_users t w :=
  World t (courses w) (lessons w) (enrollments w) (progress w) (audit_log w)
        (audit_fault w) (rateLimiters w) (console w) (clock w).
Definition with_courses t w :=
  World (users w) t (lessons w) (enrollments w) (progress w) (audit_log w)
        (audit_fault w) (rateLimiters w) (console w) (clock w).
Definition with_lessons t w :=
  World (users w) (courses w) t (enrollments w) (progress w) (audit_log w)
        (audit_fault w) (rateLimiters w) (console w) (clock w).
Definition with_enrollments t w :=
  World (users w) (courses w) (lessons w) t (progress w) (audit_log w)
        (audit_fault w) (rateLimiters w) (console w) (clock w).
Definition with_progress t w :=
  World (users w) (courses w) (lessons w) (enrollments w) t (audit_log w)
        (audit_fault w) (rateLimiters w) (console w) (clock w).
Definition with_audit_log t w :=
  World (users w) (courses w) (lessons w) (enrollments w) (progress w) t
        (audit_fault w) (rateLimiters w) (console w) (clock w).
Definition with_audit_fault b w :=
  World (users w) (courses w) (lessons w) (enrollments w) (progress w)
        (audit_log w) b (rateLimiters w) (console w) (clock w).
Definition with_rateLimiters m w :=
  World (users w) (courses w) (lessons w) (enrollments w) (progress w)
        (audit_log w) (audit_fault w) m (console w) (clock w).
Definition with_console c w :=
  World (users w) (courses w) (lessons w) (enrollments w) (progress w)
        (audit_log w) (audit_fault w) (rateLimiters w) c (clock w).
Definition with_clock t w :=
  World (users w) (courses w) (lessons w) (enrollments w) (progress w)
        (audit_log w) (audit_fault w) (rateLimiters w) (console w) t.

(** The freshly created database of a process that just started. *)
Definition empty_table {R} : table R := Table [] 0.
Definition initial_world (now : Z) : world :=
  World empty_table empty_table empty_table empty_table empty_table
        empty_table false ∅ [] now.

(** ** Errors and results of [dbAsync.run] *)

Inductive exn :=
| SqliteError (message : string)
| TypeError (message : string).

Definition err_message (e : exn) : string :=
  match e with SqliteError m => m | TypeError m => m end.

Inductive result (A : Type) :=
| Ok (a : A)
| Err (e : exn).
Arguments Ok {A} _.
Arguments Err {A} _.

(** What [dbAsync.run] resolves to: [{ lastID, changes }]. *)
Record run_info := RunInfo { lastID : Z; changes : Z }.

(** SQLite's CURRENT_TIMESTAMP has a resolution of one second. *)
Definition current_timestamp (w : world) : Z := clock w / 1000.

(** The SET clauses the update handlers push onto [updates]. *)
Inductive course_set :=
| SetTitle (v : string)
| SetDescription (v : string)
| TouchCourse.

Inductive lesson_set :=
| SetLessonTitle (v : string)
| SetContent (v : string)
| SetOrderIndex (v : Z)
| TouchLesson.

Definition apply_course_set (now : Z) (c : course_row) (s : course_set) : course_row :=
  match s with
  | SetTitle v =>
      Course (course_id c) v (description c) (instructor_id c)
             (course_created_at c) (course_updated_at c)
  | SetDescription v =>
      Course (course_id c) (title c) v (instructor_id c)
             (course_created_at c) (course_updated_at c)
  | TouchCourse =>
      Course (course_id c) (title c) (description c) (instructor_id c)
             (course_created_at c) now
  end.

Definition apply_lesson_set (now : Z) (l : lesson_row) (s : lesson_set) : lesson_row :=
  match s with
  | SetLessonTitle v =>
      Lesson (lesson_id l) (lesson_course_id l) v (content l) (order_index l)
             (lesson_created_at l) (lesson_updated_at l)
  | SetContent v =>
      Lesson (lesson_id l) (lesson_course_id l) (lesson_title l) v (order_index l)
             (lesson_created_at l) (lesson_updated_at l)
  | SetOrderIndex v =>
      Lesson (lesson_id l) (lesson_course_id l) (lesson_title l) (content l) v
             (lesson_created_at l) (lesson_updated_at l)
  | TouchLesson =>
      Lesson (lesson_id l) (lesson_course_id l) (lesson_title l) (content l)
             (order_index l) (lesson_created_at l) now
  end.

(** ** The effects of the server

    One constructor per SQL statement text that occurs in the source, and
    the synchronous effects ([Date.now], [console.error], the Map). *)

Inductive op : Type -> Type :=
| DateNow : op Z
| ConsoleError (line : string) : op unit
| LimiterGet (key : string) : op (option limiter)
| LimiterSet (key : string) (d : limiter) : op unit
(* users *)
| SelectUserById (id : Z) : op (option user_row)
| SelectUserByEmail (e : string) : op (option user_row)
| InsertUser (e hash r : string) : op (result run_info)
(* courses *)
| SelectCourse (id : Z) : op (option course_row)
| InsertCourse (t d : string) (instructor : Z) : op (result run_info)
| UpdateCourse (updates : list course_set) (id : Z) : op (result run_info)
| DeleteCourse (id : Z) : op (result run_info)
(* lessons *)
| SelectLesson (id : Z) : op (option lesson_row)
| InsertLesson (course : Z) (t c : string) (order : Z) : op (result run_info)
| UpdateLesson (updates : list lesson_set) (id : Z) : op (result run_info)
| DeleteLesson (id : Z) : op (result run_info)
(* enrollments *)
| SelectEnrollmentByPair (student course : Z) : op (option enrollment_row)
| SelectEnrollmentOwned (id student : Z) : op (option enrollment_row)
| SelectEnrollment (id : Z) : op (option enrollment_row)
| InsertEnrollment (student course : Z) : op (result run_info)
| DeleteEnrollment (id : Z) : op (result run_info)
(* progress *)
| SelectProgress (student lesson : Z) : op (option progress_row)
| InsertProgress (student lesson done : Z) (at_ : option Z) : op (result run_info)
| UpdateProgress (done : Z) (at_ : option Z) (student lesson : Z) : op (result run_info)
(* audit_log *)
| InsertAudit (uid : option Z) (act rtype : string) (rid : option Z)
              (ip : option string) : op (result run_info).

Definition count_where {R} (p : R -> bool) (l : list R) : Z :=
  Z.of_nat (length (List.filter p l)).

Definition update_where {R} (p : R -> bool) (f : R -> R) (l : list R) : list R :=
  List.map (fun r => if p r then f r else r) l.

Definition delete_where {R} (p : R -> bool) (l : list R) : list R :=
  List.filter (fun r => negb (p r)) l.

Definition valid_role (r : string) : bool :=
  String.eqb r "instructor" || String.eqb r "student".

Definition is_pair (s c : Z) (e : enrollment_row) : bool :=
  (student_id e =? s) && (enrollment_course_id e =? c).

Definition owned_by (id s : Z) (e : enrollment_row) : bool :=
  (enrollment_id e =? id) && (student_id e =? s).

Definition is_progress (s l : Z) (p : progress_row) : bool :=
  (progress_student_id p =? s) && (progress_lesson_id p =? l).

(** The storage engine: every statement is executed atomically. *)
Definition exec {A} (o : op A) (w : world) : A * world :=
  match o in op T return T * world with
  | DateNow => (clock w, w)
  | ConsoleError line => (tt, with_console (console w ++ [line]) w)
  | LimiterGet key => (rateLimiters w !! key, w)
  | LimiterSet key d => (tt, with_rateLimiters (<[key := d]> (rateLimiters w)) w)
  | SelectUserById id =>
      (List.find (fun u => user_id u =? id) (rows (users w)), w)
  | SelectUserByEmail e =>
      (List.find (fun u => String.eqb (email u) e) (rows (users w)), w)
  | InsertUser e hash r =>
      if existsb (fun u => String.eqb (email u) e) (rows (users w)) then
        (Err (SqliteError "SQLITE_CONSTRAINT: UNIQUE constraint failed: users.email"), w)
      else if negb (valid_role r) then
        (Err (SqliteError "SQLITE_CONSTRAINT: CHECK constraint failed: users"), w)
      else
        let id := last_id (users w) + 1 in
        (Ok (RunInfo id 1),
         with_users (Table (rows (users w) ++ [User id e hash r]) id) w)
  | SelectCourse id =>
      (List.find (fun c => course_id c =? id) (rows (courses w)), w)
  | InsertCourse t d instructor =>
      let id := last_id (courses w) + 1 in
      let now := current_timestamp w in
      (Ok (RunInfo id 1),
       with_courses (Table (rows (courses w) ++ [Course id t d instructor now now]) id) w)
  | UpdateCourse updates id =>
      let hit := fun c => course_id c =? id in
      let now := current_timestamp w in
      (Ok (RunInfo 0 (count_where hit (rows (courses w)))),
       with_courses
         (Table (update_where hit (fun c => fold_left (apply_course_set now) updates c)
                              (rows (courses w)))
                (last_id (courses w))) w)
  | DeleteCourse id =>
      let hit := fun c => course_id c =? id in
      (Ok (RunInfo 0 (count_where hit (rows (courses w)))),
       with_courses (Table (delete_where hit (rows (courses w))) (last_id (courses w))) w)
  | SelectLesson id =>
      (List.find (fun l => lesson_id l =? id) (rows (lessons w)), w)
  | InsertLesson course t c order =>
      let id := last_id (lessons w) + 1 in
      let now := current_timestamp w in
      (Ok (RunInfo id 1),
       with_lessons (Table (rows (lessons w) ++ [Lesson id course t c order now now]) id) w)
  | UpdateLesson updates id =>
      let hit := fun l => lesson_id l =? id in
      let now := current_timestamp w in
      (Ok (RunInfo 0 (count_where hit (rows (lessons w)))),
       with_lessons
         (Table (update_where hit (fun l => fold_left (apply_lesson_set now) updates l)
                              (rows (lessons w)))
                (last_id (lessons w))) w)
  | DeleteLesson id =>
      let hit := fun l => lesson_id l =? id in
      (Ok (RunInfo 0 (count_where hit (rows (lessons w)))),
       with_lessons (Table (delete_where hit (rows (lessons w))) (last_id (lessons w))) w)
  | SelectEnrollmentByPair s c =>
      (List.find (is_pair s c) (rows (enrollments w)), w)
  | SelectEnrollmentOwned id s =>
      (List.find (owned_by id s) (rows (enrollments w)), w)
  | SelectEnrollment id =>
      (List.find (fun e => enrollment_id e =? id) (rows (enrollments w)), w)
  | InsertEnrollment s c =>
      if existsb (is_pair s c) (rows (enrollments w)) then
        (Err (SqliteError
           "SQLITE_CONSTRAINT: UNIQUE constraint failed: enrollments.student_id, enrollments.course_id"),
         w)
      else
        let id := last_id (enrollments w) + 1 in
        (Ok (RunInfo id 1),
         with_enrollments
           (Table (rows (enrollments w) ++ [Enrollment id s c (current_timestamp w)]) id) w)
  | DeleteEnrollment id =>
      let hit := fun e => enrollment_id e =? id in
      (Ok (RunInfo 0 (count_where hit (rows (enrollments w)))),
       with_enrollments
         (Table (delete_where hit (rows (enrollments w))) (last_id (enrollments w))) w)
  | SelectProgress s l =>
      (List.find (is_progress s l) (rows (progress w)), w)
  | InsertProgress s l done at_ =>
      if existsb (is_progress s l) (rows (progress w)) then
        (Err (SqliteError
           "SQLITE_CONSTRAINT: UNIQUE constraint failed: progress.student_id, progress.lesson_id"),
         w)
      else
        let id := last_id (progress w) + 1 in
        (Ok (RunInfo id 1),
         with_progress (Table (rows (progress w) ++ [Progress id s l done at_]) id) w)
  | UpdateProgress done at_ s l =>
      let hit := is_progress s l in
      (Ok (RunInfo 0 (count_where hit (rows (progress w)))),
       with_progress
         (Table (update_where hit
                   (fun p => Progress (progress_id p) (progress_student_id p)
                                      (progress_lesson_id p) done at_)
                   (rows (progress w)))
                (last_id (progress w))) w)
  | InsertAudit uid act rtype rid ip =>
      if audit_fault w then
        (Err (SqliteError "SQLITE_IOERR: disk I/O error"), w)
      else
        let id := last_id (audit_log w) + 1 in
        (Ok (RunInfo id 1),
         with_audit_log
           (Table (rows (audit_log w)
                   ++ [Audit id uid act rtype rid (current_timestamp w) ip]) id) w)
  end.

(** ** Programs: a sequence of effects, suspended at each one

    [Await o k] issues [o] and resumes [k] with its result; between two
    effects of one request the effects of other requests may run. *)

Inductive prog (R : Type) : Type :=
| Ret (r : R)
| Await {A : Type} (o : op A) (k : A -> prog R).
Arguments Ret {R} _.
Arguments Await {R A} _ _.

Fixpoint bind {R S} (p : prog R) (f : R -> prog S) : prog S :=
  match p with
  | Ret r => f r
  | Await o k => Await o (fun a => bind (k a) f)
  end.

Definition call {A} (o : op A) : prog A := Await o Ret.

(** A request that runs alone: every effect is executed in sequence. *)
Fixpoint run {R} (p : prog R) (w : world) : R * world :=
  match p with
  | Ret r => (r, w)
  | Await o k => let '(a, w') := exec o w in run (k a) w'
  end.

Notation "x <- p ;; k" := (bind p (fun x => k))
  (at level 100, p at next level, right associativity).
Notation "p ;;; k" := (bind p (fun _ => k))
  (at level 100, right associativity).

(** [try { ... } catch (err) { ... }]: programs that may throw. *)
Definition eprog (R : Type) : Type := prog (result R).

Definition eret {R} (r : R) : eprog R := Ret (Ok r).
Definition throw {R} (e : exn) : eprog R := Ret (Err e).

Definition ebind {R S} (p : eprog R) (f : R -> eprog S) : eprog S :=
  bind p (fun r => match r with Ok a => f a | Err e => Ret (Err e) end).

(** an awaited effect that cannot reject *)
Definition await {A} (o : op A) : eprog A := Await o (fun a => Ret (Ok a)).
(** [await dbAsync.run(...)]: a rejection is thrown *)
Definition await_run (o : op (result run_info)) : eprog run_info := call o.
(** a program that never throws, awaited inside a [try] block *)
Definition lift {A} (p : prog A) : eprog A := bind p (fun a => Ret (Ok a)).

Definition try_catch {R} (p : eprog R) (handler : exn -> prog R) : prog R :=
  bind p (fun r => match r with Ok a => Ret a | Err e => handler e end).

Notation "x <-! p ;; k" := (ebind p (fun x => k))
  (at level 100, p at next level, right associativity).
Notation "p ;;! k" := (ebind p (fun _ => k))
  (at level 100, right associativity).

(** ** Requests and responses *)

Inductive method := GET | POST | PUT | PATCH | DELETE | OPTIONS.

(** The mutating routes of the API, with their parameters and body fields
    as they are after JSON parsing; an optional body field that is
    [undefined] is [None].  [EpOther] is a request that matches no route
    (and, with [OPTIONS], a preflight request). *)
Inductive endpoint :=
| EpHealth
| EpRegister (email_ password_ role_ : string)
| EpLogin (email_ password_ : string)
| EpPostCourse (title_ description_ : string)
| EpPutCourse (id : Z) (title_ description_ : option string)
| EpDeleteCourse (id : Z)
| EpPostLesson (courseId : Z) (title_ content_ : string) (order_index_ : Z)
| EpPutLesson (id : Z) (title_ content_ : option string) (order_index_ : option Z)
| EpDeleteLesson (id : Z)
| EpPostEnrollment (course_id_ : Z)
| EpDeleteEnrollment (id : Z)
| EpPostProgress (lesson_id_ : Z) (completed_ : jsval)
| EpOther (m : method).

Definition method_of (e : endpoint) : method :=
  match e with
  | EpHealth => GET
  | EpRegister _ _ _ | EpLogin _ _ | EpPostCourse _ _ | EpPostLesson _ _ _ _
  | EpPostEnrollment _ | EpPostProgress _ _ => POST
  | EpPutCourse _ _ _ | EpPutLesson _ _ _ _ => PUT
  | EpDeleteCourse _ | EpDeleteLesson _ | EpDeleteEnrollment _ => DELETE
  | EpOther m => m
  end.

Record request := Request {
  authorization : option string;     (* req.headers.authorization *)
  content_type : option string;      (* req.headers['content-type'] *)
  ip : option string;                (* req.ip *)
  remoteAddress : option string;     (* req.socket.remoteAddress *)
  target : endpoint }.

Inductive body :=
| Empty
| JsonError (error : string)
| JsonValidation
| JsonHealth
| JsonAuth (token : string) (id : Z) (email_ role_ : string)
| JsonCourse (c : option course_row)
| JsonLesson (l : option lesson_row)
| JsonEnrollment (e : option enrollment_row)
| JsonProgress (p : option progress_row).

Record response := Response { status : Z; payload : body }.

Definition json_error (code : Z) (msg : string) : response :=
  Response code (JsonError msg).

(** [s || ...] on an optional string: [undefined] and [''] are falsy. *)
Definition nonempty (o : option string) : option string :=
  match o with
  | Some s => if String.eqb s "" then None else Some s
  | None => None
  end.

(** [haystack.includes(needle)] *)
Fixpoint includes (needle haystack : string) : bool :=
  String.prefix needle haystack ||
  match haystack with
  | EmptyString => false
  | String _ rest => includes needle rest
  end.

(** ** Validation helpers (express-validator) *)

Definition is_space (c : ascii) : bool :=
  let n := nat_of_ascii c in
  ((9 <=? n) && (n <=? 13))%nat || (n =? 32)%nat.

Fixpoint ltrim (s : string) : string :=
  match s with
  | String c rest => if is_space c then ltrim rest else s
  | EmptyString => EmptyString
  end.

Fixpoint rtrim (s : string) : string :=
  match s with
  | String c rest =>
      match rtrim rest with
      | EmptyString => if is_space c then EmptyString else String c EmptyString
      | r => String c r
      end
  | EmptyString => EmptyString
  end.

Definition trim (s : string) : string := rtrim (ltrim s).

Definition isLength (lo hi : Z) (s : string) : bool :=
  let n := Z.of_nat (String.length s) in
  (lo <=? n) && (n <=? hi).

(** [.optional()]: an [undefined] field passes and skips the chain *)
Definition optional {A} (check : A -> bool) (o : option A) : bool :=
  match o with Some a => check a | None => true end.

(** [isBoolean()] is applied to the string form of the value *)
Definition isBoolean (v : jsval) : bool :=
  match v with
  | JBool _ => true
  | JNum n => (n =? 0) || (n =? 1)
  | JStr s => String.eqb s "true" || String.eqb s "false"
              || String.eqb s "1" || String.eqb s "0"
  end.

Definition validation_failed : response := Response 400 JsonValidation.

(** ** Rate limiting *)

Definition RATE_LIMIT_WINDOW_MS : Z := 15 * 60 * 1000.
Definition RATE_LIMIT_MAX_REQUESTS : Z := 100.

(** ** Audit logging *)

Definition auditLog (userId : option Z) (action_ resourceType : string)
    (resourceId : option Z) (ipAddress : option string) : prog unit :=
  r <- call (InsertAudit userId action_ resourceType resourceId ipAddress) ;;
  match r with
  | Ok _ => Ret tt
  | Err err => call (ConsoleError ("Audit log write failed: " +:+ err_message err))
  end.

Definition clientKey (req : request) : string :=
  match nonempty (ip req) with
  | Some k => k
  | None => match nonempty (remoteAddress req) with
            | Some k => k
            | None => "unknown"
            end
  end.

(** [next()] is [None]; a middleware that answers returns its response.
    [limiterData] is the object held by the Map, so [limiterData.count++]
    updates the Map entry.  The rejection's [auditLog] call is not awaited:
    its INSERT is issued before the 429 is sent. *)
Definition perClientRateLimit (req : request) : prog (option response) :=
  let key := clientKey req in
  now <- call DateNow ;;
  stored <- call (LimiterGet key) ;;
  limiterData <-
    (match stored with
     | Some d =>
         if now - resetTime d >? RATE_LIMIT_WINDOW_MS
         then call (LimiterSet key (Limiter 0 now)) ;;; Ret (Limiter 0 now)
         else Ret d
     | None => call (LimiterSet key (Limiter 0 now)) ;;; Ret (Limiter 0 now)
     end) ;;
  let limiterData := Limiter (count limiterData + 1) (resetTime limiterData) in
  call (LimiterSet key limiterData) ;;;
  if count limiterData >? RATE_LIMIT_MAX_REQUESTS then
    auditLog None "RATE_LIMIT_EXCEEDED" "request" None (Some key) ;;;
    Ret (Some (json_error 429 "Too many requests"))
  else Ret None.

(** The [setInterval] sweep over [rateLimiters.entries()]. *)
Definition sweep (w : world) : world :=
  let now := clock w in
  with_rateLimiters
    (base.filter (fun kv : string * limiter =>
                    ¬ (now - resetTime kv.2 > RATE_LIMIT_WINDOW_MS))
                 (rateLimiters w)) w.

(** ** Authentication middleware *)

(** The claims of a verified token, [{ userId, role }]. *)
Record token_payload := Payload { userId : option Z; role_claim : option string }.

Inductive verify_result :=
| Verified (p : token_payload)
| TokenExpiredError
| JsonWebTokenError.

(** [req.user]: the columns of 'SELECT id, email, role FROM users'. *)
Record req_user := ReqUser { id_of : Z; email_of : string; role_of : string }.

(** [authHeader && authHeader.startsWith('Bearer ') ? authHeader.substring(7) : null] *)
Definition bearer (authHeader : option string) : option string :=
  match nonempty authHeader with
  | Some h =>
      if String.prefix "Bearer " h
      then Some (String.substring 7 (String.length h - 7) h)
      else None
  | None => None
  end.

Definition falsy_id (o : option Z) : bool :=
  match o with Some n => n =? 0 | None => true end.

Definition falsy_string (o : option string) : bool :=
  match nonempty o with Some _ => false | None => true end.

(** [roles.includes(role)] *)
Definition roles_include (roles : list string) (r : string) : bool :=
  existsb (String.eqb r) roles.

Definition requireRole (roles : list string) (user : option req_user) : option response :=
  match user with
  | None => Some (json_error 403 "Insufficient permissions")
  | Some u =>
      if negb (roles_include roles (role_of u))
      then Some (json_error 403 "Insufficient permissions")
      else None
  end.

Definition validate (ok : bool) : option response :=
  if ok then None else Some validation_failed.

Section Server.

(** The library primitives the server is linked with. *)
Variable jwt_verify : string -> verify_result.
Variable jwt_sign : Z -> string -> string.
Variable bcrypt_hash : string -> string.
Variable bcrypt_compare : string -> string -> bool.
Variable isEmail : string -> bool.
Variable normalizeEmail : string -> string.

(** [inl] is the response of a middleware that answered, [inr] the
    [req.user] it attached before calling [next()]. *)
Definition authenticateToken (req : request) : prog (response + req_user) :=
  match nonempty (bearer (authorization req)) with
  | None => Ret (inl (json_error 401 "Authentication required"))
  | Some token =>
      match jwt_verify token with
      | Verified p =>
          if falsy_id (userId p) || falsy_string (role_claim p)
          then Ret (inl (json_error 401 "Invalid token payload"))
          else
            user <- call (SelectUserById (default 0 (userId p))) ;;
            match user with
            | None => Ret (inl (json_error 401 "User not found"))
            | Some u => Ret (inr (ReqUser (user_id u) (email u) (role u)))
            end
      | TokenExpiredError => Ret (inl (json_error 401 "Token expired"))
      | JsonWebTokenError => Ret (inl (json_error 401 "Invalid token"))
      end
  end.

(** The middleware chain in front of every protected handler:
    [authenticateToken, requireRole(...roles), ...validators, validate]. *)
Definition protected (req : request) (roles : list string) (valid : bool)
    (handler : req_user -> prog response) : prog response :=
  a <- authenticateToken req ;;
  match a with
  | inl res => Ret res
  | inr user =>
      match requireRole roles (Some user) with
      | Some res => Ret res
      | None =>
          match validate valid with
          | Some res => Ret res
          | None => handler user
          end
      end
  end.

Definition failed (label msg : string) (err : exn) : prog response :=
  call (ConsoleError (label +:+ " " +:+ err_message err)) ;;;
  Ret (json_error 500 msg).

(** *** Auth endpoints *)

Definition register (req : request) (email_ password_ role_ : string) : prog response :=
  try_catch
    (existingUser <-! await (SelectUserByEmail email_) ;;
     match existingUser with
     | Some _ => eret (json_error 409 "User already exists")
     | None =>
         let passwordHash := bcrypt_hash password_ in
         result <-! await_run (InsertUser email_ passwordHash role_) ;;
         lift (auditLog (Some (lastID result)) "USER_REGISTERED" "user"
                        (Some (lastID result)) (ip req)) ;;!
         let token := jwt_sign (lastID result) role_ in
         eret (Response 201 (JsonAuth token (lastID result) email_ role_))
     end)
    (failed "Registration error:" "Registration failed").

Definition login (req : request) (email_ password_ : string) : prog response :=
  try_catch
    (user <-! await (SelectUserByEmail email_) ;;
     match user with
     | None => eret (json_error 401 "Invalid credentials")
     | Some user =>
         let isValid := bcrypt_compare password_ (password_hash user) in
         if negb isValid then
           lift (auditLog (Some (user_id user)) "LOGIN_FAILED" "user"
                          (Some (user_id user)) (ip req)) ;;!
           eret (json_error 401 "Invalid credentials")
         else
           lift (auditLog (Some (user_id user)) "LOGIN_SUCCESS" "user"
                          (Some (user_id user)) (ip req)) ;;!
           let token := jwt_sign (user_id user) (role user) in
           eret (Response 200 (JsonAuth token (user_id user) (email user) (role user)))
     end)
    (failed "Login error:" "Login failed").

(** *** Course endpoints *)

Definition post_course (req : request) (user : req_user) (title_ description_ : string)
    : prog response :=
  try_catch
    (result <-! await_run (InsertCourse title_ description_ (id_of user)) ;;
     lift (auditLog (Some (id_of user)) "COURSE_CREATED" "course"
                    (Some (lastID result)) (ip req)) ;;!
     course <-! await (SelectCourse (lastID result)) ;;
     eret (Response 201 (JsonCourse course)))
    (failed "Create course error:" "Failed to create course").

Definition push {A} (l : list A) (x : A) : list A := l ++ [x].

Definition put_course (req : request) (user : req_user) (id : Z)
    (title_ description_ : option string) : prog response :=
  try_catch
    (course <-! await (SelectCourse id) ;;
     match course with
     | None => eret (json_error 404 "Course not found")
     | Some course =>
         if negb (instructor_id course =? id_of user) then
           eret (json_error 403 "Not authorized to modify this course")
         else
           let updates := [] in
           let updates :=
             match title_ with Some t => push updates (SetTitle t) | None => updates end in
           let updates :=
             match description_ with
             | Some d => push updates (SetDescription d)
             | None => updates
             end in
           if (length updates =? 0)%nat then
             eret (json_error 400 "No fields to update")
           else
             let updates := push updates TouchCourse in
             await_run (UpdateCourse updates id) ;;!
             lift (auditLog (Some (id_of user)) "COURSE_UPDATED" "course" (Some id) (ip req)) ;;!
             updatedCourse <-! await (SelectCourse id) ;;
             eret (Response 200 (JsonCourse updatedCourse))
     end)
    (failed "Update course error:" "Failed to update course").

Definition delete_course (req : request) (user : req_user) (id : Z) : prog response :=
  try_catch
    (course <-! await (SelectCourse id) ;;
     match course with
     | None => eret (json_error 404 "Course not found")
     | Some course =>
         if negb (instructor_id course =? id_of user) then
           eret (json_error 403 "Not authorized to delete this course")
         else
           await_run (DeleteCourse id) ;;!
           lift (auditLog (Some (id_of user)) "COURSE_DELETED" "course" (Some id) (ip req)) ;;!
           eret (Response 204 Empty)
     end)
    (failed "Delete course error:" "Failed to delete course").

(** *** Lesson endpoints *)

(** [course.instructor_id] on the result of a lookup: reading a property
    of [undefined] throws. *)
Definition instructor_of (course : option course_row) : eprog Z :=
  match course with
  | Some c => eret (instructor_id c)
  | None => throw (TypeError "Cannot read properties of undefined (reading 'instructor_id')")
  end.

Definition post_lesson (req : request) (user : req_user) (courseId : Z)
    (title_ content_ : string) (order_index_ : Z) : prog response :=
  try_catch
    (course <-! await (SelectCourse courseId) ;;
     match course with
     | None => eret (json_error 404 "Course not found")
     | Some course =>
         if negb (instructor_id course =? id_of user) then
           eret (json_error 403 "Not authorized to add lessons to this course")
         else
           result <-! await_run (InsertLesson courseId title_ content_ order_index_) ;;
           lift (auditLog (Some (id_of user)) "LESSON_CREATED" "lesson"
                          (Some (lastID result)) (ip req)) ;;!
           lesson <-! await (SelectLesson (lastID result)) ;;
           eret (Response 201 (JsonLesson lesson))
     end)
    (failed "Create lesson error:" "Failed to create lesson").

Definition put_lesson (req : request) (user : req_user) (id : Z)
    (title_ content_ : option string) (order_index_ : option Z) : prog response :=
  try_catch
    (lesson <-! await (SelectLesson id) ;;
     match lesson with
     | None => eret (json_error 404 "Lesson not found")
     | Some lesson =>
         course <-! await (SelectCourse (lesson_course_id lesson)) ;;
         owner <-! instructor_of course ;;
         if negb (owner =? id_of user) then
           eret (json_error 403 "Not authorized to modify this lesson")
         else
           let updates := [] in
           let updates :=
             match title_ with
             | Some t => push updates (SetLessonTitle t)
             | None => updates
             end in
           let updates :=
             match content_ with Some c => push updates (SetContent c) | None => updates end in
           let updates :=
             match order_index_ with
             | Some o => push updates (SetOrderIndex o)
             | None => updates
             end in
           if (length updates =? 0)%nat then
             eret (json_error 400 "No fields to update")
           else
             let updates := push updates TouchLesson in
             await_run (UpdateLesson updates id) ;;!
             lift (auditLog (Some (id_of user)) "LESSON_UPDATED" "lesson" (Some id) (ip req)) ;;!
             updatedLesson <-! await (SelectLesson id) ;;
             eret (Response 200 (JsonLesson updatedLesson))
     end)
    (failed "Update lesson error:" "Failed to update lesson").

Definition delete_lesson (req : request) (user : req_user) (id : Z) : prog response :=
  try_catch
    (lesson <-! await (SelectLesson id) ;;
     match lesson with
     | None => eret (json_error 404 "Lesson not found")
     | Some lesson =>
         course <-! await (SelectCourse (lesson_course_id lesson)) ;;
         owner <-! instructor_of course ;;
         if negb (owner =? id_of user) then
           eret (json_error 403 "Not authorized to delete this lesson")
         else
           await_run (DeleteLesson id) ;;!
           lift (auditLog (Some (id_of user)) "LESSON_DELETED" "lesson" (Some id) (ip req)) ;;!
           eret (Response 204 Empty)
     end)
    (failed "Delete lesson error:" "Failed to delete lesson").

(** *** Enrollment endpoints *)

Definition post_enrollment (req : request) (user : req_user) (course_id_ : Z)
    : prog response :=
  try_catch
    (course <-! await (SelectCourse course_id_) ;;
     match course with
     | None => eret (json_error 404 "Course not found")
     | Some _ =>
         existingEnrollment <-! await (SelectEnrollmentByPair (id_of user) course_id_) ;;
         match existingEnrollment with
         | Some _ => eret (json_error 409 "Already enrolled in this course")
         | None =>
             result <-! await_run (InsertEnrollment (id_of user) course_id_) ;;
             lift (auditLog (Some (id_of user)) "ENROLLMENT_CREATED" "enrollment"
                            (Some (lastID result)) (ip req)) ;;!
             enrollment <-! await (SelectEnrollment (lastID result)) ;;
             eret (Response 201 (JsonEnrollment enrollment))
         end
     end)
    (failed "Create enrollment error:" "Failed to enroll in course").

Definition delete_enrollment (req : request) (user : req_user) (id : Z) : prog response :=
  try_catch
    (enrollment <-! await (SelectEnrollmentOwned id (id_of user)) ;;
     match enrollment with
     | None => eret (json_error 404 "Enrollment not found")
     | Some _ =>
         await_run (DeleteEnrollment id) ;;!
         lift (auditLog (Some (id_of user)) "ENROLLMENT_DELETED" "enrollment"
                        (Some id) (ip req)) ;;!
         eret (Response 204 Empty)
     end)
    (failed "Delete enrollment error:" "Failed to unenroll from course").

(** *** Progress tracking *)

(** [completed ? new Date().toISOString() : null] *)
Definition completion_stamp (completed_ : jsval) : prog (option Z) :=
  if truthy completed_ then now <- call DateNow ;; Ret (Some now) else Ret None.

Definition post_progress (req : request) (user : req_user) (lesson_id_ : Z)
    (completed_ : jsval) : prog response :=
  try_catch
    (lesson <-! await (SelectLesson lesson_id_) ;;
     match lesson with
     | None => eret (json_error 404 "Lesson not found")
     | Some lesson =>
         enrollment <-!
           await (SelectEnrollmentByPair (id_of user) (lesson_course_id lesson)) ;;
         match enrollment with
         | None => eret (json_error 403 "Must be enrolled in course to track progress")
         | Some _ =>
             existingProgress <-! await (SelectProgress (id_of user) lesson_id_) ;;
             result_id <-!
               (match existingProgress with
                | Some existing =>
                    stamp <-! lift (completion_stamp completed_) ;;
                    await_run (UpdateProgress (if truthy completed_ then 1 else 0) stamp
                                              (id_of user) lesson_id_) ;;!
                    eret (progress_id existing)
                | None =>
                    stamp <-! lift (completion_stamp completed_) ;;
                    insertResult <-!
                      await_run (InsertProgress (id_of user) lesson_id_
                                                (if truthy completed_ then 1 else 0) stamp) ;;
                    eret (lastID insertResult)
                end) ;;
             lift (auditLog (Some (id_of user)) "PROGRESS_UPDATED" "progress"
                            (Some result_id) (ip req)) ;;!
             progress_ <-! await (SelectProgress (id_of user) lesson_id_) ;;
             eret (Response 200 (JsonProgress progress_))
         end
     end)
    (failed "Update progress error:" "Failed to update progress").

(** *** Routing *)

Definition is_int_min (lo n : Z) : bool := lo <=? n.

Definition route (req : request) : prog response :=
  match target req with
  | EpHealth => Ret (Response 200 JsonHealth)
  | EpRegister e p r =>
      match validate (isEmail e && isLength 8 128 p && valid_role r) with
      | Some res => Ret res
      | None => register req (normalizeEmail e) p r
      end
  | EpLogin e p =>
      match validate (isEmail e && isLength 1 128 p) with
      | Some res => Ret res
      | None => login req (normalizeEmail e) p
      end
  | EpPostCourse t d =>
      protected req ["instructor"]
        (isLength 1 200 (trim t) && isLength 1 5000 (trim d))
        (fun user => post_course req user (trim t) (trim d))
  | EpPutCourse id t d =>
      protected req ["instructor"]
        (is_int_min 1 id
         && optional (fun t => isLength 1 200 (trim t)) t
         && optional (fun d => isLength 1 5000 (trim d)) d)
        (fun user => put_course req user id (trim <$> t) (trim <$> d))
  | EpDeleteCourse id =>
      protected req ["instructor"] (is_int_min 1 id)
        (fun user => delete_course req user id)
  | EpPostLesson courseId t c o =>
      protected req ["instructor"]
        (is_int_min 1 courseId && isLength 1 200 (trim t)
         && isLength 1 50000 (trim c) && is_int_min 0 o)
        (fun user => post_lesson req user courseId (trim t) (trim c) o)
  | EpPutLesson id t c o =>
      protected req ["instructor"]
        (is_int_min 1 id
         && optional (fun t => isLength 1 200 (trim t)) t
         && optional (fun c => isLength 1 50000 (trim c)) c
         && optional (is_int_min 0) o)
        (fun user => put_lesson req user id (trim <$> t) (trim <$> c) o)
  | EpDeleteLesson id =>
      protected req ["instructor"] (is_int_min 1 id)
        (fun user => delete_lesson req user id)
  | EpPostEnrollment c =>
      protected req ["student"] (is_int_min 1 c)
        (fun user => post_enrollment req user c)
  | EpDeleteEnrollment id =>
      protected req ["student"] (is_int_min 1 id)
        (fun user => delete_enrollment req user id)
  | EpPostProgress l c =>
      protected req ["student"] (is_int_min 1 l && isBoolean c)
        (fun user => post_progress req user l c)
  | EpOther _ => Ret (json_error 404 "Endpoint not found")
  end.

Definition is_body_method (m : method) : bool :=
  match m with POST | PUT | PATCH => true | _ => false end.

Definition json_content_type (h : option string) : bool :=
  match nonempty h with
  | Some ct => includes "application/json" ct
  | None => false
  end.

(** The application: the [app.use] middlewares in registration order
    (CORS and preflight, content-type guard, rate limiter), then the
    routes. *)
Definition app (req : request) : prog response :=
  match method_of (target req) with
  | OPTIONS =>
      match nonempty (authorization req) with
      | None => Ret (json_error 401 "Authentication required")
      | Some _ => Ret (Response 204 Empty)
      end
  | m =>
      if is_body_method m && negb (json_content_type (content_type req)) then
        Ret (json_error 415 "Content-Type must be application/json")
      else
        limited <- perClientRateLimit req ;;
        match limited with
        | Some res => Ret res
        | None => route req
        end
  end.

End Server.

(** ** Requests over time *)

(** A request that is served when the clock reads [t]. *)
Definition at_time {R} (t : Z) (p : prog R) (w : world) : R * world :=
  run p (with_clock t w).

(** The rate limiter facing one client whose requests arrive at [times]. *)
Fixpoint limiter_run (req : request) (times : list Z) (w : world)
    : list (option response) * world :=
  match times with
  | [] => ([], w)
  | t :: rest =>
      let '(d, w1) := at_time t (perClientRateLimit req) w in
      let '(ds, w2) := limiter_run req rest w1 in
      (d :: ds, w2)
  end.

(** A server answering the requests one after the other, each at its
    time. *)
Fixpoint serve (server : request -> prog response) (l : list (Z * request))
    (w : world) : list response * world :=
  match l with
  | [] => ([], w)
  | (t, r) :: rest =>
      let '(res, w1) := at_time t (server r) w in
      let '(ress, w2) := serve server rest w1 in
      (res :: ress, w2)
  end.

(** A request passes when the limiter calls [next()]. *)
Definition let_through (d : option response) : bool :=
  match d with None => true | Some _ => false end.

(** Requests in flight together: [step] runs one effect of a suspended
    request, and a schedule says whose effect runs next ([true]: the
    first request, [false]: the second). *)
Definition step {R} (p : prog R) (w : world) : prog R * world :=
  match p with
  | Ret r => (Ret r, w)
  | Await o k => let '(a, w') := exec o w in (k a, w')
  end.

Fixpoint interleave {R} (schedule : list bool) (p q : prog R) (w : world)
    : prog R * prog R * world :=
  match schedule with
  | [] => (p, q, w)
  | true :: rest => let '(p', w') := step p w in interleave rest p' q w'
  | false :: rest => let '(q', w') := step q w in interleave rest p q' w'
  end.

(** Both requests run to completion after the schedule is exhausted. *)
Definition race {R} (schedule : list bool) (p q : prog R) (w : world)
    : R * R * world :=
  let '(p', q', w1) := interleave schedule p q w in
  let '(a, w2) := run p' w1 in
  let '(b, w3) := run q' w2 in
  (a, b, w3).

(** ** Predicates on the state *)

(** The Progress invariant of one row, and of the table. *)
Definition progress_ok (p : progress_row) : bool :=
  match completed_at p with
  | Some _ => completed p =? 1
  | None => completed p =? 0
  end.

Definition progress_table_ok (w : world) : Prop :=
  Forall (fun p => progress_ok p = true) (rows (progress w)).

(** Two states that agree on everything but the audit trail: the
    [audit_log] table, the fault of its storage, and the console. *)
Definition same_entities (w1 w2 : world) : Prop :=
  users w1 = users w2 /\ courses w1 = courses w2 /\ lessons w1 = lessons w2
  /\ enrollments w1 = enrollments w2 /\ progress w1 = progress w2
  /\ rateLimiters w1 = rateLimiters w2 /\ clock w1 = clock w2.

(** A program whose result and entity state do not depend on the audit
    trail. *)
Definition audit_independent {R} (p : prog R) : Prop :=
  forall w1 w2, same_entities w1 w2 ->
    fst (run p w1) = fst (run p w2)
    /\ same_entities (snd (run p w1)) (snd (run p w2)).

(** The effects that neither read nor write the audit trail. *)
Definition entity_op {A} (o : op A) : bool :=
  match o with
  | InsertAudit _ _ _ _ _ => false
  | ConsoleError _ => false
  | _ => true
  end.

(** The effects that touch neither the audit trail nor the progress and
    enrollments tables. *)
Definition plain_op {A} (o : op A) : bool :=
  match o with
  | InsertAudit _ _ _ _ _ | ConsoleError _
  | InsertProgress _ _ _ _ | UpdateProgress _ _ _ _
  | InsertEnrollment _ _ | DeleteEnrollment _ => false
  | _ => true
  end.

(** The row written by the upsert: [completed ? 1 : 0] and
    [completed ? new Date().toISOString() : null]. *)
Definition stamped (completed_ : jsval) (now : Z) (p : progress_row) : progress_row :=
  Progress (progress_id p) (progress_student_id p) (progress_lesson_id p)
           (if truthy completed_ then 1 else 0)
           (if truthy completed_ then Some now else None).

(** The effects that write the progress table. *)
Definition progress_writer {A} (o : op A) : bool :=
  match o with
  | InsertProgress _ _ _ _ | UpdateProgress _ _ _ _ => true
  | _ => false
  end.

(** The effects that write the enrollments table. *)
Definition enrollment_writer {A} (o : op A) : bool :=
  match o with
  | InsertEnrollment _ _ | DeleteEnrollment _ => true
  | _ => false
  end.

(** The primary key of enrollments: ids are distinct and none exceeds the
    AUTOINCREMENT counter. *)
Definition enrollment_keys_ok (w : world) : Prop :=
  NoDup (map enrollment_id (rows (enrollments w)))
  /\ Forall (fun e => enrollment_id e <= last_id (enrollments w)) (rows (enrollments w)).

(** A program that preserves the state predicate [I]. *)
Definition keeps (I : world -> Prop) {R} (p : prog R) : Prop :=
  forall w, I w -> I (snd (run p w)).

Definition success (res : response) : bool :=
  (status res =? 200) || (status res =? 201) || (status res =? 204).

(** The audit action each mutating route records when it succeeds.  Login
    records an action on both of its outcomes and is treated apart. *)
Definition audit_action (e : endpoint) : option string :=
  match e with
  | EpRegister _ _ _ => Some "USER_REGISTERED"
  | EpPostCourse _ _ => Some "COURSE_CREATED"
  | EpPutCourse _ _ _ => Some "COURSE_UPDATED"
  | EpDeleteCourse _ => Some "COURSE_DELETED"
  | EpPostLesson _ _ _ _ => Some "LESSON_CREATED"
  | EpPutLesson _ _ _ _ => Some "LESSON_UPDATED"
  | EpDeleteLesson _ => Some "LESSON_DELETED"
  | EpPostEnrollment _ => Some "ENROLLMENT_CREATED"
  | EpDeleteEnrollment _ => Some "ENROLLMENT_DELETED"
  | EpPostProgress _ _ => Some "PROGRESS_UPDATED"
  | EpLogin _ _ | EpHealth | EpOther _ => None
  end.

(** One row was appended to [audit_log], for action [act] and with an
    actor. *)
Definition audited (act : string) (w w' : world) : Prop :=
  exists a, rows (audit_log w') = (rows (audit_log w) ++ [a])%list
            /\ action a = act /\ audit_user_id a <> None.

(** A program that writes its audit row exactly when it answers 2xx,
    while the audit storage is healthy. *)
Definition audits_on_success (act : string) (p : prog response) : Prop :=
  forall w, audit_fault w = false ->
    let out := run p w in
    if success (fst out) then audited act w (snd out)
    else audit_log (snd out) = audit_log w.

(** ** A concrete deployment, for the examples

    Tokens are looked up in a table; [ann] and [stale] are two tokens of
    the same subject that differ in their role claim. *)
Module Demo.

Definition verify (t : string) : verify_result :=
  if String.eqb t "ann" then Verified (Payload (Some 1) (Some "instructor"))
  else if String.eqb t "bob" then Verified (Payload (Some 2) (Some "student"))
  else if String.eqb t "cat" then Verified (Payload (Some 3) (Some "instructor"))
  else if String.eqb t "dan" then Verified (Payload (Some 4) (Some "student"))
  else if String.eqb t "stale" then Verified (Payload (Some 1) (Some "student"))
  else if String.eqb t "old" then TokenExpiredError
  else JsonWebTokenError.

Definition sign (uid : Z) (r : string) : string := "token-for-" +:+ r.
Definition hash (p : string) : string := "$2b$12$" +:+ p.
Definition compare (p h : string) : bool := String.eqb (hash p) h.
Definition is_email (s : string) : bool := includes "@" s.
Definition normalize (s : string) : string := s.

Definition server : request -> prog response :=
  app verify sign hash compare is_email normalize.

Definition req (token : option string) (e : endpoint) : request :=
  Request token (Some "application/json") (Some "10.0.0.1") None e.

(** Instructor ann (id 1) owns course 1 with lesson 1; student bob
    (id 2) is enrolled in it; instructor cat (id 3) owns nothing and
    student dan (id 4) is not enrolled. *)
Definition campus : world :=
  World
    (Table [ User 1 "ann@x.com" "$2b$12$password1" "instructor";
             User 2 "bob@x.com" "$2b$12$password1" "student";
             User 3 "cat@x.com" "$2b$12$password1" "instructor";
             User 4 "dan@x.com" "$2b$12$password1" "student" ] 4)
    (Table [ Course 1 "Intro" "d" 1 4 4 ] 1)
    (Table [ Lesson 1 1 "Lesson" "text" 0 5 5 ] 1)
    (Table [ Enrollment 1 2 1 6 ] 1)
    (Table [] 0)
    (Table [ Audit 1 (Some 1) "USER_REGISTERED" "user" (Some 1) 1 (Some "10.0.0.1");
             Audit 2 (Some 2) "USER_REGISTERED" "user" (Some 2) 2 (Some "10.0.0.1");
             Audit 3 (Some 3) "USER_REGISTERED" "user" (Some 3) 3 (Some "10.0.0.1");
             Audit 4 (Some 4) "USER_REGISTERED" "user" (Some 4) 3 (Some "10.0.0.1");
             Audit 5 (Some 1) "COURSE_CREATED" "course" (Some 1) 4 (Some "10.0.0.1");
             Audit 6 (Some 1) "LESSON_CREATED" "lesson" (Some 1) 5 (Some "10.0.0.1");
             Audit 7 (Some 2) "ENROLLMENT_CREATED" "enrollment" (Some 1) 6
                   (Some "10.0.0.1") ] 7)
    false
    {[ "10.0.0.1" := Limiter 7 1000 ]}
    []
    6000.

(** The requests that build [campus] from an empty database. *)
Definition campus_history : list (Z * request) :=
  [ (1000, req None (EpRegister "ann@x.com" "password1" "instructor"));
    (2000, req None (EpRegister "bob@x.com" "password1" "student"));
    (3000, req None (EpRegister "cat@x.com" "password1" "instructor"));
    (3500, req None (EpRegister "dan@x.com" "password1" "student"));
    (4000, req (Some "Bearer ann") (EpPostCourse "Intro" "d"));
    (5000, req (Some "Bearer ann") (EpPostLesson 1 "Lesson" "text" 0));
    (6000, req (Some "Bearer bob") (EpPostEnrollment 1)) ].

(** [campus] after bob has unenrolled. *)
Definition reopened : world :=
  snd (at_time 6500 (server (req (Some "Bearer bob") (EpDeleteEnrollment 1))) campus).

(** Two enrollment requests of bob for course 1 in flight together on
    [reopened]: the first runs up to and including its duplicate
    pre-check (three effects of the rate limiter, the user lookup of
    [authenticateToken], the course lookup, the pre-check), then the second
    does the same, then each runs to completion. *)
Definition enrollment_race : response * response * world :=
  race (repeat true 6 ++ repeat false 6)
       (server (req (Some "Bearer bob") (EpPostEnrollment 1)))
       (server (req (Some "Bearer bob") (EpPostEnrollment 1)))
       (with_clock 7000 reopened).

End Demo.

(** ** The constraints of the schema *)

(** PRIMARY KEY AUTOINCREMENT: the keys are distinct and none exceeds the
    counter. *)
Definition keys_ok {R} (key : R -> Z) (t : table R) : Prop :=
  NoDup (map key (rows t)) /\ Forall (fun r => key r <= last_id t) (rows t).

(** The columns of UNIQUE(student_id, course_id) and
    UNIQUE(student_id, lesson_id). *)
Definition enrollment_pair (e : enrollment_row) : Z * Z :=
  (student_id e, enrollment_course_id e).

Definition progress_pair (p : progress_row) : Z * Z :=
  (progress_student_id p, progress_lesson_id p).

(** The PRIMARY KEY, UNIQUE and CHECK constraints of the six tables. *)
Record schema_ok (w : world) : Prop := SchemaOk {
  users_keys : keys_ok user_id (users w);
  users_emails : NoDup (map email (rows (users w)));
  users_roles : Forall (fun u => valid_role (role u) = true) (rows (users w));
  courses_keys : keys_ok course_id (courses w);
  lessons_keys : keys_ok lesson_id (lessons w);
  enrollments_keys : keys_ok enrollment_id (enrollments w);
  enrollments_pairs : NoDup (map enrollment_pair (rows (enrollments w)));
  progress_keys : keys_ok progress_id (progress w);
  progress_pairs : NoDup (map progress_pair (rows (progress w)));
  audit_keys : keys_ok audit_id (audit_log w) }.

(** A course id that has been handed out and is not in the table. *)
Definition course_gone (id : Z) (w : world) : Prop :=
  id <= last_id (courses w) /\ ~ In id (map course_id (rows (courses w))).

(** The effect of 'DELETE FROM lessons'. *)
Definition lesson_deleter {A} (o : op A) : bool :=
  match o with
  | DeleteLesson _ => true
  | _ => false
  end.

(** Lesson [id] is in the table and belongs to course [cid], whose id has
    been handed out and is not in the courses table. *)
Definition orphaned (cid id : Z) (w : world) : Prop :=
  course_gone cid w
  /\ exists l, find (fun l => lesson_id l =? id) (rows (lessons w)) = Some l
               /\ lesson_course_id l = cid.

(** Signing and verification for one more account on [Demo.campus]: eve,
    who will get id 5. *)
Module Signup.

Definition sign (uid : Z) (r : string) : string := "eve".

Definition verify (t : string) : verify_result :=
  if String.eqb t "eve" then Verified (Payload (Some 5) (Some "instructor"))
  else JsonWebTokenError.

Definition eve : request :=
  Demo.req None (EpRegister "eve@x.com" "password5" "instructor").

End Signup.

(** ** The role each mutating route asks for *)

(** The argument of [requireRole] in the chain of the route; [None] for
    the routes without a role check. *)
Definition required_role (e : endpoint) : option string :=
  match e with
  | EpPostCourse _ _ | EpPutCourse _ _ _ | EpDeleteCourse _
  | EpPostLesson _ _ _ _ | EpPutLesson _ _ _ _ | EpDeleteLesson _ => Some "instructor"
  | EpPostEnrollment _ | EpDeleteEnrollment _ | EpPostProgress _ _ => Some "student"
  | _ => None
  end.

(** ** Reading a lesson *)

(** The chain of a route that asks for authentication only:
    [authenticateToken, ...validators, validate]. *)
Definition authenticated (jwt_verify : string -> verify_result) (req : request)
    (valid : bool) (handler : req_user -> prog response) : prog response :=
  a <- authenticateToken jwt_verify req ;;
  match a with
  | inl res => Ret res
  | inr user =>
      match validate valid with
      | Some res => Ret res
      | None => handler user
      end
  end.

(** GET /api/lessons/:id *)
Definition get_lesson (id : Z) : prog response :=
  try_catch
    (lesson <-! await (SelectLesson id) ;;
     match lesson with
     | None => eret (json_error 404 "Lesson not found")
     | Some _ => eret (Response 200 (JsonLesson lesson))
     end)
    (failed "Get lesson error:" "Failed to retrieve lesson").

Definition get_lesson_route (jwt_verify : string -> verify_result) (req : request)
    (id : Z) : prog response :=
  authenticated jwt_verify req (is_int_min 1 id) (fun _ => get_lesson id).

(** ** Pagination *)

(** [query('page').optional().isInt({ min: 1, max: 10000 }).toInt()] and
    [query('limit').optional().isInt({ min: 1, max: 100 }).toInt()], on
    parameters that are absent or integers. *)
Definition paginationValidator (page limit : option Z) : bool :=
  optional (fun p => (1 <=? p) && (p <=? 10000)) page
  && optional (fun l => (1 <=? l) && (l <=? 100)) limit.

(** [n || d] on an optional number: [undefined] and [0] are falsy. *)
Definition or_default (o : option Z) (d : Z) : Z :=
  match o with
  | Some n => if n =? 0 then d else n
  | None => d
  end.

(** [{ limit, offset }] as the pair [(limit, offset)]. *)
Definition applyPagination (page limit : option Z) : Z * Z :=
  let page := or_default page 1 in
  let limit := or_default limit 20 in
  let offset := (page - 1) * limit in
  (limit, offset).

(** ** Configuration validation at startup *)

(** The environment variables the startup checks read; [None] is
    [undefined].  The properties are stated for values that are ASCII
    text, on which the lengths and the white space of the model are
    JavaScript's. *)
Record environment := Environment {
  env_JWT_SECRET : option string;
  env_BCRYPT_ROUNDS : option string;
  env_ALLOWED_ORIGINS : option string }.

Definition digit_value (c : ascii) : option Z :=
  let n := nat_of_ascii c in
  if ((48 <=? n) && (n <=? 57))%nat then Some (Z.of_nat n - 48) else None.

(** The decimal digits at the front of [s], read after the digits that
    gave [acc]; [None] when there is no digit at all. *)
Fixpoint parse_digits (s : string) (acc : option Z) : option Z :=
  match s with
  | String c rest =>
      match digit_value c with
      | Some d => parse_digits rest (Some (10 * default 0 acc + d))
      | None => acc
      end
  | EmptyString => acc
  end.

(** [parseInt(s, 10)] on ASCII text: leading white space is skipped, a
    sign is read, then the longest run of digits; [None] is [NaN]. *)
Definition parseInt (s : string) : option Z :=
  match ltrim s with
  | String "-" rest => Z.opp <$> parse_digits rest None
  | String "+" rest => parse_digits rest None
  | t => parse_digits t None
  end.

(** [s.split(',')], with [current] the segment being read. *)
Fixpoint split_comma (s current : string) : list string :=
  match s with
  | EmptyString => [current]
  | String c rest =>
      if Ascii.eqb c ","
      then current :: split_comma rest ""
      else split_comma rest (current +:+ String c "")
  end.

(** [(process.env.ALLOWED_ORIGINS || '').split(',').filter(Boolean)] *)
Definition ALLOWED_ORIGINS (e : environment) : list string :=
  List.filter (fun s => negb (String.eqb s ""))
              (split_comma (default "" (nonempty (env_ALLOWED_ORIGINS e))) "").

(** [parseInt(process.env.BCRYPT_ROUNDS || '12', 10)] *)
Definition BCRYPT_ROUNDS (e : environment) : option Z :=
  parseInt (default "12" (nonempty (env_BCRYPT_ROUNDS e))).

(** The outcome of the checks: [process.exit(1)] after a line on the
    console, or the module goes on to set the server up. *)
Inductive startup :=
| Exits (line : string)
| Starts.

(** A comparison with [NaN] is false. *)
Definition validate_configuration (e : environment) : startup :=
  if match nonempty (env_JWT_SECRET e) with
     | None => true
     | Some s => (String.length s <? 32)%nat
     end
  then Exits "FATAL: JWT_SECRET must be set and at least 32 characters"
  else if match BCRYPT_ROUNDS e with
          | Some n => (n <? 10) || (n >? 15)
          | None => false
          end
  then Exits "FATAL: BCRYPT_ROUNDS must be between 10 and 15"
  else if (length (ALLOWED_ORIGINS e) =? 0)%nat
  then Exits "FATAL: ALLOWED_ORIGINS must be explicitly set (comma-separated list)"
  else Starts.

(** ** ASCII text

    A string of the model is a sequence of 8-bit characters.  On ASCII
    text it is the JavaScript string with the same characters: lengths,
    white space and code units agree.  The properties that depend on
    these are stated for ASCII text. *)

Definition is_ascii (c : ascii) : bool := (nat_of_ascii c <? 128)%nat.

Fixpoint ascii_text (s : string) : bool :=
  match s with
  | String c rest => is_ascii c && ascii_text rest
  | EmptyString => true
  end.

Definition ascii_value (o : option string) : bool :=
  match o with
  | Some s => ascii_text s
  | None => true
  end.

(** The visible ASCII characters, '!' to '~'; the characters of a JWT
    are among them. *)
Definition visible (c : ascii) : bool :=
  let n := nat_of_ascii c in ((33 <=? n) && (n <=? 126))%nat.

Fixpoint visible_text (s : string) : bool :=
  match s with
  | String c rest => visible c && visible_text rest
  | EmptyString => true
  end.

(** ** The web client ([frontend/src/utils/api.js], [auth.js])

    The client side of a request: what [apiRequest] hands to [fetch], what
    [fetch] does with it as far as the server is concerned, and how
    [apiRequest] settles.  The server answers within the timeout. *)

(** What the client keeps in the browser: the 'auth_token' item of
    [localStorage] and [window.location.href]. *)
Record browser := Browser { auth_token : option string; href : string }.

Definition getAuthToken (b : browser) : option string := auth_token b.

Definition clearAuthToken (b : browser) : browser := Browser None (href b).

(** The two ways [fetch] rejects with a [TypeError]. *)
Inductive fetch_failure :=
| InvalidHeader
| NetworkError.

(** A promise that has settled; [Failed] is the [TypeError] of [fetch],
    which [apiRequest] throws again. *)
Inductive settled :=
| Resolved (data : option body)
| Rejected (message : string)
| Failed (why : fetch_failure).

(** *** Header values (Fetch standard)

    A header value is normalized by removing its leading and trailing
    HTTP white space (tab, line feed, carriage return, space), and is
    refused when a NUL, a line feed or a carriage return is left in
    it. *)
Definition http_whitespace (c : ascii) : bool :=
  let n := nat_of_ascii c in
  ((n =? 9) || (n =? 10) || (n =? 13) || (n =? 32))%nat.

Fixpoint strip_leading (s : string) : string :=
  match s with
  | String c rest => if http_whitespace c then strip_leading rest else s
  | EmptyString => EmptyString
  end.

Fixpoint strip_trailing (s : string) : string :=
  match s with
  | String c rest =>
      match strip_trailing rest with
      | EmptyString => if http_whitespace c then EmptyString else String c EmptyString
      | r => String c r
      end
  | EmptyString => EmptyString
  end.

Fixpoint has_forbidden (s : string) : bool :=
  match s with
  | String c rest =>
      let n := nat_of_ascii c in
      ((n =? 0) || (n =? 10) || (n =? 13))%nat || has_forbidden rest
  | EmptyString => false
  end.

Definition header_value (v : string) : option string :=
  let v := strip_trailing (strip_leading v) in
  if has_forbidden v then None else Some v.

(** The request [apiRequest] builds: 'Content-Type: application/json'
    and, when a token is stored, 'Authorization: Bearer <token>'; [None]
    when the header is refused.  [addr] and [remote] are the addresses
    the server sees. *)
Definition client_request (b : browser) (addr remote : option string)
    (target : endpoint) : option request :=
  match nonempty (getAuthToken b) with
  | None => Some (Request None (Some "application/json") addr remote target)
  | Some token =>
      match header_value ("Bearer " +:+ token) with
      | Some v => Some (Request (Some v) (Some "application/json") addr remote target)
      | None => None
      end
  end.

(** *** [fetch] from a page

    Where the page comes from: the origin of the API, or another origin,
    which the server's ALLOWED_ORIGINS include or not. *)
Inductive page :=
| SameOrigin
| OtherOrigin (allowed : bool).

(** The preflight of a request to another origin: OPTIONS on the same
    URL, sent without credentials, hence without the Authorization
    header, and without a body. *)
Definition preflight (req : request) : request :=
  Request None None (ip req) (remoteAddress req) (EpOther OPTIONS).

Definition ok_status (res : response) : bool :=
  (200 <=? status res) && (status res <=? 299).

(** A request with the content type application/json to another origin
    is preceded by its preflight, and is sent only when the preflight is
    answered with an ok status and the CORS headers, which the server
    sets for the origins it allows.  [None] is the network error. *)
Definition fetch (from : page) (server : request -> prog response) (req : request)
    (w : world) : option response * world :=
  match from with
  | SameOrigin => let '(res, w') := run (server req) w in (Some res, w')
  | OtherOrigin allowed =>
      let '(pre, w1) := run (server (preflight req)) w in
      if allowed && ok_status pre then
        let '(res, w2) := run (server req) w1 in (Some res, w2)
      else (None, w1)
  end.

(** [errorData.error || 'Request failed'] *)
Definition error_of (p : body) : string :=
  match p with
  | JsonError e => if String.eqb e "" then "Request failed" else e
  | JsonValidation => "Validation failed"
  | _ => "Request failed"
  end.

(** [apiRequest] once [fetch] has answered. *)
Definition settle (res : response) (b : browser) : settled * browser :=
  if status res =? 401 then
    (Rejected "Session expired. Please login again.", Browser None "/login")
  else if negb (ok_status res) then
    (Rejected (error_of (payload res)), b)
  else
    match payload res with
    | Empty => (Resolved None, b)
    | p => (Resolved (Some p), b)
    end.

Definition apiRequest (from : page) (server : request -> prog response)
    (addr remote : option string) (target : endpoint) (b : browser) (w : world)
    : settled * browser * world :=
  match client_request b addr remote target with
  | None => (Failed InvalidHeader, b, w)
  | Some req =>
      let '(answer, w') := fetch from server req w in
      match answer with
      | None => (Failed NetworkError, b, w')
      | Some res => let '(s, b') := settle res b in (s, b', w')
      end
  end.

(** [api.login] *)
Definition api_login (from : page) (server : request -> prog response)
    (addr remote : option string) (email_ password_ : string) (b : browser) (w : world)
    : settled * browser * world :=
  if String.eqb email_ "" || String.eqb password_ "" then
    (Rejected "Missing required fields", b, w)
  else apiRequest from server addr remote (EpLogin email_ password_) b w.

(** * Properties *)

(** ** The helpers on small inputs *)

Example trim_strips_both_ends : trim "  Intro to Rocq 	" = "Intro to Rocq".
Proof. reflexivity. Qed.

Example includes_json :
  includes "application/json" "application/json; charset=utf-8" = true
  /\ includes "application/json" "text/plain" = false.
Proof. split; reflexivity. Qed.

Example bearer_token :
  bearer (Some "Bearer abc.def.ghi") = Some "abc.def.ghi"
  /\ bearer (Some "Basic abc") = None
  /\ nonempty (bearer (Some "Bearer ")) = None
  /\ bearer None = None.
Proof. repeat split. Qed.

Example client_key_fallback :
  clientKey (Request None None None None EpHealth) = "unknown"
  /\ clientKey (Request None None None (Some "192.0.2.7") EpHealth) = "192.0.2.7".
Proof. split; reflexivity. Qed.

(** The scenario of a first session: an instructor registers and creates
    course 1, a student registers and enrolls, and progress on a lesson
    that does not exist is answered 404. *)
Example first_session :
  map status
    (fst (serve Demo.server
       [ (1000, Demo.req None (EpRegister "a@x.com" "password1" "instructor"));
         (2000, Demo.req (Some "Bearer ann") (EpPostCourse "Intro" "d"));
         (3000, Demo.req None (EpRegister "b@x.com" "password1" "student"));
         (4000, Demo.req (Some "Bearer bob") (EpPostEnrollment 1));
         (5000, Demo.req (Some "Bearer bob") (EpPostProgress 999 (JBool true))) ]
       (initial_world 0)))
  = [201; 201; 201; 201; 404].
Proof. vm_compute. reflexivity. Qed.

(** ** Running programs *)

Lemma run_bind {R S} (p : prog R) (f : R -> prog S) (w : world) :
  run (bind p f) w = let '(a, w') := run p w in run (f a) w'.
Proof.
  revert w. induction p as [r | A o k IH]; intros w; simpl.
  - reflexivity.
  - destruct (exec o w) as [a w']. apply IH.
Qed.

Lemma run_auditLog_ok uid act rtype rid addr w :
  audit_fault w = false ->
  run (auditLog uid act rtype rid addr) w =
  (tt, with_audit_log
         (Table (rows (audit_log w)
                 ++ [Audit (last_id (audit_log w) + 1) uid act rtype rid
                           (current_timestamp w) addr])
                (last_id (audit_log w) + 1)) w).
Proof. intros H. unfold auditLog. simpl. rewrite H. reflexivity. Qed.

Lemma run_auditLog_fault uid act rtype rid addr w :
  audit_fault w = true ->
  run (auditLog uid act rtype rid addr) w =
  (tt, with_console
         (console w ++ ["Audit log write failed: SQLITE_IOERR: disk I/O error"]) w).
Proof. intros H. unfold auditLog. simpl. rewrite H. reflexivity. Qed.

(** ** Properties of every program of the server

    A predicate on programs that holds of [Ret], is closed under [bind],
    and holds of each effect where it occurs in the source, holds of the
    whole application.  The effects on the audit trail occur in [auditLog]
    and in the [catch] blocks; those on the progress table in the two
    branches of the upsert; those on the enrollments table in the INSERT
    and DELETE of the enrollment handlers. *)

Section ProgramLogic.

Variable P : forall R, prog R -> Prop.

Hypothesis P_ret : forall R (r : R), P R (Ret r).
Hypothesis P_bind :
  forall R S (p : prog R) (f : R -> prog S),
    P R p -> (forall a, P S (f a)) -> P S (bind p f).
Hypothesis P_plain : forall A (o : op A), plain_op o = true -> P A (call o).
Hypothesis P_console : forall line, P unit (call (ConsoleError line)).
Hypothesis P_auditLog :
  forall uid act rtype rid addr, P unit (auditLog uid act rtype rid addr).
Hypothesis P_upsert_update :
  forall completed_ student lesson (x : Z),
    P _ (stamp <-! lift (completion_stamp completed_) ;;
         await_run (UpdateProgress (if truthy completed_ then 1 else 0) stamp
                                   student lesson) ;;!
         eret x).
Hypothesis P_upsert_insert :
  forall completed_ student lesson,
    P _ (stamp <-! lift (completion_stamp completed_) ;;
         insertResult <-!
           await_run (InsertProgress student lesson
                                     (if truthy completed_ then 1 else 0) stamp) ;;
         eret (lastID insertResult)).
Hypothesis P_enroll :
  forall student course, P _ (await_run (InsertEnrollment student course)).
Hypothesis P_unenroll : forall id, P _ (await_run (DeleteEnrollment id)).

Lemma logic_await_op {R A} (o : op A) (k : A -> prog R) :
  plain_op o = true -> (forall a, P R (k a)) -> P R (Await o k).
Proof.
  intros Ho Hk. change (Await o k) with (bind (call o) k).
  apply P_bind; [apply P_plain, Ho | exact Hk].
Qed.

Lemma logic_ebind {R S} (p : eprog R) (f : R -> eprog S) :
  P _ p -> (forall a, P _ (f a)) -> P _ (ebind p f).
Proof.
  intros Hp Hf. apply P_bind; [exact Hp |]. intros [a | e]; [apply Hf | apply P_ret].
Qed.

Lemma logic_try_catch {R} (p : eprog R) (h : exn -> prog R) :
  P _ p -> (forall e, P _ (h e)) -> P _ (try_catch p h).
Proof.
  intros Hp Hh. apply P_bind; [exact Hp |]. intros [a | e]; [apply P_ret | apply Hh].
Qed.

Lemma logic_lift {A} (p : prog A) : P _ p -> P _ (lift p).
Proof. intros Hp. apply P_bind; [exact Hp |]. intros a. apply P_ret. Qed.

Lemma logic_await {A} (o : op A) : plain_op o = true -> P _ (await o).
Proof. intros Ho. apply logic_await_op; [exact Ho |]. intros a. apply P_ret. Qed.

Lemma logic_failed label msg e : P _ (failed label msg e).
Proof. apply P_bind; [apply P_console |]. intros. apply P_ret. Qed.

Lemma logic_app jwt_verify jwt_sign bcrypt_hash bcrypt_compare isEmail normalizeEmail
    req :
  P _ (app jwt_verify jwt_sign bcrypt_hash bcrypt_compare isEmail normalizeEmail req).
Proof.
  repeat lazymatch goal with
    | |- forall _, _ => intro
    | |- P _ (Ret _) => apply P_ret
    | |- P _ (eret _) => apply P_ret
    | |- P _ (throw _) => apply P_ret
    | |- P _ (failed _ _ _) => apply logic_failed
    | |- P _ (auditLog _ _ _ _ _) => apply P_auditLog
    | |- P _ (try_catch _ _) => apply logic_try_catch
    | |- P _ (lift _) => apply logic_lift
    | |- P _ (await _) => apply logic_await; reflexivity
    | |- P _ (await_run _) =>
        first [apply P_enroll | apply P_unenroll | apply P_plain; reflexivity]
    | |- P _ (call _) => apply P_plain; reflexivity
    | |- P _ (ebind _ _) =>
        first [apply P_upsert_update | apply P_upsert_insert | apply logic_ebind]
    | |- P _ (bind _ _) => apply P_bind
    | |- P _ (Await _ _) => apply logic_await_op; [reflexivity |]
    | |- P _ (match ?x with _ => _ end) => destruct x
    | |- P _ (let _ := _ in _) => cbv zeta
    | |- P _ (instructor_of _) => unfold instructor_of
    | |- P _ (completion_stamp _) => unfold completion_stamp
    | |- P _ (perClientRateLimit _) => unfold perClientRateLimit
    | |- P _ (authenticateToken _ _) => unfold authenticateToken
    | |- P _ (protected _ _ _ _ _) => unfold protected
    | |- P _ (route _ _ _ _ _ _ _) => unfold route
    | |- P _ (app _ _ _ _ _ _ _) => unfold app
    | |- P _ (register _ _ _ _ _ _) => unfold register
    | |- P _ (login _ _ _ _ _) => unfold login
    | |- P _ (post_course _ _ _ _) => unfold post_course
    | |- P _ (put_course _ _ _ _ _) => unfold put_course
    | |- P _ (delete_course _ _ _) => unfold delete_course
    | |- P _ (post_lesson _ _ _ _ _ _) => unfold post_lesson
    | |- P _ (put_lesson _ _ _ _ _ _) => unfold put_lesson
    | |- P _ (delete_lesson _ _ _) => unfold delete_lesson
    | |- P _ (post_enrollment _ _ _) => unfold post_enrollment
    | |- P _ (delete_enrollment _ _ _) => unfold delete_enrollment
    | |- P _ (post_progress _ _ _ _) => unfold post_progress
    end.
Qed.

End ProgramLogic.

Lemma gtb_true a b : a > b -> (a >? b) = true.
Proof. intros; rewrite Z.gtb_ltb; apply Z.ltb_lt; lia. Qed.

Lemma gtb_false a b : a <= b -> (a >? b) = false.
Proof. intros; rewrite Z.gtb_ltb; apply Z.ltb_ge; lia. Qed.

(** ** The rate limiter *)

Section RateLimiter.

Variable req : request.

(** The entry of the client after a request on a missing or expired
    entry. *)
Lemma limiter_first w :
  (rateLimiters w !! (clientKey req) = None
   \/ exists d, rateLimiters w !! (clientKey req) = Some d
                /\ clock w - resetTime d > RATE_LIMIT_WINDOW_MS) ->
  run (perClientRateLimit req) w =
  (None, with_rateLimiters (<[(clientKey req) := Limiter 1 (clock w)]> (rateLimiters w)) w).
Proof.
  intros H. unfold perClientRateLimit. simpl.
  destruct H as [H | (d & H & Hd)]; rewrite H; [| rewrite (gtb_true _ _ Hd)];
    simpl; rewrite insert_insert_eq; reflexivity.
Qed.

Lemma limiter_within w d :
  rateLimiters w !! (clientKey req) = Some d ->
  clock w - resetTime d <= RATE_LIMIT_WINDOW_MS ->
  run (perClientRateLimit req) w =
  let d' := Limiter (count d + 1) (resetTime d) in
  let w' := with_rateLimiters (<[(clientKey req) := d']> (rateLimiters w)) w in
  if count d' >? RATE_LIMIT_MAX_REQUESTS
  then (Some (json_error 429 "Too many requests"),
        snd (run (auditLog None "RATE_LIMIT_EXCEEDED" "request" None (Some (clientKey req))) w'))
  else (None, w').
Proof.
  intros H Hd. unfold perClientRateLimit. simpl. rewrite H.
  rewrite (gtb_false _ _ Hd).
  simpl. destruct (count d + 1 >? RATE_LIMIT_MAX_REQUESTS); [| reflexivity].
  destruct (audit_fault w) eqn:E; simpl; rewrite E; reflexivity.
Qed.

Lemma auditLog_keeps_limiters uid act rtype rid addr w :
  rateLimiters (snd (run (auditLog uid act rtype rid addr) w)) = rateLimiters w.
Proof.
  unfold auditLog. simpl. destruct (audit_fault w); reflexivity.
Qed.

(** Within one window the [j]-th request after [c] counted ones is
    let through exactly when [c + j] does not exceed the ceiling. *)
Lemma limiter_run_window t0 times : forall c w,
  rateLimiters w !! (clientKey req) = Some (Limiter c t0) ->
  Forall (fun t => t - t0 <= RATE_LIMIT_WINDOW_MS) times ->
  map let_through (fst (limiter_run req times w)) =
  map (fun j => Z.of_nat j + c + 1 <=? RATE_LIMIT_MAX_REQUESTS)
      (seq 0 (length times))
  /\ rateLimiters (snd (limiter_run req times w)) !! (clientKey req)
     = Some (Limiter (c + Z.of_nat (length times)) t0).
Proof.
  induction times as [| t rest IH]; intros c w Hk Hin.
  - simpl. split; [reflexivity |]. rewrite Hk. do 2 f_equal. lia.
  - inversion Hin as [| ? ? Ht Hrest]; subst.
    cbn [limiter_run]. unfold at_time.
    rewrite (limiter_within (with_clock t w) (Limiter c t0) Hk Ht).
    cbn zeta. cbn [count resetTime].
    set (w1 := with_rateLimiters _ _).
    assert (Hk1 : forall w', rateLimiters w' = rateLimiters w1 ->
              rateLimiters w' !! (clientKey req) = Some (Limiter (c + 1) t0)).
    { intros w' ->. unfold w1. simpl. apply lookup_insert_eq. }
    destruct (c + 1 >? RATE_LIMIT_MAX_REQUESTS) eqn:Hc.
    + specialize (IH (c + 1)
        (snd (run (auditLog None "RATE_LIMIT_EXCEEDED" "request" None (Some (clientKey req))) w1))
        (Hk1 _ (auditLog_keeps_limiters _ _ _ _ _ _)) Hrest).
      destruct (limiter_run req rest _) as [ds w2]. simpl in *.
      destruct IH as [IH1 IH2]. split.
      * f_equal.
        { symmetry. apply Z.leb_gt. rewrite Z.gtb_ltb in Hc. apply Z.ltb_lt in Hc. lia. }
        rewrite IH1, <- seq_shift, map_map. apply map_ext. intros j.
        f_equal. lia.
      * rewrite IH2. do 2 f_equal. lia.
    + specialize (IH (c + 1) _ (Hk1 _ eq_refl) Hrest).
      destruct (limiter_run req rest _) as [ds w2]. simpl in *.
      destruct IH as [IH1 IH2]. split.
      * f_equal.
        { symmetry. apply Z.leb_le. rewrite Z.gtb_ltb in Hc. apply Z.ltb_ge in Hc. lia. }
        rewrite IH1, <- seq_shift, map_map. apply map_ext. intros j.
        f_equal. lia.
      * rewrite IH2. do 2 f_equal. lia.
Qed.

End RateLimiter.

(** The periodic sweep only evicts entries the next request of the client
    would reset anyway: it never changes an admission decision. *)
Lemma sweep_keeps_decisions (req : request) (w : world) :
  fst (run (perClientRateLimit req) (sweep w)) = fst (run (perClientRateLimit req) w).
Proof.
  destruct (rateLimiters w !! clientKey req) as [d |] eqn:Hk.
  - destruct (Z_gt_le_dec (clock w - resetTime d) RATE_LIMIT_WINDOW_MS) as [Hd | Hd].
    + rewrite (limiter_first req w) by (right; eauto).
      rewrite (limiter_first req (sweep w)); [reflexivity |].
      left. unfold sweep. simpl. apply map_lookup_filter_None. right.
      intros x Hx. rewrite Hk in Hx. injection Hx as <-. simpl. lia.
    + rewrite (limiter_within req w d Hk Hd).
      rewrite (limiter_within req (sweep w) d); [| | exact Hd].
      * cbn zeta. destruct (_ >? _); reflexivity.
      * unfold sweep. simpl. apply map_lookup_filter_Some. split; [exact Hk |].
        simpl. lia.
  - rewrite (limiter_first req w) by (left; exact Hk).
    rewrite (limiter_first req (sweep w)); [reflexivity |].
    left. unfold sweep. simpl. apply map_lookup_filter_None. left. exact Hk.
Qed.

(** C4. The fixed-window limiter of one client key.  A stored entry whose
    window has not elapsed is incremented, and the request passes
    exactly when the new count does not exceed the ceiling; a rejection
    answers 429 and writes an audit row with a null user id (or, when the
    audit storage fails, logs the failure).  A missing entry, or one whose
    window has elapsed, is reset to count 0 at the current time before the
    increment, so that request passes.  Hence of the requests of one
    client that fall in the window opened at [t0], the first
    [RATE_LIMIT_MAX_REQUESTS] pass and every later one is rejected. *)
Theorem rate_limiter_fixed_window (req : request) (w : world) :
  let key := clientKey req in
  let outcome := run (perClientRateLimit req) w in
  (forall d, rateLimiters w !! key = Some d ->
     clock w - resetTime d <= RATE_LIMIT_WINDOW_MS ->
     rateLimiters (snd outcome) !! key = Some (Limiter (count d + 1) (resetTime d))
     /\ (count d + 1 <= RATE_LIMIT_MAX_REQUESTS ->
         fst outcome = None /\ audit_log (snd outcome) = audit_log w)
     /\ (count d + 1 > RATE_LIMIT_MAX_REQUESTS ->
         fst outcome = Some (json_error 429 "Too many requests")
         /\ if audit_fault w
            then audit_log (snd outcome) = audit_log w
                 /\ console (snd outcome) =
                    (console w
                     ++ ["Audit log write failed: SQLITE_IOERR: disk I/O error"])%list
            else rows (audit_log (snd outcome)) =
                 (rows (audit_log w)
                  ++ [Audit (last_id (audit_log w) + 1) None "RATE_LIMIT_EXCEEDED"
                            "request" None (clock w / 1000) (Some key)])%list))
  /\ ((rateLimiters w !! key = None
       \/ exists d, rateLimiters w !! key = Some d
                    /\ clock w - resetTime d > RATE_LIMIT_WINDOW_MS) ->
      fst outcome = None
      /\ rateLimiters (snd outcome) !! key = Some (Limiter 1 (clock w)))
  /\ (forall t0 times,
        (rateLimiters w !! key = None
         \/ exists d, rateLimiters w !! key = Some d
                      /\ t0 - resetTime d > RATE_LIMIT_WINDOW_MS) ->
        Forall (fun t => t - t0 <= RATE_LIMIT_WINDOW_MS) times ->
        map let_through (fst (limiter_run req (t0 :: times) w)) =
        map (fun j => Z.of_nat j <? RATE_LIMIT_MAX_REQUESTS)
            (seq 0 (S (length times)))).
Proof.
  intros key outcome. subst outcome. split; [| split].
  - intros d Hk Hd. rewrite (limiter_within req w d Hk Hd). cbn zeta.
    cbn [count]. destruct (count d + 1 >? RATE_LIMIT_MAX_REQUESTS) eqn:Hc.
    + rewrite Z.gtb_ltb in Hc. apply Z.ltb_lt in Hc. cbn [fst snd].
      split; [| split].
      * rewrite auditLog_keeps_limiters. simpl. apply lookup_insert_eq.
      * intros. lia.
      * intros _. split; [reflexivity |].
        destruct (audit_fault w) eqn:Hf.
        -- rewrite run_auditLog_fault by exact Hf. simpl. split; reflexivity.
        -- rewrite run_auditLog_ok by exact Hf. reflexivity.
    + rewrite Z.gtb_ltb in Hc. apply Z.ltb_ge in Hc. cbn [fst snd].
      split; [| split].
      * simpl. apply lookup_insert_eq.
      * intros _. split; reflexivity.
      * intros. lia.
  - intros H. rewrite (limiter_first req w H). simpl. split; [reflexivity |].
    apply lookup_insert_eq.
  - intros t0 times Hfresh Hin. cbn [limiter_run]. unfold at_time.
    rewrite (limiter_first req (with_clock t0 w)) by exact Hfresh.
    pose proof (limiter_run_window req t0 times 1
      (with_rateLimiters
         (<[clientKey req := Limiter 1 (clock (with_clock t0 w))]>
            (rateLimiters (with_clock t0 w))) (with_clock t0 w))) as Hrun.
    destruct (limiter_run req times _) as [ds w2].
    destruct Hrun as [Hrun _]; [simpl; apply lookup_insert_eq | exact Hin |].
    cbn [fst snd] in *. cbn [map seq let_through]. f_equal.
    rewrite Hrun, <- seq_shift, map_map. apply map_ext. intros j.
    unfold RATE_LIMIT_MAX_REQUESTS. destruct (Z.leb_spec (Z.of_nat j + 1 + 1) 100);
      destruct (Z.ltb_spec (Z.of_nat (S j)) 100); try reflexivity; lia.
Qed.

(** One client sending 102 requests in the same window to a fresh
    process: the first hundred pass, the last two do not.  A client whose
    entry already counts a hundred requests is rejected inside the window
    and let through once the window has elapsed. *)
Lemma rate_limiter_fixed_window_witness :
  map let_through
      (fst (limiter_run (Demo.req None EpHealth) (0 :: repeat 5 101) (initial_world 0))) =
  (repeat true 100 ++ [false; false])%list
  /\ fst (run (perClientRateLimit (Demo.req None EpHealth))
              (with_rateLimiters {[ "10.0.0.1" := Limiter 100 0 ]} (initial_world 5)))
     = Some (json_error 429 "Too many requests")
  /\ fst (run (perClientRateLimit (Demo.req None EpHealth))
              (with_rateLimiters {[ "10.0.0.1" := Limiter 100 0 ]} (initial_world 900001)))
     = None.
Proof.
  split; [| split].
  - destruct (rate_limiter_fixed_window (Demo.req None EpHealth) (initial_world 0))
      as (_ & _ & H).
    rewrite (H 0 (repeat 5 101)).
    + reflexivity.
    + left. reflexivity.
    + apply Forall_forall. intros t Ht. apply repeat_spec in Ht. subst t.
      unfold RATE_LIMIT_WINDOW_MS. lia.
  - destruct (rate_limiter_fixed_window (Demo.req None EpHealth)
                (with_rateLimiters {[ "10.0.0.1" := Limiter 100 0 ]} (initial_world 5)))
      as (H & _ & _).
    destruct (H (Limiter 100 0)) as (_ & _ & H429).
    + reflexivity.
    + unfold RATE_LIMIT_WINDOW_MS. simpl. lia.
    + apply H429. unfold RATE_LIMIT_MAX_REQUESTS. simpl. lia.
  - destruct (rate_limiter_fixed_window (Demo.req None EpHealth)
                (with_rateLimiters {[ "10.0.0.1" := Limiter 100 0 ]}
                                   (initial_world 900001)))
      as (_ & H & _).
    apply H. right. exists (Limiter 100 0). split.
    + reflexivity.
    + unfold RATE_LIMIT_WINDOW_MS. simpl. lia.
Defined.

(** ** The audit trail does not influence the domain operations *)

Lemma same_entities_refl w : same_entities w w.
Proof. repeat split. Qed.

Lemma same_entities_fault b w : same_entities (with_audit_fault b w) w.
Proof. repeat split. Qed.

Lemma exec_entity_op {A} (o : op A) (w1 w2 : world) :
  entity_op o = true -> same_entities w1 w2 ->
  fst (exec o w1) = fst (exec o w2)
  /\ same_entities (snd (exec o w1)) (snd (exec o w2)).
Proof.
  intros Ho Hs. destruct w1, w2. unfold same_entities in Hs. simpl in Hs.
  destruct Hs as (? & ? & ? & ? & ? & ? & ?). subst.
  destruct o; try discriminate Ho; unfold current_timestamp; simpl;
    repeat match goal with
           | |- context [if ?c then _ else _] => destruct c
           end;
    simpl; repeat split.
Qed.

Lemma ai_ret {R} (r : R) : audit_independent (Ret r).
Proof. intros w1 w2 H. simpl. auto. Qed.

Lemma ai_bind {R S} (p : prog R) (f : R -> prog S) :
  audit_independent p -> (forall a, audit_independent (f a)) ->
  audit_independent (bind p f).
Proof.
  intros Hp Hf w1 w2 Hs. rewrite !run_bind.
  destruct (Hp w1 w2 Hs) as [E1 E2].
  destruct (run p w1) as [a1 w1'], (run p w2) as [a2 w2']. simpl in *. subst a2.
  apply Hf, E2.
Qed.

Lemma ai_call {A} (o : op A) : entity_op o = true -> audit_independent (call o).
Proof.
  intros Ho w1 w2 Hs. simpl.
  destruct (exec_entity_op o w1 w2 Ho Hs) as [E1 E2].
  destruct (exec o w1) as [a1 w1'], (exec o w2) as [a2 w2']. simpl in *. auto.
Qed.

Lemma ai_plain {A} (o : op A) : plain_op o = true -> audit_independent (call o).
Proof. intros Ho. apply ai_call. destruct o; try discriminate Ho; reflexivity. Qed.

Lemma ai_console line : audit_independent (call (ConsoleError line)).
Proof. intros w1 w2 Hs. simpl. split; [reflexivity | exact Hs]. Qed.

Lemma ai_auditLog uid act rtype rid addr :
  audit_independent (auditLog uid act rtype rid addr).
Proof.
  intros w1 w2 Hs. unfold auditLog. simpl.
  destruct (audit_fault w1), (audit_fault w2); simpl; split;
    solve [reflexivity | exact Hs].
Qed.

(** The writers of the entity tables are independent of the audit trail
    as well. *)
Lemma ai_run (o : op (result run_info)) :
  entity_op o = true -> audit_independent (await_run o).
Proof. apply ai_call. Qed.

Lemma ai_upsert_update completed_ student lesson (x : Z) :
  audit_independent
    (stamp <-! lift (completion_stamp completed_) ;;
     await_run (UpdateProgress (if truthy completed_ then 1 else 0) stamp student lesson) ;;!
     eret x).
Proof.
  unfold ebind, lift, completion_stamp.
  destruct (truthy completed_); repeat (apply ai_bind; [| intros []]);
    try apply ai_ret; try (apply ai_call; reflexivity).
Qed.

Lemma ai_upsert_insert completed_ student lesson :
  audit_independent
    (stamp <-! lift (completion_stamp completed_) ;;
     insertResult <-!
       await_run (InsertProgress student lesson (if truthy completed_ then 1 else 0) stamp) ;;
     eret (lastID insertResult)).
Proof.
  unfold ebind, lift, completion_stamp.
  destruct (truthy completed_); repeat (apply ai_bind; [| intros []]);
    try apply ai_ret; try (apply ai_call; reflexivity).
Qed.

Lemma ai_app jwt_verify jwt_sign bcrypt_hash bcrypt_compare isEmail normalizeEmail req :
  audit_independent
    (app jwt_verify jwt_sign bcrypt_hash bcrypt_compare isEmail normalizeEmail req).
Proof.
  apply (logic_app (@audit_independent)).
  - intros R r. apply ai_ret.
  - intros R S p f. apply ai_bind.
  - intros A o. apply ai_plain.
  - apply ai_console.
  - apply ai_auditLog.
  - apply ai_upsert_update.
  - apply ai_upsert_insert.
  - intros student course. apply ai_run. reflexivity.
  - intros id. apply ai_run. reflexivity.
Qed.

(** While the audit storage is failing nothing reaches [audit_log]. *)
Lemma exec_keeps_fault {A} (o : op A) (w : world) :
  audit_fault (snd (exec o w)) = audit_fault w
  /\ (audit_fault w = true -> audit_log (snd (exec o w)) = audit_log w).
Proof.
  destruct o; simpl;
    repeat match goal with
           | |- context [if ?c then _ else _] => destruct c eqn:?
           end;
    simpl; split; intros; congruence.
Qed.

Lemma run_keeps_fault {R} (p : prog R) : forall w,
  audit_fault (snd (run p w)) = audit_fault w
  /\ (audit_fault w = true -> audit_log (snd (run p w)) = audit_log w).
Proof.
  induction p as [r | A o k IH]; intros w; simpl.
  - auto.
  - destruct (exec_keeps_fault o w) as [E1 E2].
    destruct (exec o w) as [a w']. simpl in *.
    destruct (IH a w') as [F1 F2]. split.
    + congruence.
    + intros Hf. rewrite F2 by congruence. auto.
Qed.

(** C9. A failing audit write is caught inside [auditLog], which logs it
    on the console and returns normally; for every request, the response
    and the resulting entity state (all tables but [audit_log], and the
    rate-limiter map) are the same whether the audit storage accepts or
    rejects the writes, and while it rejects them nothing is added to
    [audit_log]. *)
Theorem audit_failure_never_propagates
    (jwt_verify : string -> verify_result) (jwt_sign : Z -> string -> string)
    (bcrypt_hash : string -> string) (bcrypt_compare : string -> string -> bool)
    (isEmail : string -> bool) (normalizeEmail : string -> string)
    (req : request) (w : world) :
  let server := app jwt_verify jwt_sign bcrypt_hash bcrypt_compare isEmail normalizeEmail in
  let healthy := run (server req) (with_audit_fault false w) in
  let failing := run (server req) (with_audit_fault true w) in
  fst failing = fst healthy
  /\ same_entities (snd failing) (snd healthy)
  /\ audit_log (snd failing) = audit_log w
  /\ forall uid act rtype rid addr,
       run (auditLog uid act rtype rid addr) (with_audit_fault true w) =
       (tt, with_console
              (console w ++ ["Audit log write failed: SQLITE_IOERR: disk I/O error"])
              (with_audit_fault true w)).
Proof.
  intros server healthy failing.
  assert (Hs : same_entities (with_audit_fault true w) (with_audit_fault false w))
    by (repeat split).
  destruct (ai_app jwt_verify jwt_sign bcrypt_hash bcrypt_compare isEmail
              normalizeEmail req _ _ Hs) as [E1 E2].
  repeat split; try assumption; try apply E2.
  - destruct (run_keeps_fault (server req) (with_audit_fault true w)) as [_ F].
    apply F. reflexivity.
Qed.

(** ** The example state is reachable *)

Lemma campus_reachable :
  snd (serve Demo.server Demo.campus_history (initial_world 0)) = Demo.campus.
Proof. vm_compute. reflexivity. Qed.

(** ** Authentication and the role check *)

Section Authentication.

Variable jwt_verify : string -> verify_result.

Lemma authenticateToken_keeps_world req w :
  snd (run (authenticateToken jwt_verify req) w) = w.
Proof.
  unfold authenticateToken.
  destruct (nonempty _); [| reflexivity].
  destruct (jwt_verify _); try reflexivity.
  destruct (_ || _); [reflexivity |]. simpl.
  destruct (find _ _); reflexivity.
Qed.

Lemma authenticateToken_failure req w res :
  fst (run (authenticateToken jwt_verify req) w) = inl res -> status res = 401.
Proof.
  unfold authenticateToken.
  destruct (nonempty _); [| intros [= <-]; reflexivity].
  destruct (jwt_verify _); try (intros [= <-]; reflexivity).
  destruct (_ || _); [intros [= <-]; reflexivity |]. simpl.
  destruct (find _ _); [discriminate | intros [= <-]; reflexivity].
Qed.

Lemma authenticateToken_verified req w token p :
  nonempty (bearer (authorization req)) = Some token ->
  jwt_verify token = Verified p ->
  falsy_id (userId p) = false ->
  falsy_string (role_claim p) = false ->
  fst (run (authenticateToken jwt_verify req) w) =
  match find (fun u => user_id u =? default 0 (userId p)) (rows (users w)) with
  | None => inl (json_error 401 "User not found")
  | Some u => inr (ReqUser (user_id u) (email u) (role u))
  end.
Proof.
  intros Ht Hv Hid Hrole. unfold authenticateToken.
  rewrite Ht, Hv, Hid, Hrole. simpl. destruct (find _ _); reflexivity.
Qed.

Lemma run_protected req roles valid handler w :
  run (protected jwt_verify req roles valid handler) w =
  match fst (run (authenticateToken jwt_verify req) w) with
  | inl res => (res, w)
  | inr user =>
      if roles_include roles (role_of user)
      then if valid then run (handler user) w else (validation_failed, w)
      else (json_error 403 "Insufficient permissions", w)
  end.
Proof.
  unfold protected. rewrite run_bind.
  pose proof (authenticateToken_keeps_world req w) as Hw.
  destruct (run (authenticateToken jwt_verify req) w) as [[res | user] w'];
    simpl in Hw; subst w'; [reflexivity |].
  unfold requireRole, validate. cbn [fst].
  destruct (roles_include roles (role_of user)); simpl; [| reflexivity].
  destruct valid; reflexivity.
Qed.

End Authentication.

(** The role claim of a verified token is only tested for presence: two
    verifiers that agree on the subject of the request's token give the
    same program. *)
Lemma authenticateToken_ignores_role_claim
    (verify1 verify2 : string -> verify_result) req token uid claim1 claim2 :
  nonempty (bearer (authorization req)) = Some token ->
  verify1 token = Verified (Payload uid (Some claim1)) ->
  verify2 token = Verified (Payload uid (Some claim2)) ->
  claim1 <> "" -> claim2 <> "" ->
  authenticateToken verify1 req = authenticateToken verify2 req.
Proof.
  intros Ht H1 H2 Hc1 Hc2. unfold authenticateToken. rewrite Ht, H1, H2.
  unfold falsy_string, nonempty. cbn [userId role_claim].
  apply String.eqb_neq in Hc1, Hc2. rewrite Hc1, Hc2. reflexivity.
Qed.

(** C1 (as amended). For a request bearing a verifiable token with a
    subject and a role claim, [authenticateToken] attaches the user row
    freshly loaded by the subject id, and [requireRole] tests that stored
    role: a subject stored as student is refused by an instructor-only
    route with 403 and the handler is not run, whatever role the token
    claims; and the whole response and state are the same for two tokens
    of the same subject that differ in their role claim. *)
Theorem authorization_uses_stored_role
    (jwt_verify : string -> verify_result) (jwt_sign : Z -> string -> string)
    (bcrypt_hash : string -> string) (bcrypt_compare : string -> string -> bool)
    (isEmail : string -> bool) (normalizeEmail : string -> string)
    (req : request) (w : world) (token : string) (uid : option Z) (claim : string) :
  nonempty (bearer (authorization req)) = Some token ->
  jwt_verify token = Verified (Payload uid (Some claim)) ->
  falsy_id uid = false ->
  claim <> "" ->
  let stored := find (fun u => user_id u =? default 0 uid) (rows (users w)) in
  run (authenticateToken jwt_verify req) w =
    (match stored with
     | None => inl (json_error 401 "User not found")
     | Some u => inr (ReqUser (user_id u) (email u) (role u))
     end, w)
  /\ (forall roles valid handler,
        run (protected jwt_verify req roles valid handler) w =
        match stored with
        | None => (json_error 401 "User not found", w)
        | Some u =>
            if roles_include roles (role u)
            then if valid
                 then run (handler (ReqUser (user_id u) (email u) (role u))) w
                 else (validation_failed, w)
            else (json_error 403 "Insufficient permissions", w)
        end)
  /\ (forall u valid handler,
        stored = Some u -> role u = "student" ->
        run (protected jwt_verify req ["instructor"] valid handler) w =
        (json_error 403 "Insufficient permissions", w))
  /\ (forall jwt_verify' claim',
        jwt_verify' token = Verified (Payload uid (Some claim')) ->
        claim' <> "" ->
        run (app jwt_verify' jwt_sign bcrypt_hash bcrypt_compare isEmail
                 normalizeEmail req) w =
        run (app jwt_verify jwt_sign bcrypt_hash bcrypt_compare isEmail
                 normalizeEmail req) w).
Proof.
  intros Ht Hv Hid Hclaim stored.
  assert (Hrole : falsy_string (role_claim (Payload uid (Some claim))) = false).
  { unfold falsy_string, nonempty. simpl.
    apply String.eqb_neq in Hclaim. rewrite Hclaim. reflexivity. }
  pose proof (authenticateToken_verified jwt_verify req w token _ Ht Hv Hid Hrole) as Ha.
  cbn [userId] in Ha. fold stored in Ha.
  assert (Hp : forall roles valid handler,
        run (protected jwt_verify req roles valid handler) w =
        match stored with
        | None => (json_error 401 "User not found", w)
        | Some u =>
            if roles_include roles (role u)
            then if valid
                 then run (handler (ReqUser (user_id u) (email u) (role u))) w
                 else (validation_failed, w)
            else (json_error 403 "Insufficient permissions", w)
        end).
  { intros roles valid handler. rewrite run_protected, Ha.
    destruct stored; reflexivity. }
  split; [| split; [| split]].
  - rewrite (surjective_pairing (run _ w)), Ha, authenticateToken_keeps_world.
    reflexivity.
  - exact Hp.
  - intros u valid handler Hu Hstudent. rewrite Hp, Hu, Hstudent. reflexivity.
  - intros jwt_verify' claim' Hv' Hclaim'.
    pose proof (authenticateToken_ignores_role_claim jwt_verify' jwt_verify req
                  token uid claim' claim Ht Hv' Hv Hclaim' Hclaim) as E.
    unfold app, route, protected. rewrite E. reflexivity.
Qed.

(** Instructor ann replays a token that still claims the role student:
    [authenticateToken] attaches her stored role. *)
Lemma authorization_uses_stored_role_witness :
  run (authenticateToken Demo.verify
         (Demo.req (Some "Bearer stale") (EpPostCourse "New" "d"))) Demo.campus
  = (inr (ReqUser 1 "ann@x.com" "instructor"), Demo.campus).
Proof.
  destruct (authorization_uses_stored_role Demo.verify Demo.sign Demo.hash
              Demo.compare Demo.is_email Demo.normalize
              (Demo.req (Some "Bearer stale") (EpPostCourse "New" "d")) Demo.campus
              "stale" (Some 1) "student") as (H & _).
  - reflexivity.
  - reflexivity.
  - reflexivity.
  - discriminate.
  - exact H.
Defined.

(** A token issued with the role student does perform an instructor-only
    mutation once the stored role of its subject is instructor. *)
Lemma student_token_creates_course :
  Demo.verify "stale" = Verified (Payload (Some 1) (Some "student"))
  /\ status (fst (at_time 7000
        (Demo.server (Demo.req (Some "Bearer stale") (EpPostCourse "New" "d")))
        Demo.campus)) = 201
  /\ map title (rows (courses (snd (at_time 7000
        (Demo.server (Demo.req (Some "Bearer stale") (EpPostCourse "New" "d")))
        Demo.campus)))) = ["Intro"; "New"].
Proof. vm_compute. repeat split. Qed.

(** ** Table lookups *)

Lemma find_update_where {R} (p : R -> bool) (f : R -> R) (l : list R) :
  (forall r, p (f r) = p r) ->
  find p (update_where p f l) = option_map f (find p l).
Proof.
  intros Hp. induction l as [| r l IH]; simpl; [reflexivity |].
  destruct (p r) eqn:E.
  - rewrite Hp, E. reflexivity.
  - rewrite E. exact IH.
Qed.

Lemma find_app_last {R} (p : R -> bool) (l : list R) (x : R) :
  find p l = None -> find p (l ++ [x]) = if p x then Some x else None.
Proof.
  induction l as [| r l IH]; simpl; [reflexivity |].
  destruct (p r); [discriminate | exact IH].
Qed.

Lemma find_existsb {R} (p : R -> bool) (l : list R) :
  existsb p l = match find p l with Some _ => true | None => false end.
Proof.
  induction l as [| r l IH]; simpl; [reflexivity |].
  destruct (p r); [reflexivity | exact IH].
Qed.

Lemma find_none_iff {R} (p : R -> bool) (l : list R) :
  find p l = None <-> forall r, In r l -> p r = false.
Proof.
  split.
  - apply find_none.
  - induction l as [| r l IH]; simpl; intros H; [reflexivity |].
    rewrite (H r) by auto. apply IH. auto.
Qed.

Lemma in_delete_where {R} (p : R -> bool) (l : list R) (r : R) :
  In r (delete_where p l) <-> In r l /\ p r = false.
Proof.
  unfold delete_where. rewrite filter_In. split; intros [H1 H2]; split; auto.
  - destruct (p r); [discriminate | reflexivity].
  - rewrite H2. reflexivity.
Qed.

Lemma nodup_key_inj {R} (key : R -> Z) (l : list R) (a b : R) :
  NoDup (map key l) -> In a l -> In b l -> key a = key b -> a = b.
Proof.
  induction l as [| r l IH]; simpl; [tauto |].
  intros Hnd Ha Hb Hk. inversion Hnd as [| ? ? Hnotin Hnd']; subst.
  destruct Ha as [-> | Ha], Hb as [-> | Hb]; auto.
  - exfalso. apply Hnotin. rewrite Hk. apply in_map. exact Hb.
  - exfalso. apply Hnotin. rewrite <- Hk. apply in_map. exact Ha.
Qed.

(** ** Invariants of the state *)

Section Keeps.

Variable I : world -> Prop.

Lemma keeps_ret {R} (r : R) : keeps I (Ret r).
Proof. intros w H. exact H. Qed.

Lemma keeps_bind {R S} (p : prog R) (f : R -> prog S) :
  keeps I p -> (forall a, keeps I (f a)) -> keeps I (bind p f).
Proof.
  intros Hp Hf w Hw. rewrite run_bind. specialize (Hp w Hw).
  destruct (run p w) as [a w']. apply Hf, Hp.
Qed.

Lemma keeps_call {A} (o : op A) :
  (forall w, I w -> I (snd (exec o w))) -> keeps I (call o).
Proof.
  intros Ho w Hw. simpl. specialize (Ho w Hw).
  destruct (exec o w) as [a w']. exact Ho.
Qed.

Lemma serve_keeps server history :
  (forall req, keeps I (server req)) ->
  (forall t w, I w -> I (with_clock t w)) ->
  forall w, I w -> I (snd (serve server history w)).
Proof.
  intros Hs Ht. induction history as [| [t r] rest IH]; intros w Hw; simpl.
  - exact Hw.
  - unfold at_time. pose proof (Hs r (with_clock t w) (Ht t w Hw)) as H1.
    destruct (run (server r) (with_clock t w)) as [res w1]. specialize (IH w1 H1).
    destruct (serve server rest w1) as [ress w2]. exact IH.
Qed.

End Keeps.

(** *** The primary key of enrollments *)

Lemma exec_keeps_enrollments {A} (o : op A) (w : world) :
  enrollment_writer o = false -> enrollment_keys_ok w ->
  enrollment_keys_ok (snd (exec o w)).
Proof.
  destruct o; try discriminate; intros _ H; simpl;
    repeat match goal with
           | |- context [if ?c then _ else _] => destruct c
           end; exact H.
Qed.

Lemma keeps_insert_enrollment student course :
  keeps enrollment_keys_ok (await_run (InsertEnrollment student course)).
Proof.
  intros w [Hnd Hle]. unfold await_run, call. simpl.
  destruct (existsb _ _); simpl; [split; assumption |].
  unfold enrollment_keys_ok. cbn [enrollments with_enrollments rows last_id].
  split.
  - rewrite map_app. simpl. apply List.NoDup_app.
    + exact Hnd.
    + apply NoDup_cons; [intros [] | constructor].
    + intros x Hx [<- | []]. apply in_map_iff in Hx.
      destruct Hx as (e & He & Hin). rewrite Forall_forall in Hle.
      specialize (Hle e Hin). lia.
  - apply Forall_app. split.
    + eapply Forall_impl; [| exact Hle]. simpl. intros. lia.
    + constructor; [simpl; lia | constructor].
Qed.

Lemma keeps_delete_enrollment id :
  keeps enrollment_keys_ok (await_run (DeleteEnrollment id)).
Proof.
  intros w [Hnd Hle]. unfold await_run, call, delete_where. simpl.
  unfold enrollment_keys_ok. cbn [enrollments with_enrollments rows last_id]. split.
  - clear Hle. induction (rows (enrollments w)) as [| e l IH]; simpl; [constructor |].
    inversion Hnd as [| ? ? Hnotin Hnd']; subst.
    destruct (negb (enrollment_id e =? id)); simpl; [| apply IH, Hnd'].
    constructor; [| apply IH, Hnd'].
    intros Hin. apply Hnotin. apply in_map_iff in Hin.
    destruct Hin as (x & Hx & Hin). apply filter_In in Hin.
    apply in_map_iff. exists x. tauto.
  - rewrite Forall_forall in *. intros e He. apply filter_In in He. apply Hle, He.
Qed.

Lemma enrollment_keys_app jwt_verify jwt_sign bcrypt_hash bcrypt_compare isEmail
    normalizeEmail req :
  keeps enrollment_keys_ok
    (app jwt_verify jwt_sign bcrypt_hash bcrypt_compare isEmail normalizeEmail req).
Proof.
  assert (Hop : forall A (o : op A), enrollment_writer o = false ->
                  keeps enrollment_keys_ok (call o)).
  { intros A o Ho. apply keeps_call. intros w. apply exec_keeps_enrollments, Ho. }
  apply (logic_app (fun R => @keeps enrollment_keys_ok R)).
  - intros R r. apply keeps_ret.
  - intros R S p f. apply keeps_bind.
  - intros A o Ho. apply Hop. destruct o; try discriminate Ho; reflexivity.
  - intros line. apply Hop. reflexivity.
  - intros uid act rtype rid addr. unfold auditLog.
    apply keeps_bind; [apply Hop; reflexivity |].
    intros [a | e]; [apply keeps_ret | apply Hop; reflexivity].
  - intros completed_ student lesson x. unfold ebind, lift, completion_stamp.
    destruct (truthy completed_); repeat (apply keeps_bind; [| intros []]);
      try apply keeps_ret; try (apply Hop; reflexivity).
  - intros completed_ student lesson. unfold ebind, lift, completion_stamp.
    destruct (truthy completed_); repeat (apply keeps_bind; [| intros []]);
      try apply keeps_ret; try (apply Hop; reflexivity).
  - apply keeps_insert_enrollment.
  - apply keeps_delete_enrollment.
Qed.

Lemma enrollment_keys_reachable jwt_verify jwt_sign bcrypt_hash bcrypt_compare isEmail
    normalizeEmail history now :
  enrollment_keys_ok
    (snd (serve (app jwt_verify jwt_sign bcrypt_hash bcrypt_compare isEmail normalizeEmail)
                history (initial_world now))).
Proof.
  apply serve_keeps.
  - intros req. apply enrollment_keys_app.
  - intros t w H. exact H.
  - split; constructor.
Qed.

(** ** Enrollment deletion *)

Lemma run_delete_enrollment req user id w :
  run (delete_enrollment req user id) w =
  match find (owned_by id (id_of user)) (rows (enrollments w)) with
  | None => (json_error 404 "Enrollment not found", w)
  | Some _ =>
      (Response 204 Empty,
       snd (run (auditLog (Some (id_of user)) "ENROLLMENT_DELETED" "enrollment"
                          (Some id) (ip req))
                (with_enrollments
                   (Table (delete_where (fun e => enrollment_id e =? id)
                                        (rows (enrollments w)))
                          (last_id (enrollments w))) w)))
  end.
Proof.
  unfold delete_enrollment. simpl.
  destruct (find _ _); simpl; [| reflexivity].
  destruct (audit_fault w); reflexivity.
Qed.

Lemma auditLog_keeps_tables uid act rtype rid addr w :
  let w' := snd (run (auditLog uid act rtype rid addr) w) in
  users w' = users w /\ courses w' = courses w /\ lessons w' = lessons w
  /\ enrollments w' = enrollments w /\ progress w' = progress w.
Proof.
  unfold auditLog. simpl. destruct (audit_fault w); simpl; repeat split.
Qed.

Lemma delete_enrollment_outcome (req : request) (user : req_user) (id : Z) (w : world) :
  let out := run (delete_enrollment req user id) w in
  ((forall e, In e (rows (enrollments w)) ->
      enrollment_id e = id -> student_id e <> id_of user) ->
   out = (json_error 404 "Enrollment not found", w))
  /\ ((exists e, In e (rows (enrollments w))
                 /\ enrollment_id e = id /\ student_id e = id_of user) ->
      fst out = Response 204 Empty
      /\ rows (enrollments (snd out)) =
         delete_where (fun e => enrollment_id e =? id) (rows (enrollments w)))
  /\ status (fst out) <> 403
  /\ (NoDup (map enrollment_id (rows (enrollments w))) ->
      forall e, In e (rows (enrollments w)) -> student_id e <> id_of user ->
                In e (rows (enrollments (snd out)))).
Proof.
  intros out. subst out. rewrite run_delete_enrollment.
  destruct (find (owned_by id (id_of user)) (rows (enrollments w))) as [r |] eqn:Hfind.
  - apply find_some in Hfind. destruct Hfind as [Hin Hr].
    unfold owned_by in Hr. apply andb_prop in Hr. destruct Hr as [Hid Hst].
    apply Z.eqb_eq in Hid, Hst.
    destruct (auditLog_keeps_tables (Some (id_of user)) "ENROLLMENT_DELETED"
                "enrollment" (Some id) (ip req)
                (with_enrollments
                   (Table (delete_where (fun e => enrollment_id e =? id)
                                        (rows (enrollments w)))
                          (last_id (enrollments w))) w))
      as (_ & _ & _ & He & _).
    cbn [fst snd]. rewrite He. cbn [enrollments with_enrollments rows].
    split; [| split; [| split]].
    + intros H. exfalso. exact (H r Hin Hid Hst).
    + intros _. split; reflexivity.
    + simpl. discriminate.
    + intros Hnd e He_in Hother. apply in_delete_where. split; [exact He_in |].
      apply Z.eqb_neq. intros Heq. apply Hother.
      rewrite (nodup_key_inj enrollment_id _ e r Hnd He_in Hin) by congruence.
      exact Hst.
  - split; [| split; [| split]].
    + intros _. reflexivity.
    + intros (e & Hin & Hid & Hst). exfalso.
      apply find_none with (x := e) in Hfind; [| exact Hin].
      unfold owned_by in Hfind. rewrite Hid, Hst, !Z.eqb_refl in Hfind. discriminate.
    + simpl. discriminate.
    + intros _ e He_in _. exact He_in.
Qed.


(** C10. Unenrolling looks the row up by (id, student_id) together: an
    enrollment of another student and an id that does not exist give the
    same 404 and leave the state untouched; the requester's own
    enrollment is removed with 204; the handler never answers 403, nor
    does the route for a student; and, ids being distinct (as they are in
    every state the server reaches), no other student's row is ever
    deleted. *)
Theorem enrollment_delete_is_owner_scoped
    (jwt_verify : string -> verify_result) (jwt_sign : Z -> string -> string)
    (bcrypt_hash : string -> string) (bcrypt_compare : string -> string -> bool)
    (isEmail : string -> bool) (normalizeEmail : string -> string)
    (req : request) (user : req_user) (id : Z) (w : world) :
  let out := run (delete_enrollment req user id) w in
  ((forall e, In e (rows (enrollments w)) ->
      enrollment_id e = id -> student_id e <> id_of user) ->
   out = (json_error 404 "Enrollment not found", w))
  /\ ((exists e, In e (rows (enrollments w))
                 /\ enrollment_id e = id /\ student_id e = id_of user) ->
      fst out = Response 204 Empty
      /\ rows (enrollments (snd out)) =
         delete_where (fun e => enrollment_id e =? id) (rows (enrollments w)))
  /\ status (fst out) <> 403
  /\ (NoDup (map enrollment_id (rows (enrollments w))) ->
      forall e, In e (rows (enrollments w)) -> student_id e <> id_of user ->
                In e (rows (enrollments (snd out))))
  /\ (target req = EpDeleteEnrollment id ->
      fst (run (authenticateToken jwt_verify req) w) = inr user ->
      role_of user = "student" ->
      status (fst (run (route jwt_verify jwt_sign bcrypt_hash bcrypt_compare
                             isEmail normalizeEmail req) w)) <> 403)
  /\ (forall history now,
        NoDup (map enrollment_id
                   (rows (enrollments
                      (snd (serve (app jwt_verify jwt_sign bcrypt_hash bcrypt_compare
                                       isEmail normalizeEmail)
                                  history (initial_world now))))))).
Proof.
  intros out.
  destruct (delete_enrollment_outcome req user id w) as (H1 & H2 & H3 & H4).
  fold out in H1, H2, H3, H4.
  split; [exact H1 |]. split; [exact H2 |]. split; [exact H3 |].
  split; [exact H4 |]. split.
  - intros Ht Ha Hr. unfold route. rewrite Ht, run_protected, Ha.
    unfold roles_include. rewrite Hr. simpl.
    destruct (is_int_min 1 id); [exact H3 | simpl; discriminate].
  - intros history now.
    apply (enrollment_keys_reachable jwt_verify jwt_sign bcrypt_hash bcrypt_compare
             isEmail normalizeEmail history now).
Qed.

(** In the demo, enrollment 1 belongs to bob (id 2): dan (id 4) asking
    for it gets the same 404 as for enrollment 9, which does not exist;
    bob himself is unenrolled. *)
Lemma enrollment_delete_is_owner_scoped_witness :
  run (delete_enrollment (Demo.req (Some "Bearer dan") (EpDeleteEnrollment 1))
                         (ReqUser 4 "dan@x.com" "student") 1) Demo.campus
  = (json_error 404 "Enrollment not found", Demo.campus)
  /\ run (delete_enrollment (Demo.req (Some "Bearer dan") (EpDeleteEnrollment 9))
                            (ReqUser 4 "dan@x.com" "student") 9) Demo.campus
     = (json_error 404 "Enrollment not found", Demo.campus)
  /\ fst (run (delete_enrollment (Demo.req (Some "Bearer bob") (EpDeleteEnrollment 1))
                                 (ReqUser 2 "bob@x.com" "student") 1) Demo.campus)
     = Response 204 Empty
  /\ status (fst (run (route Demo.verify Demo.sign Demo.hash Demo.compare
                             Demo.is_email Demo.normalize
                             (Demo.req (Some "Bearer dan") (EpDeleteEnrollment 1)))
                      Demo.campus)) <> 403.
Proof.
  split; [| split; [| split]].
  - apply (enrollment_delete_is_owner_scoped Demo.verify Demo.sign Demo.hash
             Demo.compare Demo.is_email Demo.normalize).
    intros e [<- | []] _. simpl. discriminate.
  - apply (enrollment_delete_is_owner_scoped Demo.verify Demo.sign Demo.hash
             Demo.compare Demo.is_email Demo.normalize).
    intros e [<- | []]. simpl. discriminate.
  - apply (enrollment_delete_is_owner_scoped Demo.verify Demo.sign Demo.hash
             Demo.compare Demo.is_email Demo.normalize).
    exists (Enrollment 1 2 1 6). simpl. auto.
  - apply (enrollment_delete_is_owner_scoped Demo.verify Demo.sign Demo.hash
             Demo.compare Demo.is_email Demo.normalize
             (Demo.req (Some "Bearer dan") (EpDeleteEnrollment 1))
             (ReqUser 4 "dan@x.com" "student") 1 Demo.campus); reflexivity.
Defined.

(** ** Course and lesson mutations *)

(** C5 (as amended). For PUT and DELETE on a course the NotFound check
    comes first: a course that does not exist answers 404 whoever asks;
    a course that exists and belongs to another instructor answers 403.
    Neither changes the state.  The two statuses differ, so a non-owner
    does learn whether the course exists. *)
Theorem course_notfound_precedes_ownership (req : request) (user : req_user)
    (id : Z) (title_ description_ : option string) (w : world) :
  let stored := find (fun c => course_id c =? id) (rows (courses w)) in
  (stored = None ->
   run (put_course req user id title_ description_) w
     = (json_error 404 "Course not found", w)
   /\ run (delete_course req user id) w = (json_error 404 "Course not found", w))
  /\ (forall c, stored = Some c -> instructor_id c <> id_of user ->
      run (put_course req user id title_ description_) w
        = (json_error 403 "Not authorized to modify this course", w)
      /\ run (delete_course req user id) w
        = (json_error 403 "Not authorized to delete this course", w)).
Proof.
  intros stored. subst stored. split.
  - intros H. unfold put_course, delete_course. simpl. rewrite H. split; reflexivity.
  - intros c H Hc. apply Z.eqb_neq in Hc.
    unfold put_course, delete_course. simpl. rewrite H. simpl. rewrite Hc.
    split; reflexivity.
Qed.

(** Instructor cat (id 3) on ann's course 1, and on a course 2 that does
    not exist. *)
Lemma course_notfound_precedes_ownership_witness :
  run (put_course (Demo.req (Some "Bearer cat") (EpPutCourse 1 (Some "x") None))
                  (ReqUser 3 "cat@x.com" "instructor") 1 (Some "x") None) Demo.campus
  = (json_error 403 "Not authorized to modify this course", Demo.campus)
  /\ run (put_course (Demo.req (Some "Bearer cat") (EpPutCourse 1 (Some "x") None))
                     (ReqUser 3 "cat@x.com" "instructor") 2 (Some "x") None) Demo.campus
     = (json_error 404 "Course not found", Demo.campus).
Proof.
  split.
  - apply (course_notfound_precedes_ownership
             (Demo.req (Some "Bearer cat") (EpPutCourse 1 (Some "x") None))
             (ReqUser 3 "cat@x.com" "instructor") 1 (Some "x") None Demo.campus)
      with (c := Course 1 "Intro" "d" 1 4 4).
    + reflexivity.
    + discriminate.
  - apply (course_notfound_precedes_ownership
             (Demo.req (Some "Bearer cat") (EpPutCourse 1 (Some "x") None))
             (ReqUser 3 "cat@x.com" "instructor") 2 (Some "x") None Demo.campus).
    reflexivity.
Defined.

(** The status of a PUT or DELETE by a non-owner tells an existing course
    (403) from a missing one (404). *)
Lemma course_status_reveals_existence :
  status (fst (at_time 7000
    (Demo.server (Demo.req (Some "Bearer cat") (EpPutCourse 1 (Some "x") None)))
    Demo.campus)) = 403
  /\ status (fst (at_time 7000
       (Demo.server (Demo.req (Some "Bearer cat") (EpPutCourse 2 (Some "x") None)))
       Demo.campus)) = 404
  /\ status (fst (at_time 7000
       (Demo.server (Demo.req (Some "Bearer cat") (EpDeleteCourse 1)))
       Demo.campus)) = 403
  /\ status (fst (at_time 7000
       (Demo.server (Demo.req (Some "Bearer cat") (EpDeleteCourse 2)))
       Demo.campus)) = 404.
Proof. vm_compute. repeat split. Qed.

(** ** Partial updates *)

Lemma update_where_ext {R} (p : R -> bool) (f g : R -> R) (l : list R) :
  (forall r, f r = g r) -> update_where p f l = update_where p g l.
Proof.
  intros H. unfold update_where. apply map_ext. intros r. rewrite H. reflexivity.
Qed.

Lemma put_course_applies req user id title_ description_ w c :
  find (fun c => course_id c =? id) (rows (courses w)) = Some c ->
  instructor_id c = id_of user ->
  let out := run (put_course req user id title_ description_) w in
  let set := fun c =>
    Course (course_id c) (default (title c) title_)
           (default (description c) description_) (instructor_id c)
           (course_created_at c) (current_timestamp w) in
  match title_, description_ with
  | None, None => out = (json_error 400 "No fields to update", w)
  | _, _ =>
      fst out = Response 200 (JsonCourse (Some (set c)))
      /\ rows (courses (snd out)) =
         update_where (fun c => course_id c =? id) set (rows (courses w))
      /\ lessons (snd out) = lessons w
  end.
Proof.
  intros Hfind Hown out set. subst out.
  apply Z.eqb_eq in Hown.
  assert (Hkey : forall f : course_row -> course_row,
            (forall r, course_id (f r) = course_id r) ->
            find (fun c => course_id c =? id)
                 (update_where (fun c => course_id c =? id) f (rows (courses w)))
            = Some (f c)).
  { intros f Hf. rewrite find_update_where, Hfind; [reflexivity |].
    intros r. rewrite Hf. reflexivity. }
  unfold put_course. simpl. rewrite Hfind. simpl. rewrite Hown. simpl.
  destruct title_ as [t |], description_ as [d |]; simpl;
    try reflexivity;
    destruct (audit_fault w); simpl; unfold current_timestamp; simpl;
    (rewrite Hkey by reflexivity); repeat split.
Qed.

Lemma put_lesson_applies req user id title_ content_ order_index_ w l c :
  find (fun l => lesson_id l =? id) (rows (lessons w)) = Some l ->
  find (fun c => course_id c =? lesson_course_id l) (rows (courses w)) = Some c ->
  instructor_id c = id_of user ->
  let out := run (put_lesson req user id title_ content_ order_index_) w in
  let set := fun l =>
    Lesson (lesson_id l) (lesson_course_id l) (default (lesson_title l) title_)
           (default (content l) content_) (default (order_index l) order_index_)
           (lesson_created_at l) (current_timestamp w) in
  match title_, content_, order_index_ with
  | None, None, None => out = (json_error 400 "No fields to update", w)
  | _, _, _ =>
      fst out = Response 200 (JsonLesson (Some (set l)))
      /\ rows (lessons (snd out)) =
         update_where (fun l => lesson_id l =? id) set (rows (lessons w))
      /\ courses (snd out) = courses w
  end.
Proof.
  intros Hfind Hcourse Hown out set. subst out.
  apply Z.eqb_eq in Hown.
  assert (Hkey : forall f : lesson_row -> lesson_row,
            (forall r, lesson_id (f r) = lesson_id r) ->
            find (fun l => lesson_id l =? id)
                 (update_where (fun l => lesson_id l =? id) f (rows (lessons w)))
            = Some (f l)).
  { intros f Hf. rewrite find_update_where, Hfind; [reflexivity |].
    intros r. rewrite Hf. reflexivity. }
  unfold put_lesson, instructor_of, try_catch, ebind, eret, await.
  simpl. rewrite Hfind. simpl. rewrite Hcourse. simpl. rewrite Hown.
  destruct title_ as [t |], content_ as [ct |], order_index_ as [o |]; simpl;
    try reflexivity;
    destruct (audit_fault w); simpl; unfold current_timestamp; simpl;
    (rewrite Hkey by reflexivity); repeat split.
Qed.

Lemma rate_limit_keeps_tables req w :
  let out := run (perClientRateLimit req) w in
  users (snd out) = users w /\ courses (snd out) = courses w
  /\ lessons (snd out) = lessons w /\ enrollments (snd out) = enrollments w
  /\ progress (snd out) = progress w
  /\ (forall res, fst out = Some res -> status res = 429).
Proof.
  intros out. subst out.
  destruct (rateLimiters w !! clientKey req) as [d |] eqn:Hk.
  - destruct (Z_gt_le_dec (clock w - resetTime d) RATE_LIMIT_WINDOW_MS) as [Hd | Hd].
    + rewrite (limiter_first req w) by (right; eauto). simpl.
      repeat split. discriminate.
    + rewrite (limiter_within req w d Hk Hd). cbn zeta.
      destruct (_ >? _).
      * cbn [fst snd].
        destruct (auditLog_keeps_tables None "RATE_LIMIT_EXCEEDED" "request" None
                    (Some (clientKey req))
                    (with_rateLimiters
                       (<[clientKey req := Limiter (count d + 1) (resetTime d)]>
                          (rateLimiters w)) w))
          as (H1 & H2 & H3 & H4 & H5).
        rewrite H1, H2, H3, H4, H5. simpl. repeat split.
        intros res [= <-]. reflexivity.
      * simpl. repeat split. discriminate.
  - rewrite (limiter_first req w) by (left; exact Hk). simpl.
    repeat split. discriminate.
Qed.

Lemma put_without_fields req user id w :
  let course_out := run (put_course req user id None None) w in
  let lesson_out := run (put_lesson req user id None None None) w in
  (status (fst course_out) <> 200 /\ snd course_out = w)
  /\ (status (fst lesson_out) <> 200
      /\ courses (snd lesson_out) = courses w
      /\ lessons (snd lesson_out) = lessons w).
Proof.
  unfold put_course, put_lesson, instructor_of, try_catch, ebind, eret, throw, await.
  simpl. split.
  - destruct (find _ (rows (courses w))); simpl; [| split; [discriminate | reflexivity]].
    destruct (_ =? _); simpl; split; solve [discriminate | reflexivity].
  - destruct (find _ (rows (lessons w))); simpl; [| repeat split; discriminate].
    destruct (find _ (rows (courses w))); simpl; [| repeat split; discriminate].
    destruct (_ =? _); simpl; repeat split; discriminate.
Qed.

(** C7. An update of a course or of a lesson by its owner accepts any
    subset of the mutable fields: the fields supplied are written, the
    others kept, and [updated_at] is touched.  With no field at all the
    answer is 400 "No fields to update" and the state is left as it was;
    whoever sends it, a request without fields never answers 200 and
    never changes a course or a lesson. *)
Theorem partial_update_requires_a_field
    (jwt_verify : string -> verify_result) (jwt_sign : Z -> string -> string)
    (bcrypt_hash : string -> string) (bcrypt_compare : string -> string -> bool)
    (isEmail : string -> bool) (normalizeEmail : string -> string)
    (req : request) (user : req_user) (id : Z) (w : world) :
  (forall c title_ description_,
     find (fun c => course_id c =? id) (rows (courses w)) = Some c ->
     instructor_id c = id_of user ->
     let out := run (put_course req user id title_ description_) w in
     let set := fun c =>
       Course (course_id c) (default (title c) title_)
              (default (description c) description_) (instructor_id c)
              (course_created_at c) (current_timestamp w) in
     match title_, description_ with
     | None, None => out = (json_error 400 "No fields to update", w)
     | _, _ =>
         fst out = Response 200 (JsonCourse (Some (set c)))
         /\ rows (courses (snd out)) =
            update_where (fun c => course_id c =? id) set (rows (courses w))
         /\ lessons (snd out) = lessons w
     end)
  /\ (forall l c title_ content_ order_index_,
        find (fun l => lesson_id l =? id) (rows (lessons w)) = Some l ->
        find (fun c => course_id c =? lesson_course_id l) (rows (courses w)) = Some c ->
        instructor_id c = id_of user ->
        let out := run (put_lesson req user id title_ content_ order_index_) w in
        let set := fun l =>
          Lesson (lesson_id l) (lesson_course_id l) (default (lesson_title l) title_)
                 (default (content l) content_) (default (order_index l) order_index_)
                 (lesson_created_at l) (current_timestamp w) in
        match title_, content_, order_index_ with
        | None, None, None => out = (json_error 400 "No fields to update", w)
        | _, _, _ =>
            fst out = Response 200 (JsonLesson (Some (set l)))
            /\ rows (lessons (snd out)) =
               update_where (fun l => lesson_id l =? id) set (rows (lessons w))
            /\ courses (snd out) = courses w
        end)
  /\ (target req = EpPutCourse id None None
      \/ target req = EpPutLesson id None None None ->
      let out := run (app jwt_verify jwt_sign bcrypt_hash bcrypt_compare isEmail
                          normalizeEmail req) w in
      status (fst out) <> 200
      /\ courses (snd out) = courses w /\ lessons (snd out) = lessons w).
Proof.
  split; [| split].
  - intros c t d. apply put_course_applies.
  - intros l c t ct o. apply put_lesson_applies.
  - intros Ht out. subst out. unfold app.
    assert (Hm : method_of (target req) = PUT) by (destruct Ht as [-> | ->]; reflexivity).
    rewrite Hm. simpl is_body_method. cbv iota.
    destruct (negb (json_content_type (content_type req)));
      simpl andb; cbv iota; [simpl; repeat split; discriminate |].
    rewrite run_bind.
    destruct (rate_limit_keeps_tables req w) as (_ & Hc & Hl & _ & _ & H429).
    destruct (run (perClientRateLimit req) w) as [[res |] w1]; simpl in Hc, Hl, H429.
    + simpl. rewrite (H429 res eq_refl). repeat split; [discriminate | | ]; assumption.
    + rewrite <- Hc, <- Hl. unfold route.
      pose proof (put_without_fields req) as Hput.
      destruct Ht as [-> | ->]; rewrite run_protected.
      * destruct (fst (run (authenticateToken jwt_verify req) w1)) as [res | u] eqn:Ha.
        { rewrite (surjective_pairing (run _ w1)) in Ha. simpl in Ha.
          apply authenticateToken_failure in Ha. simpl. rewrite Ha.
          repeat split. discriminate. }
        destruct (roles_include _ _); [| simpl; repeat split; discriminate].
        destruct (_ && _); [| simpl; repeat split; discriminate].
        destruct (Hput u id w1) as [[H1 H2] _]. simpl option_map.
        cbn [fmap option_fmap option_map]. rewrite H2. auto.
      * destruct (fst (run (authenticateToken jwt_verify req) w1)) as [res | u] eqn:Ha.
        { rewrite (surjective_pairing (run _ w1)) in Ha. simpl in Ha.
          apply authenticateToken_failure in Ha. simpl. rewrite Ha.
          repeat split. discriminate. }
        destruct (roles_include _ _); [| simpl; repeat split; discriminate].
        destruct (_ && _); [| simpl; repeat split; discriminate].
        destruct (Hput u id w1) as [_ H]. exact H.
Qed.

(** Instructor ann on her course 1: no field, then a new title. *)
Lemma partial_update_requires_a_field_witness :
  run (put_course (Demo.req (Some "Bearer ann") (EpPutCourse 1 None None))
                  (ReqUser 1 "ann@x.com" "instructor") 1 None None) Demo.campus
  = (json_error 400 "No fields to update", Demo.campus)
  /\ fst (run (put_course (Demo.req (Some "Bearer ann") (EpPutCourse 1 None None))
                          (ReqUser 1 "ann@x.com" "instructor") 1 (Some "Basics") None)
              Demo.campus)
     = Response 200 (JsonCourse (Some (Course 1 "Basics" "d" 1 4 6)))
  /\ status (fst (run (Demo.server (Demo.req (Some "Bearer ann") (EpPutCourse 1 None None)))
                      Demo.campus)) <> 200.
Proof.
  destruct (partial_update_requires_a_field Demo.verify Demo.sign Demo.hash
              Demo.compare Demo.is_email Demo.normalize
              (Demo.req (Some "Bearer ann") (EpPutCourse 1 None None))
              (ReqUser 1 "ann@x.com" "instructor") 1 Demo.campus) as (Hc & _ & Happ).
  split; [| split].
  - apply (Hc (Course 1 "Intro" "d" 1 4 4) None None); reflexivity.
  - apply (Hc (Course 1 "Intro" "d" 1 4 4) (Some "Basics") None); reflexivity.
  - apply Happ. left. reflexivity.
Defined.

(** ** Progress upsert *)

Lemma is_progress_stamped s l c now p :
  is_progress s l (stamped c now p) = is_progress s l p.
Proof. reflexivity. Qed.

(** The upsert of an enrolled student on an existing lesson, in closed
    form: the rows of the pair are overwritten, or a row is appended. *)
Lemma run_post_progress req user lesson_id_ completed_ w lesson enrollment :
  find (fun l => lesson_id l =? lesson_id_) (rows (lessons w)) = Some lesson ->
  find (is_pair (id_of user) (lesson_course_id lesson)) (rows (enrollments w))
    = Some enrollment ->
  run (post_progress req user lesson_id_ completed_) w =
  match find (is_progress (id_of user) lesson_id_) (rows (progress w)) with
  | Some existing =>
      (Response 200 (JsonProgress (Some (stamped completed_ (clock w) existing))),
       snd (run (auditLog (Some (id_of user)) "PROGRESS_UPDATED" "progress"
                          (Some (progress_id existing)) (ip req))
                (with_progress
                   (Table (update_where (is_progress (id_of user) lesson_id_)
                                        (stamped completed_ (clock w))
                                        (rows (progress w)))
                          (last_id (progress w))) w)))
  | None =>
      let fresh := stamped completed_ (clock w)
                     (Progress (last_id (progress w) + 1) (id_of user) lesson_id_ 0 None) in
      (Response 200 (JsonProgress (Some fresh)),
       snd (run (auditLog (Some (id_of user)) "PROGRESS_UPDATED" "progress"
                          (Some (last_id (progress w) + 1)) (ip req))
                (with_progress
                   (Table (rows (progress w) ++ [fresh]) (last_id (progress w) + 1)) w)))
  end.
Proof.
  intros Hl He.
  unfold post_progress, completion_stamp, try_catch, ebind, eret, await, await_run,
    lift, call.
  simpl. rewrite Hl. simpl. rewrite He. simpl.
  destruct (find (is_progress (id_of user) lesson_id_) (rows (progress w)))
    as [existing |] eqn:Hp; simpl.
  - assert (Hfind : find (is_progress (id_of user) lesson_id_)
              (update_where (is_progress (id_of user) lesson_id_)
                 (stamped completed_ (clock w)) (rows (progress w)))
            = Some (stamped completed_ (clock w) existing)).
    { rewrite find_update_where, Hp; [reflexivity |].
      intros r. apply is_progress_stamped. }
    unfold stamped in *.
    destruct (truthy completed_); simpl; destruct (audit_fault w); simpl;
      rewrite Hfind; reflexivity.
  - assert (Hex : existsb (is_progress (id_of user) lesson_id_) (rows (progress w)) = false)
      by (rewrite find_existsb, Hp; reflexivity).
    assert (Hfind : forall x, is_progress (id_of user) lesson_id_ x = true ->
              find (is_progress (id_of user) lesson_id_) (rows (progress w) ++ [x]) = Some x).
    { intros x Hx. rewrite find_app_last, Hx; [reflexivity | exact Hp]. }
    unfold stamped.
    destruct (truthy completed_); simpl; rewrite Hex; simpl;
      destruct (audit_fault w); simpl;
      (rewrite Hfind by (unfold is_progress; simpl; rewrite !Z.eqb_refl; reflexivity));
      reflexivity.
Qed.

Lemma post_progress_row req user lesson_id_ completed_ w lesson enrollment :
  find (fun l => lesson_id l =? lesson_id_) (rows (lessons w)) = Some lesson ->
  find (is_pair (id_of user) (lesson_course_id lesson)) (rows (enrollments w))
    = Some enrollment ->
  let out := run (post_progress req user lesson_id_ completed_) w in
  exists p,
    fst out = Response 200 (JsonProgress (Some (stamped completed_ (clock w) p)))
    /\ find (is_progress (id_of user) lesson_id_) (rows (progress (snd out)))
       = Some (stamped completed_ (clock w) p)
    /\ (forall q, find (is_progress (id_of user) lesson_id_) (rows (progress w)) = Some q ->
                  p = q)
    /\ lessons (snd out) = lessons w /\ enrollments (snd out) = enrollments w.
Proof.
  intros Hl He out. subst out. rewrite (run_post_progress _ _ _ _ _ _ _ Hl He).
  destruct (find (is_progress (id_of user) lesson_id_) (rows (progress w)))
    as [existing |] eqn:Hp.
  - exists existing. cbn [fst snd].
    match goal with
    | |- context [run (auditLog ?a ?b ?c ?d ?e) ?w0] =>
        destruct (auditLog_keeps_tables a b c d e w0) as (_ & _ & H3 & H4 & H5)
    end.
    rewrite H3, H4, H5. cbn [progress with_progress rows lessons enrollments].
    repeat split.
    + rewrite find_update_where, Hp; [reflexivity |].
      intros r. apply is_progress_stamped.
    + intros q [= <-]. reflexivity.
  - cbn zeta. cbn [fst snd].
    exists (Progress (last_id (progress w) + 1) (id_of user) lesson_id_ 0 None).
    match goal with
    | |- context [run (auditLog ?a ?b ?c ?d ?e) ?w0] =>
        destruct (auditLog_keeps_tables a b c d e w0) as (_ & _ & H3 & H4 & H5)
    end.
    rewrite H3, H4, H5. cbn [progress with_progress rows lessons enrollments].
    repeat split.
    + rewrite find_app_last by exact Hp.
      unfold is_progress, stamped. simpl. rewrite !Z.eqb_refl. reflexivity.
    + discriminate.
Qed.

(** C6 (as amended). For an enrolled student and an existing lesson,
    submitting completed=true twice and then completed=false answers 200
    three times with the same progress row (same id, student and lesson):
    completed is 1 after each of the first two and the completion
    timestamp is the time of that submission, so the second answer equals
    the first exactly when the clock has not moved; after completed=false
    completed is 0 and the timestamp is null. *)
Theorem progress_toggle_restamps (req : request) (user : req_user) (lesson_id_ : Z)
    (w : world) (lesson : lesson_row) (enrollment : enrollment_row) (t1 t2 t3 : Z) :
  find (fun l => lesson_id l =? lesson_id_) (rows (lessons w)) = Some lesson ->
  find (is_pair (id_of user) (lesson_course_id lesson)) (rows (enrollments w))
    = Some enrollment ->
  let first := at_time t1 (post_progress req user lesson_id_ (JBool true)) w in
  let second := at_time t2 (post_progress req user lesson_id_ (JBool true)) (snd first) in
  let third := at_time t3 (post_progress req user lesson_id_ (JBool false)) (snd second) in
  exists id s l,
    fst first = Response 200 (JsonProgress (Some (Progress id s l 1 (Some t1))))
    /\ fst second = Response 200 (JsonProgress (Some (Progress id s l 1 (Some t2))))
    /\ fst third = Response 200 (JsonProgress (Some (Progress id s l 0 None)))
    /\ (fst second = fst first <-> t2 = t1).
Proof.
  intros Hl He first second third. unfold at_time in *.
  destruct (post_progress_row req user lesson_id_ (JBool true) (with_clock t1 w)
              lesson enrollment Hl He) as (p1 & R1 & F1 & _ & L1 & E1).
  fold first in R1, F1, L1, E1.
  assert (Hl2 : find (fun l => lesson_id l =? lesson_id_)
                  (rows (lessons (with_clock t2 (snd first)))) = Some lesson)
    by (cbn [lessons with_clock]; rewrite L1; exact Hl).
  assert (He2 : find (is_pair (id_of user) (lesson_course_id lesson))
                  (rows (enrollments (with_clock t2 (snd first)))) = Some enrollment)
    by (cbn [enrollments with_clock]; rewrite E1; exact He).
  destruct (post_progress_row req user lesson_id_ (JBool true) _ lesson enrollment
              Hl2 He2) as (p2 & R2 & F2 & K2 & L2 & E2).
  fold second in R2, F2, L2, E2.
  assert (Hl3 : find (fun l => lesson_id l =? lesson_id_)
                  (rows (lessons (with_clock t3 (snd second)))) = Some lesson)
    by (cbn [lessons with_clock]; rewrite L2; exact Hl2).
  assert (He3 : find (is_pair (id_of user) (lesson_course_id lesson))
                  (rows (enrollments (with_clock t3 (snd second)))) = Some enrollment)
    by (cbn [enrollments with_clock]; rewrite E2; exact He2).
  destruct (post_progress_row req user lesson_id_ (JBool false) _ lesson enrollment
              Hl3 He3) as (p3 & R3 & F3 & K3 & _ & _).
  fold third in R3.
  rewrite (K2 _ F1) in R2, F2. rewrite (K3 _ F2) in R3.
  exists (progress_id p1), (progress_student_id p1), (progress_lesson_id p1).
  rewrite R1, R2, R3. unfold stamped. simpl.
  repeat split.
  - intros [= H]. exact H.
  - intros ->. reflexivity.
Qed.

(** Bob completes lesson 1 at 7000, again at 8000, and reopens it at 9000. *)
Lemma progress_toggle_restamps_witness :
  exists id s l,
    fst (at_time 7000
           (post_progress (Demo.req (Some "Bearer bob") (EpPostProgress 1 (JBool true)))
                          (ReqUser 2 "bob@x.com" "student") 1 (JBool true))
           Demo.campus)
    = Response 200 (JsonProgress (Some (Progress id s l 1 (Some 7000)))).
Proof.
  destruct (progress_toggle_restamps
              (Demo.req (Some "Bearer bob") (EpPostProgress 1 (JBool true)))
              (ReqUser 2 "bob@x.com" "student") 1 Demo.campus
              (Lesson 1 1 "Lesson" "text" 0 5 5) (Enrollment 1 2 1 6) 7000 8000 9000)
    as (id & s & l & H & _).
  - reflexivity.
  - reflexivity.
  - exists id, s, l. exact H.
Defined.

(** Submitting completed=true twice in a row does not yield the same
    observable progress state: the second submission overwrites the
    completion timestamp. *)
Lemma second_completion_changes_timestamp :
  map payload
    (fst (serve Demo.server
       [ (7000, Demo.req (Some "Bearer bob") (EpPostProgress 1 (JBool true)));
         (8000, Demo.req (Some "Bearer bob") (EpPostProgress 1 (JBool true))) ]
       Demo.campus))
  = [ JsonProgress (Some (Progress 1 2 1 1 (Some 7000)));
      JsonProgress (Some (Progress 1 2 1 1 (Some 8000))) ]
  /\ Progress 1 2 1 1 (Some 7000) <> Progress 1 2 1 1 (Some 8000).
Proof. split; [vm_compute; reflexivity | discriminate]. Qed.

(** ** The Progress invariant *)

Lemma stamped_ok c now p : progress_ok (stamped c now p) = true.
Proof. unfold stamped, progress_ok. destruct (truthy c); reflexivity. Qed.

Lemma exec_keeps_progress {A} (o : op A) (w : world) :
  progress_writer o = false -> progress_table_ok w ->
  progress_table_ok (snd (exec o w)).
Proof.
  destruct o; try discriminate; intros _ H; simpl;
    repeat match goal with
           | |- context [if ?c then _ else _] => destruct c
           end; exact H.
Qed.

Lemma Forall_update_where {R} (P : R -> Prop) (p : R -> bool) (f : R -> R) (l : list R) :
  (forall r, P (f r)) -> Forall P l -> Forall P (update_where p f l).
Proof.
  intros Hf Hl. unfold update_where. apply Forall_map.
  eapply Forall_impl; [| exact Hl]. intros r Hr. simpl. destruct (p r); auto.
Qed.

(** The two write paths of the upsert write a [stamped] row. *)
Lemma keeps_upsert_update completed_ student lesson (x : Z) :
  keeps progress_table_ok
    (stamp <-! lift (completion_stamp completed_) ;;
     await_run (UpdateProgress (if truthy completed_ then 1 else 0) stamp student lesson) ;;!
     eret x).
Proof.
  intros w Hw. unfold completion_stamp, progress_table_ok in *.
  destruct (truthy completed_) eqn:Ht; simpl;
    (apply Forall_update_where; [intros r; reflexivity | exact Hw]).
Qed.

Lemma keeps_upsert_insert completed_ student lesson :
  keeps progress_table_ok
    (stamp <-! lift (completion_stamp completed_) ;;
     insertResult <-!
       await_run (InsertProgress student lesson (if truthy completed_ then 1 else 0) stamp) ;;
     eret (lastID insertResult)).
Proof.
  intros w Hw. unfold completion_stamp, progress_table_ok in *.
  destruct (truthy completed_) eqn:Ht; simpl;
    destruct (existsb _ _); simpl; try exact Hw;
    (apply Forall_app; split; [exact Hw | repeat constructor]).
Qed.

Lemma progress_ok_app jwt_verify jwt_sign bcrypt_hash bcrypt_compare isEmail
    normalizeEmail req :
  keeps progress_table_ok
    (app jwt_verify jwt_sign bcrypt_hash bcrypt_compare isEmail normalizeEmail req).
Proof.
  assert (Hop : forall A (o : op A), progress_writer o = false ->
                  keeps progress_table_ok (call o)).
  { intros A o Ho. apply keeps_call. intros w. apply exec_keeps_progress, Ho. }
  apply (logic_app (fun R => @keeps progress_table_ok R)).
  - intros R r. apply keeps_ret.
  - intros R S p f. apply keeps_bind.
  - intros A o Ho. apply Hop. destruct o; try discriminate Ho; reflexivity.
  - intros line. apply Hop. reflexivity.
  - intros uid act rtype rid addr. unfold auditLog.
    apply keeps_bind; [apply Hop; reflexivity |].
    intros [a | e]; [apply keeps_ret | apply Hop; reflexivity].
  - apply keeps_upsert_update.
  - apply keeps_upsert_insert.
  - intros student course. apply Hop. reflexivity.
  - intros id. apply Hop. reflexivity.
Qed.

Lemma progress_ok_spec p :
  progress_ok p = true <->
  (completed p = 1 /\ completed_at p <> None) \/ (completed p = 0 /\ completed_at p = None).
Proof.
  unfold progress_ok. destruct (completed_at p) as [t |]; rewrite Z.eqb_eq; split.
  - intros H. left. split; [exact H | discriminate].
  - intros [[H _] | [_ H]]; [exact H | discriminate].
  - intros H. right. split; [exact H | reflexivity].
  - intros [[_ H] | [H _]]; [congruence | exact H].
Qed.

Lemma upsert_rows_ok req user lesson_id_ completed_ w p :
  let out := run (post_progress req user lesson_id_ completed_) w in
  status (fst out) = 200 ->
  In p (rows (progress (snd out))) ->
  is_progress (id_of user) lesson_id_ p = true ->
  progress_ok p = true.
Proof.
  intros out. subst out.
  destruct (find (fun l => lesson_id l =? lesson_id_) (rows (lessons w)))
    as [lesson |] eqn:Hl.
  2:{ unfold post_progress, try_catch, ebind, eret, await. simpl. rewrite Hl.
      simpl. discriminate. }
  destruct (find (is_pair (id_of user) (lesson_course_id lesson)) (rows (enrollments w)))
    as [enrollment |] eqn:He.
  2:{ unfold post_progress, try_catch, ebind, eret, await. simpl. rewrite Hl.
      simpl. rewrite He. simpl. discriminate. }
  rewrite (run_post_progress _ _ _ _ _ _ _ Hl He).
  destruct (find (is_progress (id_of user) lesson_id_) (rows (progress w)))
    as [existing |] eqn:Hp; cbn zeta; cbn [fst snd]; intros _;
    match goal with
    | |- context [run (auditLog ?a ?b ?c ?d ?e) ?w0] =>
        destruct (auditLog_keeps_tables a b c d e w0) as (_ & _ & _ & _ & H5)
    end;
    rewrite H5; cbn [progress with_progress rows].
  - unfold update_where. rewrite in_map_iff. intros (r & Hr & _) Hhit.
    destruct (is_progress (id_of user) lesson_id_ r) eqn:E; subst p.
    + apply stamped_ok.
    + congruence.
  - rewrite in_app_iff. intros [Hin | [<- | []]] Hhit.
    + apply find_none with (x := p) in Hp; [congruence | exact Hin].
    + apply stamped_ok.
Qed.

(** C8. Every request served by the application preserves the Progress
    invariant (completed_at is non-null exactly when completed is 1, and
    null when it is 0), hence so does every sequence of requests starting
    from the empty database; and whatever the table held before, every row
    of the (student, lesson) pair is in that shape after a successful
    upsert. *)
Theorem progress_invariant_preserved
    (jwt_verify : string -> verify_result) (jwt_sign : Z -> string -> string)
    (bcrypt_hash : string -> string) (bcrypt_compare : string -> string -> bool)
    (isEmail : string -> bool) (normalizeEmail : string -> string) :
  let server := app jwt_verify jwt_sign bcrypt_hash bcrypt_compare isEmail normalizeEmail in
  (forall req w, progress_table_ok w -> progress_table_ok (snd (run (server req) w)))
  /\ (forall history now,
        progress_table_ok (snd (serve server history (initial_world now))))
  /\ (forall req user lesson_id_ completed_ w p,
        let out := run (post_progress req user lesson_id_ completed_) w in
        status (fst out) = 200 ->
        In p (rows (progress (snd out))) ->
        is_progress (id_of user) lesson_id_ p = true ->
        (completed p = 1 /\ completed_at p <> None)
        \/ (completed p = 0 /\ completed_at p = None))
  /\ (forall w, progress_table_ok w <->
        forall p, In p (rows (progress w)) ->
          (completed p = 1 /\ completed_at p <> None)
          \/ (completed p = 0 /\ completed_at p = None)).
Proof.
  intros server. split; [| split; [| split]].
  - intros req. apply progress_ok_app.
  - intros history now. apply serve_keeps.
    + intros req. apply progress_ok_app.
    + intros t w H. exact H.
    + constructor.
  - intros req user l c w p out H1 H2 H3. apply progress_ok_spec.
    exact (upsert_rows_ok req user l c w p H1 H2 H3).
  - intros w. unfold progress_table_ok. rewrite Forall_forall.
    split; intros H p Hp; apply progress_ok_spec, H, Hp.
Qed.

(** Bob's upsert on the demo state, whose progress table is empty. *)
Lemma progress_invariant_preserved_witness :
  progress_table_ok
    (snd (run (Demo.server (Demo.req (Some "Bearer bob") (EpPostProgress 1 (JBool true))))
              Demo.campus)).
Proof.
  destruct (progress_invariant_preserved Demo.verify Demo.sign Demo.hash Demo.compare
              Demo.is_email Demo.normalize) as (H & _).
  apply H. constructor.
Defined.

(** ** Enrollment creation *)

(** C3 (as amended). Enrolling in an existing course is rejected with 409
    when the pre-check finds an enrollment of the pair, and creates the
    row with 201 when the request runs alone and finds none.  When the
    pre-check passed and the pair has been enrolled by the time the INSERT
    runs, the uniqueness violation is caught by the handler's catch-all:
    it is logged and answered with 500 "Failed to enroll in course", and
    no row is added. *)
Theorem enrollment_conflict_paths (req : request) (user : req_user)
    (course_id_ : Z) (w : world) (course : course_row) :
  find (fun c => course_id c =? course_id_) (rows (courses w)) = Some course ->
  let pair := is_pair (id_of user) course_id_ in
  (forall e, find pair (rows (enrollments w)) = Some e ->
     run (post_enrollment req user course_id_) w
     = (json_error 409 "Already enrolled in this course", w))
  /\ (find pair (rows (enrollments w)) = None ->
      let out := run (post_enrollment req user course_id_) w in
      let fresh := Enrollment (last_id (enrollments w) + 1) (id_of user) course_id_
                              (current_timestamp w) in
      status (fst out) = 201
      /\ rows (enrollments (snd out)) = (rows (enrollments w) ++ [fresh])%list)
  /\ (find pair (rows (enrollments w)) = None ->
      forall w' e, find pair (rows (enrollments w')) = Some e ->
        let suspended := fst (step (fst (step (post_enrollment req user course_id_) w)) w) in
        run suspended w'
        = (json_error 500 "Failed to enroll in course",
           with_console
             (console w'
              ++ ["Create enrollment error: SQLITE_CONSTRAINT: UNIQUE constraint failed: enrollments.student_id, enrollments.course_id"])
             w')).
Proof.
  intros Hc pair. subst pair.
  unfold post_enrollment, try_catch, ebind, eret, await, await_run, lift, call, failed.
  split; [| split].
  - intros e He. simpl. rewrite Hc. simpl. rewrite He. reflexivity.
  - intros He. simpl. rewrite Hc. simpl. rewrite He. simpl.
    rewrite find_existsb, He. simpl.
    destruct (audit_fault w); simpl; split; reflexivity.
  - intros He w' e He'. simpl. rewrite Hc. simpl. rewrite He. simpl.
    rewrite find_existsb, He'. simpl. reflexivity.
Qed.

(** Bob, already enrolled in course 1, enrolls again. *)
Lemma enrollment_conflict_paths_witness :
  run (post_enrollment (Demo.req (Some "Bearer bob") (EpPostEnrollment 1))
                       (ReqUser 2 "bob@x.com" "student") 1) Demo.campus
  = (json_error 409 "Already enrolled in this course", Demo.campus).
Proof.
  destruct (enrollment_conflict_paths
              (Demo.req (Some "Bearer bob") (EpPostEnrollment 1))
              (ReqUser 2 "bob@x.com" "student") 1 Demo.campus
              (Course 1 "Intro" "d" 1 4 4)) as (H & _).
  - reflexivity.
  - apply (H (Enrollment 1 2 1 6)). reflexivity.
Defined.

(** Two enrollment requests of bob for course 1 in flight together, after
    he unenrolled: both pre-checks pass before either INSERT runs, and the
    second INSERT, rejected by the uniqueness constraint, is answered with
    500 and not with 409. *)
Lemma concurrent_duplicate_enrollment_is_500 :
  status (fst (fst Demo.enrollment_race)) = 201
  /\ snd (fst Demo.enrollment_race) = json_error 500 "Failed to enroll in course"
  /\ map enrollment_id (rows (enrollments (snd Demo.enrollment_race))) = [2]
  /\ console (snd Demo.enrollment_race)
     = ["Create enrollment error: SQLITE_CONSTRAINT: UNIQUE constraint failed: enrollments.student_id, enrollments.course_id"].
Proof. vm_compute. repeat split. Qed.

(** ** What is audited *)

Ltac run_cases Hf :=
  simpl; rewrite ?Hf; simpl;
  repeat match goal with
         | |- context [match ?x with _ => _ end] =>
             lazymatch x with
             | context [match _ with _ => _ end] => fail
             | _ => destruct x eqn:?; simpl; rewrite ?Hf; simpl
             end
         end.

Ltac audited_now :=
  solve [ reflexivity
        | eexists; split; [reflexivity | split; [reflexivity | discriminate]] ].

Ltac unfold_handlers :=
  unfold register, login, post_course, put_course, delete_course, post_lesson,
    put_lesson, delete_lesson, post_enrollment, delete_enrollment, post_progress,
    completion_stamp, instructor_of, failed, auditLog,
    try_catch, ebind, eret, throw, await, await_run, lift, call, push.

Lemma audits_post_course req user t d :
  audits_on_success "COURSE_CREATED" (post_course req user t d).
Proof.
  intros w Hf out. subst out. unfold audited. unfold_handlers. run_cases Hf; audited_now.
Qed.

Lemma audits_put_course req user id t d :
  audits_on_success "COURSE_UPDATED" (put_course req user id t d).
Proof.
  intros w Hf out. subst out. unfold audited. unfold_handlers.
  destruct t, d; run_cases Hf; audited_now.
Qed.

Lemma audits_post_progress req user l c :
  audits_on_success "PROGRESS_UPDATED" (post_progress req user l c).
Proof.
  intros w Hf out. subst out. unfold audited. unfold_handlers. run_cases Hf; audited_now.
Qed.

Lemma audits_register jwt_sign bcrypt_hash req e p r :
  audits_on_success "USER_REGISTERED" (register jwt_sign bcrypt_hash req e p r).
Proof.
  intros w Hf out. subst out. unfold audited. unfold_handlers. run_cases Hf; audited_now.
Qed.

Lemma audits_delete_course req user id :
  audits_on_success "COURSE_DELETED" (delete_course req user id).
Proof.
  intros w Hf out. subst out. unfold audited. unfold_handlers. run_cases Hf; audited_now.
Qed.

Lemma audits_post_lesson req user cid t c o :
  audits_on_success "LESSON_CREATED" (post_lesson req user cid t c o).
Proof.
  intros w Hf out. subst out. unfold audited. unfold_handlers. run_cases Hf; audited_now.
Qed.

Lemma audits_put_lesson req user id t c o :
  audits_on_success "LESSON_UPDATED" (put_lesson req user id t c o).
Proof.
  intros w Hf out. subst out. unfold audited. unfold_handlers.
  destruct t, c, o; run_cases Hf; audited_now.
Qed.

Lemma audits_delete_lesson req user id :
  audits_on_success "LESSON_DELETED" (delete_lesson req user id).
Proof.
  intros w Hf out. subst out. unfold audited. unfold_handlers. run_cases Hf; audited_now.
Qed.

Lemma audits_post_enrollment req user cid :
  audits_on_success "ENROLLMENT_CREATED" (post_enrollment req user cid).
Proof.
  intros w Hf out. subst out. unfold audited. unfold_handlers. run_cases Hf; audited_now.
Qed.

Lemma audits_delete_enrollment req user id :
  audits_on_success "ENROLLMENT_DELETED" (delete_enrollment req user id).
Proof.
  intros w Hf out. subst out. unfold audited. unfold_handlers. run_cases Hf; audited_now.
Qed.

Lemma audits_protected jwt_verify req roles valid handler act :
  (forall u, audits_on_success act (handler u)) ->
  audits_on_success act (protected jwt_verify req roles valid handler).
Proof.
  intros H w Hf out. subst out. rewrite run_protected.
  destruct (fst (run (authenticateToken jwt_verify req) w)) as [res | u] eqn:Ha.
  - apply authenticateToken_failure in Ha. unfold success. simpl. rewrite Ha. reflexivity.
  - destruct (roles_include roles (role_of u)); [| reflexivity].
    destruct valid; [| reflexivity]. apply H, Hf.
Qed.

Lemma audits_route jwt_verify jwt_sign bcrypt_hash bcrypt_compare isEmail normalizeEmail
    req act :
  audit_action (target req) = Some act ->
  audits_on_success act
    (route jwt_verify jwt_sign bcrypt_hash bcrypt_compare isEmail normalizeEmail req).
Proof.
  unfold route. destruct (target req); intros [= <-];
    try (apply audits_protected; intros u).
  - unfold validate. destruct (_ && _); [apply audits_register |].
    intros w Hf. reflexivity.
  - apply audits_post_course.
  - apply audits_put_course.
  - apply audits_delete_course.
  - apply audits_post_lesson.
  - apply audits_put_lesson.
  - apply audits_delete_lesson.
  - apply audits_post_enrollment.
  - apply audits_delete_enrollment.
  - apply audits_post_progress.
Qed.

Lemma login_audited jwt_sign bcrypt_compare req e p w u :
  audit_fault w = false ->
  find (fun u => String.eqb (email u) e) (rows (users w)) = Some u ->
  let out := run (login jwt_sign bcrypt_compare req e p) w in
  if bcrypt_compare p (password_hash u)
  then status (fst out) = 200 /\ audited "LOGIN_SUCCESS" w (snd out)
  else status (fst out) = 401 /\ audited "LOGIN_FAILED" w (snd out).
Proof.
  intros Hf Hu out. subst out. unfold audited. unfold_handlers.
  simpl. rewrite Hu. simpl.
  destruct (bcrypt_compare p (password_hash u)); simpl; rewrite Hf; simpl;
    (split; [reflexivity | audited_now]).
Qed.

Lemma rate_limit_rejection_audited req w res :
  audit_fault w = false ->
  fst (run (perClientRateLimit req) w) = Some res ->
  status res = 429
  /\ rows (audit_log (snd (run (perClientRateLimit req) w))) =
     (rows (audit_log w)
      ++ [Audit (last_id (audit_log w) + 1) None "RATE_LIMIT_EXCEEDED" "request" None
                (current_timestamp w) (Some (clientKey req))])%list.
Proof.
  intros Hf.
  destruct (rateLimiters w !! clientKey req) as [d |] eqn:Hk.
  - destruct (Z_gt_le_dec (clock w - resetTime d) RATE_LIMIT_WINDOW_MS) as [Hd | Hd].
    + rewrite (limiter_first req w) by (right; eauto). discriminate.
    + rewrite (limiter_within req w d Hk Hd). cbn zeta.
      destruct (_ >? _); [| discriminate].
      intros [= <-]. split; [reflexivity |].
      cbn [fst snd]. rewrite run_auditLog_ok by exact Hf. reflexivity.
  - rewrite (limiter_first req w) by (left; exact Hk). discriminate.
Qed.

(** A login through its route: the validators first, then the handler. *)
Lemma login_route_audited
    (jwt_verify : string -> verify_result) (jwt_sign : Z -> string -> string)
    (bcrypt_hash : string -> string) (bcrypt_compare : string -> string -> bool)
    (isEmail : string -> bool) (normalizeEmail : string -> string)
    (req : request) (w : world) (e p : string) :
  audit_fault w = false ->
  target req = EpLogin e p ->
  let out := run (route jwt_verify jwt_sign bcrypt_hash bcrypt_compare isEmail
                        normalizeEmail req) w in
  if isEmail e && isLength 1 128 p then
    match find (fun u => String.eqb (email u) (normalizeEmail e)) (rows (users w)) with
    | Some u =>
        if bcrypt_compare p (password_hash u)
        then status (fst out) = 200 /\ audited "LOGIN_SUCCESS" w (snd out)
        else status (fst out) = 401 /\ audited "LOGIN_FAILED" w (snd out)
    | None => out = (json_error 401 "Invalid credentials", w)
    end
  else out = (validation_failed, w).
Proof.
  intros Hf Htarget out. subst out. unfold route. rewrite Htarget.
  destruct (isEmail e && isLength 1 128 p); cbn [validate]; [| reflexivity].
  destruct (find _ _) as [u |] eqn:Hu.
  - apply login_audited; assumption.
  - unfold login. simpl. rewrite Hu. reflexivity.
Qed.

(** C2 (as amended). While the audit storage accepts writes: a request
    rejected by the rate limiter is answered 429 and audited with a null
    user id; a login with a password of ASCII text that passes the
    validators of its route and names a known e-mail is audited as
    LOGIN_SUCCESS or, on a wrong password, as LOGIN_FAILED, while one that
    the validators reject (400) or that names an unknown e-mail (401)
    leaves the state, audit log included, as it was; registration and
    every mutation of a course, lesson, enrollment or progress row write
    their audit row exactly when they answer 2xx, and write nothing when
    they are rejected (validation, role, not found, not owner, conflict,
    internal error); and a request refused by [authenticateToken]
    (missing, malformed, expired or invalid token, unknown subject) is
    answered 401 and leaves the whole state, audit log included, as it
    was. *)
Theorem audit_coverage
    (jwt_verify : string -> verify_result) (jwt_sign : Z -> string -> string)
    (bcrypt_hash : string -> string) (bcrypt_compare : string -> string -> bool)
    (isEmail : string -> bool) (normalizeEmail : string -> string)
    (req : request) (w : world) :
  audit_fault w = false ->
  (forall res, fst (run (perClientRateLimit req) w) = Some res ->
     status res = 429
     /\ rows (audit_log (snd (run (perClientRateLimit req) w))) =
        (rows (audit_log w)
         ++ [Audit (last_id (audit_log w) + 1) None "RATE_LIMIT_EXCEEDED" "request"
                   None (current_timestamp w) (Some (clientKey req))])%list)
  /\ (forall e p, target req = EpLogin e p -> ascii_text p = true ->
        let out := run (route jwt_verify jwt_sign bcrypt_hash bcrypt_compare isEmail
                              normalizeEmail req) w in
        if isEmail e && isLength 1 128 p then
          match find (fun u => String.eqb (email u) (normalizeEmail e)) (rows (users w)) with
          | Some u =>
              if bcrypt_compare p (password_hash u)
              then status (fst out) = 200 /\ audited "LOGIN_SUCCESS" w (snd out)
              else status (fst out) = 401 /\ audited "LOGIN_FAILED" w (snd out)
          | None => out = (json_error 401 "Invalid credentials", w)
          end
        else out = (validation_failed, w))
  /\ (forall act, audit_action (target req) = Some act ->
        let out := run (route jwt_verify jwt_sign bcrypt_hash bcrypt_compare isEmail
                              normalizeEmail req) w in
        if success (fst out) then audited act w (snd out)
        else audit_log (snd out) = audit_log w)
  /\ (forall res, fst (run (authenticateToken jwt_verify req) w) = inl res ->
        status res = 401 /\ snd (run (authenticateToken jwt_verify req) w) = w).
Proof.
  intros Hf. split; [| split; [| split]].
  - intros res. apply rate_limit_rejection_audited, Hf.
  - intros e p Htarget _. apply login_route_audited; assumption.
  - intros act Hact. apply audits_route; assumption.
  - intros res Ha. split.
    + eapply authenticateToken_failure, Ha.
    + apply authenticateToken_keeps_world.
Qed.

(** On the demo state: ann renames her course (audited), the same
    request without a token is refused without a trace, and so is a
    login of bob with an empty password. *)
Lemma audit_coverage_witness :
  audited "COURSE_UPDATED" Demo.campus
    (snd (run (route Demo.verify Demo.sign Demo.hash Demo.compare Demo.is_email
                     Demo.normalize
                     (Demo.req (Some "Bearer ann") (EpPutCourse 1 (Some "Basics") None)))
              Demo.campus))
  /\ snd (run (authenticateToken Demo.verify
                 (Demo.req None (EpPutCourse 1 (Some "Basics") None))) Demo.campus)
     = Demo.campus
  /\ run (route Demo.verify Demo.sign Demo.hash Demo.compare Demo.is_email Demo.normalize
                (Demo.req None (EpLogin "bob@x.com" ""))) Demo.campus
     = (validation_failed, Demo.campus).
Proof.
  split; [| split].
  - destruct (audit_coverage Demo.verify Demo.sign Demo.hash Demo.compare Demo.is_email
                Demo.normalize
                (Demo.req (Some "Bearer ann") (EpPutCourse 1 (Some "Basics") None))
                Demo.campus eq_refl) as (_ & _ & H & _).
    exact (H "COURSE_UPDATED" eq_refl).
  - destruct (audit_coverage Demo.verify Demo.sign Demo.hash Demo.compare Demo.is_email
                Demo.normalize
                (Demo.req None (EpPutCourse 1 (Some "Basics") None))
                Demo.campus eq_refl) as (_ & _ & _ & H).
    exact (proj2 (H (json_error 401 "Authentication required") eq_refl)).
  - destruct (audit_coverage Demo.verify Demo.sign Demo.hash Demo.compare Demo.is_email
                Demo.normalize (Demo.req None (EpLogin "bob@x.com" ""))
                Demo.campus eq_refl) as (_ & H & _).
    exact (H "bob@x.com" "" eq_refl eq_refl).
Defined.

(** Failed authentications and rejected mutations that leave no audit
    entry, with the audit storage healthy: a missing token, a malformed
    one, an expired one, a login with an unknown e-mail, and an update of
    a course that does not exist. *)
Lemma unaudited_failures :
  audit_fault Demo.campus = false
  /\ map (fun r => let out := at_time 7000 (Demo.server r) Demo.campus in
                   (status (fst out), length (rows (audit_log (snd out)))))
       [ Demo.req None (EpDeleteCourse 1);
         Demo.req (Some "Bearer garbage") (EpDeleteCourse 1);
         Demo.req (Some "Bearer old") (EpDeleteCourse 1);
         Demo.req None (EpLogin "nobody@x.com" "password1");
         Demo.req (Some "Bearer ann") (EpPutCourse 2 (Some "x") None) ]
     = [ (401, 7%nat); (401, 7%nat); (401, 7%nat); (401, 7%nat); (404, 7%nat) ]
  /\ length (rows (audit_log Demo.campus)) = 7%nat.
Proof. vm_compute. repeat split. Qed.

(** * Further properties *)

(** ** The schema constraints hold in every state *)

Lemma nodup_map_append {R K} (proj : R -> K) (l : list R) (r : R) :
  NoDup (map proj l) -> ~ In (proj r) (map proj l) -> NoDup (map proj (l ++ [r])).
Proof.
  intros Hnd Hnew. rewrite map_app. simpl. apply List.NoDup_app.
  - exact Hnd.
  - apply NoDup_cons; [intros [] | constructor].
  - intros x Hx [<- | []]. exact (Hnew Hx).
Qed.

Lemma nodup_map_delete {R K} (proj : R -> K) (p : R -> bool) (l : list R) :
  NoDup (map proj l) -> NoDup (map proj (delete_where p l)).
Proof.
  unfold delete_where. induction l as [| r l IH]; simpl; intros Hnd; [constructor |].
  inversion Hnd as [| ? ? Hnotin Hnd']; subst.
  destruct (negb (p r)); simpl; [| apply IH, Hnd'].
  constructor; [| apply IH, Hnd'].
  intros Hin. apply Hnotin. apply in_map_iff in Hin.
  destruct Hin as (x & Hx & Hin). apply filter_In in Hin.
  apply in_map_iff. exists x. tauto.
Qed.

Lemma map_update_where {R K} (proj : R -> K) (p : R -> bool) (f : R -> R) (l : list R) :
  (forall r, proj (f r) = proj r) -> map proj (update_where p f l) = map proj l.
Proof.
  intros Hf. unfold update_where. rewrite map_map. apply map_ext.
  intros r. destruct (p r); [apply Hf | reflexivity].
Qed.

Lemma keys_append {R} (key : R -> Z) (t : table R) (r : R) :
  keys_ok key t -> key r = last_id t + 1 ->
  keys_ok key (Table (rows t ++ [r]) (last_id t + 1)).
Proof.
  intros [Hnd Hle] Hr. split; simpl.
  - apply nodup_map_append; [exact Hnd |]. intros Hin. apply in_map_iff in Hin.
    destruct Hin as (x & Hx & Hin). rewrite Forall_forall in Hle.
    specialize (Hle x Hin). lia.
  - apply Forall_app. split.
    + eapply Forall_impl; [| exact Hle]. simpl. intros. lia.
    + constructor; [lia | constructor].
Qed.

Lemma keys_delete {R} (key : R -> Z) (p : R -> bool) (t : table R) :
  keys_ok key t -> keys_ok key (Table (delete_where p (rows t)) (last_id t)).
Proof.
  intros [Hnd Hle]. split; simpl.
  - apply nodup_map_delete, Hnd.
  - rewrite Forall_forall in *. intros r Hr. apply filter_In in Hr. apply Hle, Hr.
Qed.

Lemma keys_update {R} (key : R -> Z) (p : R -> bool) (f : R -> R) (t : table R) :
  (forall r, key (f r) = key r) -> keys_ok key t ->
  keys_ok key (Table (update_where p f (rows t)) (last_id t)).
Proof.
  intros Hf [Hnd Hle]. split; simpl.
  - rewrite map_update_where by exact Hf. exact Hnd.
  - unfold update_where. apply Forall_map. eapply Forall_impl; [| exact Hle].
    simpl. intros r Hr. destruct (p r); [rewrite Hf |]; exact Hr.
Qed.

Lemma existsb_notin {R K} (proj : R -> K) (hit : R -> bool) (k : K) (l : list R) :
  (forall r, proj r = k -> hit r = true) ->
  existsb hit l = false -> ~ In k (map proj l).
Proof.
  intros Hhit Hex Hin. apply in_map_iff in Hin. destruct Hin as (r & Hr & Hin).
  assert (existsb hit l = true) by (apply existsb_exists; exists r; auto).
  congruence.
Qed.

Lemma fold_course_id now updates c :
  course_id (fold_left (apply_course_set now) updates c) = course_id c.
Proof.
  revert c. induction updates as [| s l IH]; intros c; simpl; [reflexivity |].
  rewrite IH. destruct s; reflexivity.
Qed.

Lemma fold_lesson_id now updates l :
  lesson_id (fold_left (apply_lesson_set now) updates l) = lesson_id l.
Proof.
  revert l. induction updates as [| s u IH]; intros l; simpl; [reflexivity |].
  rewrite IH. destruct s; reflexivity.
Qed.

(** Every statement the server issues preserves the constraints. *)
Lemma exec_schema_ok {A} (o : op A) (w : world) :
  schema_ok w -> schema_ok (snd (exec o w)).
Proof.
  intros [Uk Ue Ur Ck Lk Ek Ep Pk Pp Ak].
  destruct o; simpl;
    repeat match goal with
           | |- context [if ?c then _ else _] => destruct c eqn:?
           end;
    simpl; constructor; simpl; try assumption.
  - (* InsertUser: key *) apply keys_append; [exact Uk | reflexivity].
  - apply nodup_map_append; [exact Ue |].
    eapply (existsb_notin email); [| eassumption].
    intros x Hx. simpl in Hx |- *. rewrite Hx. apply String.eqb_refl.
  - apply Forall_app. split; [exact Ur |]. constructor; [| constructor].
    simpl. destruct (valid_role r); [reflexivity | discriminate].
  - apply keys_append; [exact Ck | reflexivity].
  - apply keys_update; [| exact Ck]. intros x. apply fold_course_id.
  - apply keys_delete, Ck.
  - apply keys_append; [exact Lk | reflexivity].
  - apply keys_update; [| exact Lk]. intros x. apply fold_lesson_id.
  - apply keys_delete, Lk.
  - apply keys_append; [exact Ek | reflexivity].
  - apply nodup_map_append; [exact Ep |].
    eapply (existsb_notin enrollment_pair); [| eassumption].
    intros x [= Hs Hc]. unfold is_pair. rewrite Hs, Hc, !Z.eqb_refl. reflexivity.
  - apply keys_delete, Ek.
  - apply nodup_map_delete, Ep.
  - apply keys_append; [exact Pk | reflexivity].
  - apply nodup_map_append; [exact Pp |].
    eapply (existsb_notin progress_pair); [| eassumption].
    intros x [= Hs Hl]. unfold is_progress. rewrite Hs, Hl, !Z.eqb_refl. reflexivity.
  - apply keys_update; [| exact Pk]. intros x. reflexivity.
  - rewrite map_update_where; [exact Pp |]. intros x. reflexivity.
  - apply keys_append; [exact Ak | reflexivity].
Qed.

(** A property of states that every statement preserves is preserved by
    every program. *)
Lemma keeps_every_program (I : world -> Prop) :
  (forall A (o : op A) w, I w -> I (snd (exec o w))) ->
  forall R (p : prog R), keeps I p.
Proof.
  intros Hop R p. induction p as [r | A o k IH]; intros w Hw; simpl.
  - exact Hw.
  - specialize (Hop A o w Hw). destruct (exec o w) as [a w1]. apply IH, Hop.
Qed.

Lemma schema_ok_serve (server : request -> prog response) history w :
  schema_ok w -> schema_ok (snd (serve server history w)).
Proof.
  apply serve_keeps.
  - intros req. apply keeps_every_program. intros A o. apply exec_schema_ok.
  - intros t w0 [Uk Ue Ur Ck Lk Ek Ep Pk Pp Ak]. constructor; assumption.
Qed.

Lemma initial_schema_ok now : schema_ok (initial_world now).
Proof. constructor; simpl; try split; constructor. Qed.

Lemma campus_schema_ok : schema_ok Demo.campus.
Proof. rewrite <- campus_reachable. apply schema_ok_serve, initial_schema_ok. Qed.

(** ** The users table only grows *)

Lemma exec_users_grow {A} (o : op A) (w : world) :
  exists l, rows (users (snd (exec o w))) = (rows (users w) ++ l)%list.
Proof.
  destruct o; simpl;
    repeat match goal with
           | |- context [if ?c then _ else _] => destruct c
           end;
    simpl; first [ exists []; rewrite app_nil_r; reflexivity | eexists; reflexivity ].
Qed.

Lemma users_grow_serve (server : request -> prog response) history w :
  exists l, rows (users (snd (serve server history w))) = (rows (users w) ++ l)%list.
Proof.
  apply (serve_keeps (fun w' => exists l, rows (users w') = (rows (users w) ++ l)%list)).
  - intros req. apply keeps_every_program. intros A o w1 [l Hl].
    destruct (exec_users_grow o w1) as [l' Hl'].
    exists (l ++ l')%list. rewrite Hl', Hl, app_assoc. reflexivity.
  - intros t w1 H. exact H.
  - exists []. rewrite app_nil_r. reflexivity.
Qed.

(** ** The life of a course *)

Lemma keys_find_fresh {R} (key : R -> Z) (t : table R) :
  keys_ok key t -> find (fun r => key r =? last_id t + 1) (rows t) = None.
Proof.
  intros [_ Hle]. apply find_none_iff. intros r Hr.
  rewrite Forall_forall in Hle. specialize (Hle r Hr). apply Z.eqb_neq. lia.
Qed.

Lemma delete_where_none {R} (p : R -> bool) (l : list R) :
  (forall r, In r l -> p r = false) -> delete_where p l = l.
Proof.
  unfold delete_where. induction l as [| r l IH]; simpl; intros H; [reflexivity |].
  rewrite (H r) by auto. simpl. f_equal. apply IH. auto.
Qed.

Lemma delete_where_app {R} (p : R -> bool) (l1 l2 : list R) :
  delete_where p (l1 ++ l2) = (delete_where p l1 ++ delete_where p l2)%list.
Proof. unfold delete_where. apply filter_app. Qed.

Lemma run_post_course req user title_ description_ w :
  keys_ok course_id (courses w) ->
  run (post_course req user title_ description_) w =
  let c := Course (last_id (courses w) + 1) title_ description_ (id_of user)
                  (current_timestamp w) (current_timestamp w) in
  (Response 201 (JsonCourse (Some c)),
   snd (run (auditLog (Some (id_of user)) "COURSE_CREATED" "course"
                      (Some (last_id (courses w) + 1)) (ip req))
            (with_courses (Table (rows (courses w) ++ [c]) (last_id (courses w) + 1)) w))).
Proof.
  intros Hk. pose proof (keys_find_fresh course_id (courses w) Hk) as Hfresh.
  unfold post_course. simpl.
  destruct (audit_fault w); simpl; rewrite find_app_last by exact Hfresh;
    simpl; rewrite Z.eqb_refl; reflexivity.
Qed.

Lemma run_delete_course req user id w :
  run (delete_course req user id) w =
  match find (fun c => course_id c =? id) (rows (courses w)) with
  | None => (json_error 404 "Course not found", w)
  | Some c =>
      if instructor_id c =? id_of user then
        (Response 204 Empty,
         snd (run (auditLog (Some (id_of user)) "COURSE_DELETED" "course" (Some id) (ip req))
                  (with_courses
                     (Table (delete_where (fun c => course_id c =? id) (rows (courses w)))
                            (last_id (courses w))) w)))
      else (json_error 403 "Not authorized to delete this course", w)
  end.
Proof.
  unfold delete_course. simpl.
  destruct (find _ _) as [c |]; simpl; [| reflexivity].
  destruct (instructor_id c =? id_of user); simpl; [| reflexivity].
  destruct (audit_fault w); reflexivity.
Qed.

Lemma auditLog_keeps_courses uid act rtype rid addr w :
  courses (snd (run (auditLog uid act rtype rid addr) w)) = courses w.
Proof. apply (auditLog_keeps_tables uid act rtype rid addr w). Qed.

(** X4. A course created by a user is stored with the submitted title and
    description, the creator as instructor and the next id; the creator
    can delete it again, which restores the rows of the courses table,
    while the same request from any other user is refused with 403 and
    changes nothing. *)
Theorem course_create_then_delete (req req' : request) (user : req_user)
    (title_ description_ : string) (w : world) :
  keys_ok course_id (courses w) ->
  let created := run (post_course req user title_ description_) w in
  let c := Course (last_id (courses w) + 1) title_ description_ (id_of user)
                  (current_timestamp w) (current_timestamp w) in
  fst created = Response 201 (JsonCourse (Some c))
  /\ rows (courses (snd created)) = (rows (courses w) ++ [c])%list
  /\ fst (run (delete_course req' user (course_id c)) (snd created)) = Response 204 Empty
  /\ rows (courses (snd (run (delete_course req' user (course_id c)) (snd created))))
     = rows (courses w)
  /\ forall other, id_of other <> id_of user ->
       run (delete_course req' other (course_id c)) (snd created)
       = (json_error 403 "Not authorized to delete this course", snd created).
Proof.
  intros Hk created c. subst created.
  rewrite (run_post_course req user title_ description_ w Hk). cbn zeta. fold c.
  set (w1 := snd (run (auditLog _ _ _ _ _) _)).
  assert (Hc1 : courses w1 = Table (rows (courses w) ++ [c]) (last_id (courses w) + 1)).
  { unfold w1. rewrite auditLog_keeps_courses. reflexivity. }
  pose proof (keys_find_fresh course_id (courses w) Hk) as Hfresh.
  assert (Hfind : find (fun x => course_id x =? course_id c) (rows (courses w1)) = Some c).
  { rewrite Hc1. simpl. rewrite find_app_last by exact Hfresh.
    simpl. rewrite Z.eqb_refl. reflexivity. }
  cbn [fst snd]. split; [reflexivity |]. split; [rewrite Hc1; reflexivity |].
  assert (Hdel : forall u, id_of u = id_of user ->
            run (delete_course req' u (course_id c)) w1 =
            (Response 204 Empty,
             snd (run (auditLog (Some (id_of u)) "COURSE_DELETED" "course"
                                (Some (course_id c)) (ip req'))
                      (with_courses
                         (Table (delete_where (fun x => course_id x =? course_id c)
                                              (rows (courses w1)))
                                (last_id (courses w1))) w1)))).
  { intros u Hu. rewrite run_delete_course, Hfind. simpl instructor_id.
    rewrite Hu, Z.eqb_refl. reflexivity. }
  rewrite (Hdel user eq_refl). split; [reflexivity |]. split.
  - cbn [snd]. rewrite auditLog_keeps_courses. cbn [courses with_courses rows].
    rewrite Hc1. cbn [rows]. rewrite delete_where_app.
    rewrite delete_where_none by (apply find_none_iff; exact Hfresh).
    unfold delete_where. simpl. rewrite Z.eqb_refl. simpl. apply app_nil_r.
  - intros other Ho. rewrite run_delete_course, Hfind. simpl instructor_id.
    apply Z.eqb_neq in Ho. rewrite Z.eqb_sym, Ho. reflexivity.
Qed.

(** Ann (id 1) creates a second course on the demo state; cat (id 3) may
    not delete it. *)
Lemma course_create_then_delete_witness :
  run (delete_course (Demo.req (Some "Bearer cat") (EpDeleteCourse 2))
                     (ReqUser 3 "cat@x.com" "instructor") 2)
      (snd (run (post_course (Demo.req (Some "Bearer ann") (EpPostCourse "Logic" "d"))
                             (ReqUser 1 "ann@x.com" "instructor") "Logic" "d") Demo.campus))
  = (json_error 403 "Not authorized to delete this course",
     snd (run (post_course (Demo.req (Some "Bearer ann") (EpPostCourse "Logic" "d"))
                           (ReqUser 1 "ann@x.com" "instructor") "Logic" "d") Demo.campus)).
Proof.
  destruct (course_create_then_delete
              (Demo.req (Some "Bearer ann") (EpPostCourse "Logic" "d"))
              (Demo.req (Some "Bearer cat") (EpDeleteCourse 2))
              (ReqUser 1 "ann@x.com" "instructor") "Logic" "d" Demo.campus)
    as (_ & _ & _ & _ & H).
  - split; simpl; repeat constructor; simpl; [tauto | lia].
  - apply (H (ReqUser 3 "cat@x.com" "instructor")). simpl. lia.
Defined.

Lemma exec_course_gone {A} (o : op A) (id : Z) (w : world) :
  course_gone id w -> course_gone id (snd (exec o w)).
Proof.
  intros [Hle Hnot].
  destruct o; simpl;
    repeat match goal with
           | |- context [if ?c then _ else _] => destruct c
           end;
    simpl; try (split; assumption); split; simpl; try lia.
  - rewrite map_app, in_app_iff. simpl. intros [H | [H | []]]; [tauto | lia].
  - rewrite map_update_where; [exact Hnot |]. intros x. apply fold_course_id.
  - intros H. apply Hnot. apply in_map_iff in H. destruct H as (x & Hx & Hin).
    apply in_delete_where in Hin. apply in_map_iff. exists x. tauto.
Qed.

(** X5. Course ids are never handed out twice: once its owner has deleted
    a course, no sequence of requests brings a course with that id back,
    so every later update or deletion aimed at the id answers 404. *)
Theorem deleted_course_stays_deleted
    (jwt_verify : string -> verify_result) (jwt_sign : Z -> string -> string)
    (bcrypt_hash : string -> string) (bcrypt_compare : string -> string -> bool)
    (isEmail : string -> bool) (normalizeEmail : string -> string)
    (req : request) (user : req_user) (id : Z) (w : world)
    (history : list (Z * request)) :
  keys_ok course_id (courses w) ->
  fst (run (delete_course req user id) w) = Response 204 Empty ->
  let later :=
    snd (serve (app jwt_verify jwt_sign bcrypt_hash bcrypt_compare isEmail normalizeEmail)
               history (snd (run (delete_course req user id) w))) in
  find (fun c => course_id c =? id) (rows (courses later)) = None
  /\ forall req' user' title_ description_,
       run (put_course req' user' id title_ description_) later
         = (json_error 404 "Course not found", later)
       /\ run (delete_course req' user' id) later
         = (json_error 404 "Course not found", later).
Proof.
  intros [Hnd Hle] Hdel later.
  assert (Hgone : course_gone id later).
  { unfold later. apply serve_keeps.
    - intros r. apply keeps_every_program. intros A o w1. apply exec_course_gone.
    - intros t w1 H. exact H.
    - rewrite run_delete_course in Hdel |- *.
      destruct (find _ _) as [c |] eqn:Hc; [| discriminate Hdel].
      destruct (instructor_id c =? id_of user); [| discriminate Hdel].
      apply find_some in Hc. destruct Hc as [Hin Hid]. apply Z.eqb_eq in Hid.
      unfold course_gone. cbn [snd]. rewrite auditLog_keeps_courses. simpl. split.
      + rewrite Forall_forall in Hle. specialize (Hle c Hin). lia.
      + intros H. apply in_map_iff in H. destruct H as (x & Hx & Hx').
        apply in_delete_where in Hx'. destruct Hx' as [_ Hx'].
        apply Z.eqb_neq in Hx'. contradiction. }
  assert (Hfind : find (fun c => course_id c =? id) (rows (courses later)) = None).
  { apply find_none_iff. intros c Hc. apply Z.eqb_neq. intros Heq.
    apply (proj2 Hgone). rewrite <- Heq. apply in_map. exact Hc. }
  split; [exact Hfind |]. intros req' user' title_ description_. split.
  - unfold put_course. simpl. rewrite Hfind. reflexivity.
  - rewrite run_delete_course, Hfind. reflexivity.
Qed.

(** Ann deletes course 1 of the demo state; the course cat creates next
    gets id 2. *)
Lemma deleted_course_stays_deleted_witness :
  find (fun c => course_id c =? 1)
       (rows (courses
          (snd (serve Demo.server
                  [(8000, Demo.req (Some "Bearer cat") (EpPostCourse "Logic" "d"))]
                  (snd (run (delete_course (Demo.req (Some "Bearer ann") (EpDeleteCourse 1))
                                           (ReqUser 1 "ann@x.com" "instructor") 1)
                            Demo.campus)))))) = None.
Proof.
  destruct (deleted_course_stays_deleted Demo.verify Demo.sign Demo.hash Demo.compare
              Demo.is_email Demo.normalize
              (Demo.req (Some "Bearer ann") (EpDeleteCourse 1))
              (ReqUser 1 "ann@x.com" "instructor") 1 Demo.campus
              [(8000, Demo.req (Some "Bearer cat") (EpPostCourse "Logic" "d"))])
    as (H & _).
  - split; simpl; repeat constructor; simpl; [tauto | lia].
  - reflexivity.
  - exact H.
Defined.

(** ** Accounts *)

Lemma run_register jwt_sign bcrypt_hash req e p r w :
  run (register jwt_sign bcrypt_hash req e p r) w =
  match find (fun u => String.eqb (email u) e) (rows (users w)) with
  | Some _ => (json_error 409 "User already exists", w)
  | None =>
      if valid_role r then
        let id := last_id (users w) + 1 in
        (Response 201 (JsonAuth (jwt_sign id r) id e r),
         snd (run (auditLog (Some id) "USER_REGISTERED" "user" (Some id) (ip req))
                  (with_users (Table (rows (users w) ++ [User id e (bcrypt_hash p) r]) id) w)))
      else
        (json_error 500 "Registration failed",
         with_console
           (console w ++ ["Registration error: SQLITE_CONSTRAINT: CHECK constraint failed: users"])
           w)
  end.
Proof.
  unfold register. simpl.
  destruct (find _ _) eqn:Hfind; simpl; [reflexivity |].
  rewrite find_existsb, Hfind.
  destruct (valid_role r); simpl; [| reflexivity].
  destruct (audit_fault w); reflexivity.
Qed.

Lemma run_login jwt_sign bcrypt_compare req e p w :
  run (login jwt_sign bcrypt_compare req e p) w =
  match find (fun u => String.eqb (email u) e) (rows (users w)) with
  | None => (json_error 401 "Invalid credentials", w)
  | Some u =>
      if bcrypt_compare p (password_hash u) then
        (Response 200 (JsonAuth (jwt_sign (user_id u) (role u)) (user_id u) (email u) (role u)),
         snd (run (auditLog (Some (user_id u)) "LOGIN_SUCCESS" "user" (Some (user_id u))
                            (ip req)) w))
      else
        (json_error 401 "Invalid credentials",
         snd (run (auditLog (Some (user_id u)) "LOGIN_FAILED" "user" (Some (user_id u))
                            (ip req)) w))
  end.
Proof.
  unfold login. simpl.
  destruct (find _ _) as [u |]; simpl; [| reflexivity].
  destruct (bcrypt_compare p (password_hash u)); simpl;
    destruct (audit_fault w); reflexivity.
Qed.

Lemma auditLog_keeps_users uid act rtype rid addr w :
  users (snd (run (auditLog uid act rtype rid addr) w)) = users w.
Proof. apply (auditLog_keeps_tables uid act rtype rid addr w). Qed.

Lemma find_app_first {R} (p : R -> bool) (l l' : list R) (x : R) :
  find p l = Some x -> find p (l ++ l') = Some x.
Proof.
  induction l as [| r l IH]; simpl; [discriminate |].
  destruct (p r); [intros H; exact H | exact IH].
Qed.

(** The users table once a registration has been answered with 201, and
    after any requests that follow. *)
Lemma registered_rows jwt_sign bcrypt_hash req e p r w
    (server : request -> prog response) history :
  status (fst (run (register jwt_sign bcrypt_hash req e p r) w)) = 201 ->
  find (fun u => String.eqb (email u) e) (rows (users w)) = None
  /\ valid_role r = true
  /\ fst (run (register jwt_sign bcrypt_hash req e p r) w)
     = Response 201 (JsonAuth (jwt_sign (last_id (users w) + 1) r)
                              (last_id (users w) + 1) e r)
  /\ exists l,
       rows (users (snd (serve server history
                           (snd (run (register jwt_sign bcrypt_hash req e p r) w)))))
       = ((rows (users w) ++ [User (last_id (users w) + 1) e (bcrypt_hash p) r]) ++ l)%list.
Proof.
  rewrite run_register.
  destruct (find _ _) eqn:Hfind; [discriminate |].
  destruct (valid_role r) eqn:Hr; [| discriminate].
  cbn zeta. cbn [fst snd]. intros _. repeat split.
  destruct (users_grow_serve server history
              (snd (run (auditLog (Some (last_id (users w) + 1)) "USER_REGISTERED" "user"
                                  (Some (last_id (users w) + 1)) (ip req))
                        (with_users
                           (Table (rows (users w)
                                   ++ [User (last_id (users w) + 1) e (bcrypt_hash p) r])
                                  (last_id (users w) + 1)) w)))) as [l Hl].
  exists l. rewrite Hl, auditLog_keeps_users. reflexivity.
Qed.

(** X6. Registration and login round trip.  Once a registration has been
    answered with 201, then after any further requests a login with the
    same email and password answers 200 and signs a token for the same id
    and role, a login with a password that does not match the stored hash
    answers 401 "Invalid credentials", and a second registration of the
    email answers 409. *)
Theorem registered_account_logs_in
    (jwt_verify : string -> verify_result) (jwt_sign : Z -> string -> string)
    (bcrypt_hash : string -> string) (bcrypt_compare : string -> string -> bool)
    (isEmail : string -> bool) (normalizeEmail : string -> string)
    (req req' : request) (e p r : string) (w : world) (history : list (Z * request)) :
  bcrypt_compare p (bcrypt_hash p) = true ->
  status (fst (run (register jwt_sign bcrypt_hash req e p r) w)) = 201 ->
  let id := last_id (users w) + 1 in
  let later :=
    snd (serve (app jwt_verify jwt_sign bcrypt_hash bcrypt_compare isEmail normalizeEmail)
               history (snd (run (register jwt_sign bcrypt_hash req e p r) w))) in
  fst (run (register jwt_sign bcrypt_hash req e p r) w)
    = Response 201 (JsonAuth (jwt_sign id r) id e r)
  /\ fst (run (login jwt_sign bcrypt_compare req' e p) later)
     = Response 200 (JsonAuth (jwt_sign id r) id e r)
  /\ (forall p', bcrypt_compare p' (bcrypt_hash p) = false ->
        fst (run (login jwt_sign bcrypt_compare req' e p') later)
        = json_error 401 "Invalid credentials")
  /\ (forall p' r',
        run (register jwt_sign bcrypt_hash req' e p' r') later
        = (json_error 409 "User already exists", later)).
Proof.
  intros Hbcrypt H201 id later.
  destruct (registered_rows jwt_sign bcrypt_hash req e p r w
              (app jwt_verify jwt_sign bcrypt_hash bcrypt_compare isEmail normalizeEmail)
              history H201) as (Hnone & Hr & Hres & l & Hl).
  fold id in Hres, Hl. fold later in Hl.
  assert (Hfind : find (fun u => String.eqb (email u) e) (rows (users later))
                  = Some (User id e (bcrypt_hash p) r)).
  { rewrite Hl. apply find_app_first. rewrite find_app_last by exact Hnone.
    simpl. rewrite String.eqb_refl. reflexivity. }
  split; [exact Hres |]. split; [| split].
  - rewrite run_login, Hfind. simpl. rewrite Hbcrypt. reflexivity.
  - intros p' Hp'. rewrite run_login, Hfind. simpl. rewrite Hp'. reflexivity.
  - intros p' r'. rewrite run_register, Hfind. reflexivity.
Qed.

(** Eve registers on the demo state, ann creates a course, eve logs in. *)
Lemma registered_account_logs_in_witness :
  fst (run (login Demo.sign Demo.compare (Demo.req None (EpLogin "eve@x.com" "password5"))
                  "eve@x.com" "password5")
           (snd (serve Demo.server
                   [(8000, Demo.req (Some "Bearer ann") (EpPostCourse "Logic" "d"))]
                   (snd (run (register Demo.sign Demo.hash Signup.eve
                                       "eve@x.com" "password5" "instructor")
                             Demo.campus)))))
  = Response 200 (JsonAuth "token-for-instructor" 5 "eve@x.com" "instructor").
Proof.
  destruct (registered_account_logs_in Demo.verify Demo.sign Demo.hash Demo.compare
              Demo.is_email Demo.normalize Signup.eve
              (Demo.req None (EpLogin "eve@x.com" "password5"))
              "eve@x.com" "password5" "instructor" Demo.campus
              [(8000, Demo.req (Some "Bearer ann") (EpPostCourse "Logic" "d"))])
    as (_ & H & _).
  - reflexivity.
  - reflexivity.
  - exact H.
Defined.

(** X7. The role is chosen by whoever registers.  When a registration
    asking for role [r] has been answered with 201 and the token it
    returned verifies to the claims it was signed with, then after any
    further requests a request carrying that token is authenticated as
    the new user with role [r], and passes the role check of every route
    restricted to [r]. *)
Theorem registration_grants_requested_role
    (jwt_verify : string -> verify_result) (jwt_sign : Z -> string -> string)
    (bcrypt_hash : string -> string) (bcrypt_compare : string -> string -> bool)
    (isEmail : string -> bool) (normalizeEmail : string -> string)
    (req req' : request) (e p r : string) (w : world) (history : list (Z * request)) :
  keys_ok user_id (users w) ->
  0 <= last_id (users w) ->
  status (fst (run (register jwt_sign bcrypt_hash req e p r) w)) = 201 ->
  jwt_verify (jwt_sign (last_id (users w) + 1) r)
    = Verified (Payload (Some (last_id (users w) + 1)) (Some r)) ->
  nonempty (bearer (authorization req')) = Some (jwt_sign (last_id (users w) + 1) r) ->
  let later :=
    snd (serve (app jwt_verify jwt_sign bcrypt_hash bcrypt_compare isEmail normalizeEmail)
               history (snd (run (register jwt_sign bcrypt_hash req e p r) w))) in
  fst (run (authenticateToken jwt_verify req') later)
    = inr (ReqUser (last_id (users w) + 1) e r)
  /\ forall valid handler,
       run (protected jwt_verify req' [r] valid handler) later
       = if valid then run (handler (ReqUser (last_id (users w) + 1) e r)) later
         else (validation_failed, later).
Proof.
  intros Hk Hpos H201 Hverify Hbearer later.
  destruct (registered_rows jwt_sign bcrypt_hash req e p r w
              (app jwt_verify jwt_sign bcrypt_hash bcrypt_compare isEmail normalizeEmail)
              history H201) as (_ & Hr & _ & l & Hl).
  fold later in Hl.
  assert (Hauth : fst (run (authenticateToken jwt_verify req') later)
                  = inr (ReqUser (last_id (users w) + 1) e r)).
  { rewrite (authenticateToken_verified jwt_verify req' later _ _ Hbearer Hverify).
    - simpl. rewrite Hl.
      rewrite (find_app_first _ _ l (User (last_id (users w) + 1) e (bcrypt_hash p) r));
        [reflexivity |].
      rewrite find_app_last by apply (keys_find_fresh user_id (users w) Hk).
      simpl. rewrite Z.eqb_refl. reflexivity.
    - simpl. apply Z.eqb_neq. lia.
    - unfold falsy_string, nonempty. cbn [role_claim]. unfold valid_role in Hr.
      destruct (String.eqb r "") eqn:Hempty; [| reflexivity].
      apply String.eqb_eq in Hempty. subst r. discriminate Hr. }
  split; [exact Hauth |]. intros valid handler.
  rewrite run_protected, Hauth. unfold roles_include. simpl.
  rewrite String.eqb_refl. reflexivity.
Qed.

(** Eve registers as an instructor on the demo state and then presents
    her token. *)
Lemma registration_grants_requested_role_witness :
  fst (run (authenticateToken Signup.verify (Demo.req (Some "Bearer eve") EpHealth))
           (snd (serve (app Signup.verify Signup.sign Demo.hash Demo.compare
                            Demo.is_email Demo.normalize) []
                   (snd (run (register Signup.sign Demo.hash Signup.eve
                                       "eve@x.com" "password5" "instructor")
                             Demo.campus)))))
  = inr (ReqUser 5 "eve@x.com" "instructor").
Proof.
  destruct (registration_grants_requested_role Signup.verify Signup.sign Demo.hash
              Demo.compare Demo.is_email Demo.normalize Signup.eve
              (Demo.req (Some "Bearer eve") EpHealth)
              "eve@x.com" "password5" "instructor" Demo.campus [])
    as (H & _).
  - apply campus_schema_ok.
  - simpl. lia.
  - reflexivity.
  - reflexivity.
  - reflexivity.
  - exact H.
Defined.

(** ** More on the rate limiter *)

(** The decision of the limiter and the entry it leaves for the client
    depend only on the clock and on the entry of that client. *)
Lemma limiter_local (req : request) (w w' : world) :
  clock w = clock w' ->
  rateLimiters w !! clientKey req = rateLimiters w' !! clientKey req ->
  fst (run (perClientRateLimit req) w) = fst (run (perClientRateLimit req) w')
  /\ rateLimiters (snd (run (perClientRateLimit req) w)) !! clientKey req
     = rateLimiters (snd (run (perClientRateLimit req) w')) !! clientKey req.
Proof.
  intros Hclock Hentry.
  destruct (rateLimiters w !! clientKey req) as [d |] eqn:Hk.
  - destruct (Z_gt_le_dec (clock w - resetTime d) RATE_LIMIT_WINDOW_MS) as [Hd | Hd].
    + rewrite (limiter_first req w) by (right; eauto).
      rewrite (limiter_first req w')
        by (right; exists d; split; [symmetry; exact Hentry | rewrite <- Hclock; exact Hd]).
      cbn [fst snd rateLimiters with_rateLimiters].
      rewrite !lookup_insert_eq, Hclock. split; reflexivity.
    + rewrite (limiter_within req w d Hk Hd).
      rewrite (limiter_within req w' d) by (first [symmetry; exact Hentry | rewrite <- Hclock; exact Hd]).
      cbn zeta. destruct (_ >? _); cbn [fst snd]; rewrite ?auditLog_keeps_limiters;
        cbn [rateLimiters with_rateLimiters]; rewrite !lookup_insert_eq; split; reflexivity.
  - rewrite (limiter_first req w) by (left; exact Hk).
    rewrite (limiter_first req w') by (left; symmetry; exact Hentry).
    cbn [fst snd rateLimiters with_rateLimiters].
    rewrite !lookup_insert_eq, Hclock. split; reflexivity.
Qed.

(** The limiter writes the entry of the requesting client only. *)
Lemma limiter_frame (req : request) (w : world) (k : string) :
  k <> clientKey req ->
  rateLimiters (snd (run (perClientRateLimit req) w)) !! k = rateLimiters w !! k.
Proof.
  intros Hne.
  destruct (rateLimiters w !! clientKey req) as [d |] eqn:Hk.
  - destruct (Z_gt_le_dec (clock w - resetTime d) RATE_LIMIT_WINDOW_MS) as [Hd | Hd].
    + rewrite (limiter_first req w) by (right; eauto).
      simpl. apply lookup_insert_ne. congruence.
    + rewrite (limiter_within req w d Hk Hd).
      cbn zeta. destruct (_ >? _); cbn [snd]; rewrite ?auditLog_keeps_limiters;
        simpl; apply lookup_insert_ne; congruence.
  - rewrite (limiter_first req w) by (left; exact Hk).
    simpl. apply lookup_insert_ne. congruence.
Qed.

(** X8. The periodic sweep is invisible to clients: whenever it ran
    (at a time [s] not after the request), a request is let through or
    rejected exactly as it would have been without the sweep, and the
    client's entry afterwards is the same; the sweep removes entries and
    never alters one. *)
Theorem sweep_is_invisible (req : request) (w : world) (s t : Z) :
  s <= t ->
  fst (at_time t (perClientRateLimit req) (sweep (with_clock s w)))
    = fst (at_time t (perClientRateLimit req) w)
  /\ rateLimiters (snd (at_time t (perClientRateLimit req) (sweep (with_clock s w))))
       !! clientKey req
     = rateLimiters (snd (at_time t (perClientRateLimit req) w)) !! clientKey req
  /\ forall k d, rateLimiters (sweep (with_clock s w)) !! k = Some d ->
       rateLimiters w !! k = Some d /\ s - resetTime d <= RATE_LIMIT_WINDOW_MS.
Proof.
  intros Hst. unfold at_time.
  assert (Hsweep : forall k d, rateLimiters (sweep (with_clock s w)) !! k = Some d ->
            rateLimiters w !! k = Some d /\ s - resetTime d <= RATE_LIMIT_WINDOW_MS).
  { intros k d. unfold sweep. simpl. rewrite map_lookup_filter_Some. simpl.
    intros [H1 H2]. split; [exact H1 | lia]. }
  split; [| split; [| exact Hsweep]].
  - destruct (rateLimiters w !! clientKey req) as [d |] eqn:Hk.
    + destruct (Z_gt_le_dec (s - resetTime d) RATE_LIMIT_WINDOW_MS) as [Hd | Hd].
      * rewrite (limiter_first req (with_clock t w))
          by (right; exists d; split; [exact Hk | simpl; lia]).
        rewrite (limiter_first req (with_clock t (sweep (with_clock s w)))); [reflexivity |].
        left. unfold sweep. simpl. apply map_lookup_filter_None. right.
        intros x Hx. rewrite Hk in Hx. injection Hx as <-. simpl. lia.
      * apply limiter_local; [reflexivity |].
        unfold sweep. simpl. rewrite Hk. apply map_lookup_filter_Some.
        split; [exact Hk | simpl; lia].
    + apply limiter_local; [reflexivity |].
      unfold sweep. simpl. rewrite Hk. apply map_lookup_filter_None. left. exact Hk.
  - destruct (rateLimiters w !! clientKey req) as [d |] eqn:Hk.
    + destruct (Z_gt_le_dec (s - resetTime d) RATE_LIMIT_WINDOW_MS) as [Hd | Hd].
      * rewrite (limiter_first req (with_clock t w))
          by (right; exists d; split; [exact Hk | simpl; lia]).
        rewrite (limiter_first req (with_clock t (sweep (with_clock s w)))).
        { simpl. rewrite !lookup_insert_eq. reflexivity. }
        left. unfold sweep. simpl. apply map_lookup_filter_None. right.
        intros x Hx. rewrite Hk in Hx. injection Hx as <-. simpl. lia.
      * apply limiter_local; [reflexivity |].
        unfold sweep. simpl. rewrite Hk. apply map_lookup_filter_Some.
        split; [exact Hk | simpl; lia].
    + apply limiter_local; [reflexivity |].
      unfold sweep. simpl. rewrite Hk. apply map_lookup_filter_None. left. exact Hk.
Qed.

(** The client of the demo state, whose window opened at 1000, after a
    sweep at 950000 and a request at 960000. *)
Lemma sweep_is_invisible_witness :
  fst (at_time 960000 (perClientRateLimit (Demo.req None EpHealth))
               (sweep (with_clock 950000 Demo.campus)))
  = fst (at_time 960000 (perClientRateLimit (Demo.req None EpHealth)) Demo.campus).
Proof.
  destruct (sweep_is_invisible (Demo.req None EpHealth) Demo.campus 950000 960000)
    as (H & _).
  - lia.
  - exact H.
Defined.

(** X9. Clients do not share a budget: a request changes the limiter
    entry of its own client key only, so whether a request of another
    client is let through does not depend on it. *)
Theorem limiter_clients_are_independent (req1 req2 : request) (w : world) (t : Z) :
  clientKey req1 <> clientKey req2 ->
  (forall k, k <> clientKey req1 ->
     rateLimiters (snd (run (perClientRateLimit req1) w)) !! k = rateLimiters w !! k)
  /\ fst (at_time t (perClientRateLimit req2) (snd (run (perClientRateLimit req1) w)))
     = fst (at_time t (perClientRateLimit req2) w).
Proof.
  intros Hne. split.
  - intros k Hk. apply limiter_frame, Hk.
  - unfold at_time. apply limiter_local; [reflexivity |].
    simpl. apply limiter_frame. congruence.
Qed.

(** The client at 10.0.0.1 has used up its window; the client at 10.0.0.2
    is served all the same. *)
Lemma limiter_clients_are_independent_witness :
  fst (at_time 2000
         (perClientRateLimit (Request None None (Some "10.0.0.2") None EpHealth))
         (snd (run (perClientRateLimit (Demo.req None EpHealth))
                   (with_rateLimiters {[ "10.0.0.1" := Limiter 100 1000 ]} Demo.campus))))
  = fst (at_time 2000
           (perClientRateLimit (Request None None (Some "10.0.0.2") None EpHealth))
           (with_rateLimiters {[ "10.0.0.1" := Limiter 100 1000 ]} Demo.campus)).
Proof.
  destruct (limiter_clients_are_independent (Demo.req None EpHealth)
              (Request None None (Some "10.0.0.2") None EpHealth)
              (with_rateLimiters {[ "10.0.0.1" := Limiter 100 1000 ]} Demo.campus) 2000)
    as (_ & H).
  - discriminate.
  - exact H.
Defined.

Lemma limiter_run_app (req : request) (l1 l2 : list Z) (w : world) :
  limiter_run req (l1 ++ l2) w =
  (fst (limiter_run req l1 w) ++ fst (limiter_run req l2 (snd (limiter_run req l1 w))),
   snd (limiter_run req l2 (snd (limiter_run req l1 w))))%list.
Proof.
  revert w. induction l1 as [| t l1 IH]; intros w; simpl.
  - destruct (limiter_run req l2 w); reflexivity.
  - destruct (at_time t (perClientRateLimit req) w) as [d w1]. rewrite IH.
    destruct (limiter_run req l1 w1) as [ds w2]. simpl.
    destruct (limiter_run req l2 w2); reflexivity.
Qed.

(** A request that opens a window and fewer than the ceiling of requests
    inside that window all pass. *)
Lemma limiter_window_passes (req : request) (t0 : Z) (times : list Z) (w : world) :
  (rateLimiters w !! clientKey req = None
   \/ exists d, rateLimiters w !! clientKey req = Some d
                /\ t0 - resetTime d > RATE_LIMIT_WINDOW_MS) ->
  Forall (fun t => t - t0 <= RATE_LIMIT_WINDOW_MS) times ->
  Z.of_nat (length times) < RATE_LIMIT_MAX_REQUESTS ->
  Forall (fun d => let_through d = true) (fst (limiter_run req (t0 :: times) w))
  /\ rateLimiters (snd (limiter_run req (t0 :: times) w)) !! clientKey req
     = Some (Limiter (1 + Z.of_nat (length times)) t0).
Proof.
  intros Hfirst Hin Hlen. cbn [limiter_run]. unfold at_time.
  rewrite (limiter_first req (with_clock t0 w)) by exact Hfirst.
  set (w1 := with_rateLimiters _ _).
  destruct (limiter_run_window req t0 times 1 w1) as [Hmap Hentry];
    [unfold w1; simpl; apply lookup_insert_eq | exact Hin |].
  destruct (limiter_run req times w1) as [ds w2]. cbn [fst snd] in *.
  split; [| exact Hentry].
  constructor; [reflexivity |].
  apply Forall_forall. intros d Hd.
  apply (in_map let_through) in Hd. rewrite Hmap in Hd.
  apply in_map_iff in Hd. destruct Hd as (j & Hj & Hin'). apply in_seq in Hin'.
  rewrite <- Hj. apply Z.leb_le. lia.
Qed.

(** X10. The window is fixed, not sliding: a client that fills one window
    just before it closes can fill the next one right after, so up to
    twice the ceiling of requests pass within an arbitrarily short span
    around the boundary. *)
Theorem fixed_window_admits_double_burst (req : request) (w : world) (t0 t1 : Z)
    (times1 times2 : list Z) :
  (rateLimiters w !! clientKey req = None
   \/ exists d, rateLimiters w !! clientKey req = Some d
                /\ t0 - resetTime d > RATE_LIMIT_WINDOW_MS) ->
  Forall (fun t => t - t0 <= RATE_LIMIT_WINDOW_MS) times1 ->
  Z.of_nat (length times1) < RATE_LIMIT_MAX_REQUESTS ->
  t1 - t0 > RATE_LIMIT_WINDOW_MS ->
  Forall (fun t => t - t1 <= RATE_LIMIT_WINDOW_MS) times2 ->
  Z.of_nat (length times2) < RATE_LIMIT_MAX_REQUESTS ->
  Forall (fun d => let_through d = true)
         (fst (limiter_run req ((t0 :: times1) ++ t1 :: times2) w)).
Proof.
  intros Hfirst H1 Hlen1 Hgap H2 Hlen2.
  rewrite limiter_run_app. cbn [fst].
  destruct (limiter_window_passes req t0 times1 w Hfirst H1 Hlen1) as [Hpass1 Hentry].
  apply Forall_app. split; [exact Hpass1 |].
  apply (limiter_window_passes req t1 times2); [| exact H2 | exact Hlen2].
  right. eexists. split; [exact Hentry |]. simpl. exact Hgap.
Qed.

(** One request at time 0, 99 at the last millisecond of its window and
    100 one millisecond later: all 200 pass. *)
Lemma fixed_window_admits_double_burst_witness :
  Forall (fun d => let_through d = true)
         (fst (limiter_run (Demo.req None EpHealth)
                 ((0 :: repeat 900000 99) ++ 900001 :: repeat 900001 99)
                 (initial_world 0))).
Proof.
  apply (fixed_window_admits_double_burst (Demo.req None EpHealth) (initial_world 0)
           0 900001 (repeat 900000 99) (repeat 900001 99)).
  - left. reflexivity.
  - apply Forall_forall. intros t Ht. apply repeat_spec in Ht. subst t.
    unfold RATE_LIMIT_WINDOW_MS. lia.
  - rewrite repeat_length. unfold RATE_LIMIT_MAX_REQUESTS. lia.
  - unfold RATE_LIMIT_WINDOW_MS. lia.
  - apply Forall_forall. intros t Ht. apply repeat_spec in Ht. subst t.
    unfold RATE_LIMIT_WINDOW_MS. lia.
  - rewrite repeat_length. unfold RATE_LIMIT_MAX_REQUESTS. lia.
Defined.

(** ** Lessons *)

Lemma run_lesson_writes req user id title_ content_ order_index_ w :
  match find (fun l => lesson_id l =? id) (rows (lessons w)) with
  | None =>
      run (put_lesson req user id title_ content_ order_index_) w
        = (json_error 404 "Lesson not found", w)
      /\ run (delete_lesson req user id) w = (json_error 404 "Lesson not found", w)
  | Some l =>
      match find (fun c => course_id c =? lesson_course_id l) (rows (courses w)) with
      | None =>
          run (put_lesson req user id title_ content_ order_index_) w
            = (json_error 500 "Failed to update lesson",
               with_console
                 (console w ++ ["Update lesson error: Cannot read properties of undefined (reading 'instructor_id')"])
                 w)
          /\ run (delete_lesson req user id) w
            = (json_error 500 "Failed to delete lesson",
               with_console
                 (console w ++ ["Delete lesson error: Cannot read properties of undefined (reading 'instructor_id')"])
                 w)
      | Some c =>
          if instructor_id c =? id_of user then
            run (delete_lesson req user id) w
            = (Response 204 Empty,
               snd (run (auditLog (Some (id_of user)) "LESSON_DELETED" "lesson" (Some id)
                                  (ip req))
                        (with_lessons
                           (Table (delete_where (fun l => lesson_id l =? id) (rows (lessons w)))
                                  (last_id (lessons w))) w)))
          else
            run (put_lesson req user id title_ content_ order_index_) w
              = (json_error 403 "Not authorized to modify this lesson", w)
            /\ run (delete_lesson req user id) w
              = (json_error 403 "Not authorized to delete this lesson", w)
      end
  end.
Proof.
  unfold put_lesson, delete_lesson, instructor_of, try_catch, ebind, eret, throw, await,
    await_run, lift, call, failed.
  simpl. destruct (find _ (rows (lessons w))) as [l |]; simpl; [| split; reflexivity].
  destruct (find _ (rows (courses w))) as [c |]; simpl; [| split; reflexivity].
  destruct (instructor_id c =? id_of user); simpl; [| split; reflexivity].
  destruct (audit_fault w); reflexivity.
Qed.

(** X11. Lessons are guarded through their course.  Updating or deleting
    a lesson that does not exist answers 404; when the lesson exists and
    its course belongs to another instructor the answer is 403; adding a
    lesson to a course that does not exist answers 404 and to another
    instructor's course 403.  None of these changes the state. *)
Theorem lesson_writes_are_owner_only (req : request) (user : req_user) (id : Z)
    (title_ content_ : option string) (order_index_ : option Z)
    (new_title new_content : string) (new_order : Z) (w : world) :
  (find (fun l => lesson_id l =? id) (rows (lessons w)) = None ->
   run (put_lesson req user id title_ content_ order_index_) w
     = (json_error 404 "Lesson not found", w)
   /\ run (delete_lesson req user id) w = (json_error 404 "Lesson not found", w))
  /\ (forall l c,
        find (fun l => lesson_id l =? id) (rows (lessons w)) = Some l ->
        find (fun c => course_id c =? lesson_course_id l) (rows (courses w)) = Some c ->
        instructor_id c <> id_of user ->
        run (put_lesson req user id title_ content_ order_index_) w
          = (json_error 403 "Not authorized to modify this lesson", w)
        /\ run (delete_lesson req user id) w
          = (json_error 403 "Not authorized to delete this lesson", w))
  /\ (find (fun c => course_id c =? id) (rows (courses w)) = None ->
      run (post_lesson req user id new_title new_content new_order) w
        = (json_error 404 "Course not found", w))
  /\ (forall c,
        find (fun c => course_id c =? id) (rows (courses w)) = Some c ->
        instructor_id c <> id_of user ->
        run (post_lesson req user id new_title new_content new_order) w
          = (json_error 403 "Not authorized to add lessons to this course", w)).
Proof.
  pose proof (run_lesson_writes req user id title_ content_ order_index_ w) as H.
  split; [| split; [| split]].
  - intros Hl. rewrite Hl in H. exact H.
  - intros l c Hl Hc Hne. apply Z.eqb_neq in Hne. rewrite Hl, Hc, Hne in H. exact H.
  - intros Hc. unfold post_lesson. simpl. rewrite Hc. reflexivity.
  - intros c Hc Hne. apply Z.eqb_neq in Hne.
    unfold post_lesson. simpl. rewrite Hc. simpl. rewrite Hne. reflexivity.
Qed.

(** Cat (id 3) on lesson 1 of ann's course. *)
Lemma lesson_writes_are_owner_only_witness :
  run (delete_lesson (Demo.req (Some "Bearer cat") (EpDeleteLesson 1))
                     (ReqUser 3 "cat@x.com" "instructor") 1) Demo.campus
  = (json_error 403 "Not authorized to delete this lesson", Demo.campus).
Proof.
  destruct (lesson_writes_are_owner_only
              (Demo.req (Some "Bearer cat") (EpDeleteLesson 1))
              (ReqUser 3 "cat@x.com" "instructor") 1 None None None "t" "c" 0 Demo.campus)
    as (_ & H & _).
  apply (H (Lesson 1 1 "Lesson" "text" 0 5 5) (Course 1 "Intro" "d" 1 4 4)).
  - reflexivity.
  - reflexivity.
  - discriminate.
Defined.

(** X12. A lesson whose course is not in the courses table can be neither
    updated nor deleted, by anyone: reading the instructor of the missing
    course throws, the handler's catch-all logs the error and answers
    500, and the lesson stays as it is. *)
Theorem orphan_lesson_is_stuck (req : request) (user : req_user) (id : Z)
    (title_ content_ : option string) (order_index_ : option Z) (w : world)
    (l : lesson_row) :
  find (fun l => lesson_id l =? id) (rows (lessons w)) = Some l ->
  find (fun c => course_id c =? lesson_course_id l) (rows (courses w)) = None ->
  fst (run (put_lesson req user id title_ content_ order_index_) w)
    = json_error 500 "Failed to update lesson"
  /\ fst (run (delete_lesson req user id) w) = json_error 500 "Failed to delete lesson"
  /\ lessons (snd (run (put_lesson req user id title_ content_ order_index_) w)) = lessons w
  /\ lessons (snd (run (delete_lesson req user id) w)) = lessons w.
Proof.
  intros Hl Hc.
  pose proof (run_lesson_writes req user id title_ content_ order_index_ w) as H.
  rewrite Hl, Hc in H. destruct H as [Hput Hdel]. rewrite Hput, Hdel.
  repeat split.
Qed.

(** Lesson 1 of the demo state with the courses table emptied. *)
Lemma orphan_lesson_is_stuck_witness :
  fst (run (delete_lesson (Demo.req (Some "Bearer ann") (EpDeleteLesson 1))
                          (ReqUser 1 "ann@x.com" "instructor") 1)
           (with_courses (Table [] 1) Demo.campus))
  = json_error 500 "Failed to delete lesson".
Proof.
  destruct (orphan_lesson_is_stuck (Demo.req (Some "Bearer ann") (EpDeleteLesson 1))
              (ReqUser 1 "ann@x.com" "instructor") 1 None None None
              (with_courses (Table [] 1) Demo.campus) (Lesson 1 1 "Lesson" "text" 0 5 5))
    as (_ & H & _).
  - reflexivity.
  - reflexivity.
  - exact H.
Defined.

Lemma auditLog_keeps_lessons uid act rtype rid addr w :
  lessons (snd (run (auditLog uid act rtype rid addr) w)) = lessons w.
Proof. apply (auditLog_keeps_tables uid act rtype rid addr w). Qed.

Lemma find_delete_where {R} (p : R -> bool) (l : list R) :
  find p (delete_where p l) = None.
Proof.
  apply find_none_iff. intros r Hr. apply in_delete_where in Hr. apply Hr.
Qed.

Lemma fold_lesson_course now updates l :
  lesson_course_id (fold_left (apply_lesson_set now) updates l) = lesson_course_id l.
Proof.
  revert l. induction updates as [| s u IH]; intros l; simpl; [reflexivity |].
  rewrite IH. destruct s; reflexivity.
Qed.

Lemma find_delete_where_other {R} (p q : R -> bool) (l : list R) :
  (forall r, p r = true -> q r = false) ->
  find p (delete_where q l) = find p l.
Proof.
  intros H. unfold delete_where. induction l as [| r l IH]; simpl; [reflexivity |].
  destruct (p r) eqn:Hp.
  - rewrite (H r Hp). simpl. rewrite Hp. reflexivity.
  - destruct (negb (q r)); simpl; [rewrite Hp |]; exact IH.
Qed.

Lemma find_update_where_any {R} (p q : R -> bool) (f : R -> R) (l : list R) :
  (forall r, p (f r) = p r) ->
  find p (update_where q f l) = option_map (fun r => if q r then f r else r) (find p l).
Proof.
  intros Hp. unfold update_where. induction l as [| r l IH]; simpl; [reflexivity |].
  destruct (q r) eqn:Hq; [rewrite Hp |]; destruct (p r); simpl; rewrite ?Hq;
    try reflexivity; exact IH.
Qed.

Lemma exec_orphaned {A} (o : op A) (cid id : Z) (w : world) :
  lesson_deleter o = false -> orphaned cid id w -> orphaned cid id (snd (exec o w)).
Proof.
  intros Ho [Hgone (l & Hl & Hcid)]. split; [apply exec_course_gone, Hgone |].
  destruct o; try discriminate Ho; simpl;
    repeat match goal with
           | |- context [if ?c then _ else _] => destruct c
           end;
    simpl; try (exists l; split; assumption).
  - exists l. split; [apply find_app_first, Hl | exact Hcid].
  - rewrite find_update_where_any, Hl by (intros r; rewrite fold_lesson_id; reflexivity).
    simpl. eexists. split; [reflexivity |].
    destruct (lesson_id l =? _); [rewrite fold_lesson_course |]; exact Hcid.
Qed.

Lemma orphaned_gone cid id w :
  orphaned cid id w -> find (fun c => course_id c =? cid) (rows (courses w)) = None.
Proof.
  intros [[_ Hnot] _]. apply find_none_iff. intros c Hc. apply Z.eqb_neq. intros Heq.
  apply Hnot. rewrite <- Heq. apply in_map. exact Hc.
Qed.

Lemma orphaned_console cid id line w :
  orphaned cid id w -> orphaned cid id (with_console line w).
Proof. intros H. exact H. Qed.

Lemma delete_lesson_keeps_orphan req user cid id id' :
  keeps (orphaned cid id) (delete_lesson req user id').
Proof.
  intros w Horphan. pose proof Horphan as [Hgone (l & Hl & Hcid)].
  pose proof (run_lesson_writes req user id' None None None w) as H.
  destruct (find (fun l => lesson_id l =? id') (rows (lessons w))) as [l' |] eqn:Hl'.
  2:{ destruct H as [_ ->]. exact Horphan. }
  destruct (find (fun c => course_id c =? lesson_course_id l') (rows (courses w)))
    as [c |] eqn:Hc.
  2:{ destruct H as [_ ->]. exact Horphan. }
  destruct (instructor_id c =? id_of user).
  2:{ destruct H as [_ ->]. exact Horphan. }
  rewrite H. cbn [snd].
  assert (Hne : id' <> id).
  { intros ->. rewrite Hl in Hl'. injection Hl' as <-.
    rewrite Hcid, (orphaned_gone cid id w Horphan) in Hc. discriminate. }
  split.
  - unfold course_gone. rewrite auditLog_keeps_courses. exact Hgone.
  - exists l. rewrite auditLog_keeps_lessons. cbn [lessons with_lessons rows]. split; [| exact Hcid].
    rewrite find_delete_where_other; [exact Hl |].
    intros r Hr. apply Z.eqb_eq in Hr. apply Z.eqb_neq. lia.
Qed.

Lemma orphan_kept_by_app jwt_verify jwt_sign bcrypt_hash bcrypt_compare isEmail
    normalizeEmail cid id req :
  keeps (orphaned cid id)
    (app jwt_verify jwt_sign bcrypt_hash bcrypt_compare isEmail normalizeEmail req).
Proof.
  assert (Hop : forall A (o : op A), lesson_deleter o = false ->
                  keeps (orphaned cid id) (call o)).
  { intros A o Ho. apply keeps_call. intros w. apply exec_orphaned, Ho. }
  assert (Hawait : forall A R (o : op A) (k : A -> prog R), lesson_deleter o = false ->
                     (forall a, keeps (orphaned cid id) (k a)) ->
                     keeps (orphaned cid id) (Await o k)).
  { intros A R o k Ho Hk. change (Await o k) with (bind (call o) k).
    apply keeps_bind; [apply Hop, Ho | exact Hk]. }
  repeat lazymatch goal with
    | |- forall _, _ => intro
    | |- keeps _ (Ret _) => apply keeps_ret
    | |- keeps _ (eret _) => apply keeps_ret
    | |- keeps _ (throw _) => apply keeps_ret
    | |- keeps _ (delete_lesson _ _ _) => apply delete_lesson_keeps_orphan
    | |- keeps _ (failed _ _ _) => unfold failed
    | |- keeps _ (auditLog _ _ _ _ _) => unfold auditLog
    | |- keeps _ (try_catch _ _) => unfold try_catch
    | |- keeps _ (lift _) => unfold lift
    | |- keeps _ (await _) => unfold await
    | |- keeps _ (await_run _) => unfold await_run
    | |- keeps _ (ebind _ _) => unfold ebind
    | |- keeps _ (call _) => apply Hop; reflexivity
    | |- keeps _ (bind _ _) => apply keeps_bind
    | |- keeps _ (Await _ _) => apply Hawait; [reflexivity |]
    | |- keeps _ (match ?x with _ => _ end) => destruct x
    | |- keeps _ (let _ := _ in _) => cbv zeta
    | |- keeps _ (instructor_of _) => unfold instructor_of
    | |- keeps _ (completion_stamp _) => unfold completion_stamp
    | |- keeps _ (perClientRateLimit _) => unfold perClientRateLimit
    | |- keeps _ (authenticateToken _ _) => unfold authenticateToken
    | |- keeps _ (protected _ _ _ _ _) => unfold protected
    | |- keeps _ (route _ _ _ _ _ _ _) => unfold route
    | |- keeps _ (app _ _ _ _ _ _ _) => unfold app
    | |- keeps _ (register _ _ _ _ _ _) => unfold register
    | |- keeps _ (login _ _ _ _ _) => unfold login
    | |- keeps _ (post_course _ _ _ _) => unfold post_course
    | |- keeps _ (put_course _ _ _ _ _) => unfold put_course
    | |- keeps _ (delete_course _ _ _) => unfold delete_course
    | |- keeps _ (post_lesson _ _ _ _ _ _) => unfold post_lesson
    | |- keeps _ (put_lesson _ _ _ _ _ _) => unfold put_lesson
    | |- keeps _ (post_enrollment _ _ _) => unfold post_enrollment
    | |- keeps _ (delete_enrollment _ _ _) => unfold delete_enrollment
    | |- keeps _ (post_progress _ _ _ _) => unfold post_progress
    end.
Qed.

Lemma orphan_is_stuck req user cid id title_ content_ order_index_ w :
  orphaned cid id w ->
  fst (run (put_lesson req user id title_ content_ order_index_) w)
    = json_error 500 "Failed to update lesson"
  /\ fst (run (delete_lesson req user id) w) = json_error 500 "Failed to delete lesson".
Proof.
  intros Horphan. pose proof Horphan as [_ (l & Hl & Hcid)].
  pose proof (run_lesson_writes req user id title_ content_ order_index_ w) as H.
  rewrite Hl, Hcid, (orphaned_gone cid id w Horphan) in H.
  destruct H as [-> ->]. split; reflexivity.
Qed.

(** X13. Deleting a course removes the course row only: the server never
    turns foreign-key enforcement on, so the lessons, enrollments and
    progress rows of the course stay.  Its lessons are then out of reach
    of the API: an update or a deletion of one of them answers 500, right
    after the deletion and, course ids being distinct and bounded by the
    counter, after any sequence of further requests, during which the
    lesson stays in the table. *)
Theorem course_deletion_orphans_lessons
    (jwt_verify : string -> verify_result) (jwt_sign : Z -> string -> string)
    (bcrypt_hash : string -> string) (bcrypt_compare : string -> string -> bool)
    (isEmail : string -> bool) (normalizeEmail : string -> string)
    (req req' : request) (user user' : req_user)
    (id : Z) (title_ content_ : option string) (order_index_ : option Z) (w : world)
    (l : lesson_row) (history : list (Z * request)) :
  fst (run (delete_course req user (lesson_course_id l)) w) = Response 204 Empty ->
  find (fun l => lesson_id l =? id) (rows (lessons w)) = Some l ->
  lessons (snd (run (delete_course req user (lesson_course_id l)) w)) = lessons w
  /\ enrollments (snd (run (delete_course req user (lesson_course_id l)) w)) = enrollments w
  /\ progress (snd (run (delete_course req user (lesson_course_id l)) w)) = progress w
  /\ fst (run (put_lesson req' user' id title_ content_ order_index_)
              (snd (run (delete_course req user (lesson_course_id l)) w)))
     = json_error 500 "Failed to update lesson"
  /\ fst (run (delete_lesson req' user' id)
              (snd (run (delete_course req user (lesson_course_id l)) w)))
     = json_error 500 "Failed to delete lesson"
  /\ (keys_ok course_id (courses w) ->
      (exists l',
         find (fun l => lesson_id l =? id)
              (rows (lessons
                 (snd (serve (app jwt_verify jwt_sign bcrypt_hash bcrypt_compare isEmail
                                  normalizeEmail) history
                             (snd (run (delete_course req user (lesson_course_id l)) w))))))
         = Some l'
         /\ lesson_course_id l' = lesson_course_id l)
      /\ fst (run (put_lesson req' user' id title_ content_ order_index_)
                  (snd (serve (app jwt_verify jwt_sign bcrypt_hash bcrypt_compare isEmail
                                   normalizeEmail) history
                              (snd (run (delete_course req user (lesson_course_id l)) w)))))
         = json_error 500 "Failed to update lesson"
      /\ fst (run (delete_lesson req' user' id)
                  (snd (serve (app jwt_verify jwt_sign bcrypt_hash bcrypt_compare isEmail
                                   normalizeEmail) history
                              (snd (run (delete_course req user (lesson_course_id l)) w)))))
         = json_error 500 "Failed to delete lesson").
Proof.
  intros Hdel Hl. rewrite run_delete_course in Hdel |- *.
  destruct (find _ (rows (courses w))) as [c |] eqn:Hfind; [| discriminate Hdel].
  destruct (instructor_id c =? id_of user); [| discriminate Hdel].
  cbn [snd].
  match goal with
  | |- context [run (auditLog ?a ?b ?c ?d ?e) ?w0] =>
      set (w1 := snd (run (auditLog a b c d e) w0));
      destruct (auditLog_keeps_tables a b c d e w0) as (_ & Hc1 & Hl1 & He1 & Hp1)
  end.
  fold w1 in Hc1, Hl1, He1, Hp1. cbn in Hc1, Hl1, He1, Hp1.
  split; [exact Hl1 |]. split; [exact He1 |]. split; [exact Hp1 |].
  pose proof (run_lesson_writes req' user' id title_ content_ order_index_ w1) as H.
  rewrite Hl1, Hl, Hc1 in H. cbn [rows] in H.
  rewrite find_delete_where in H. destruct H as [Hput Hdel']. rewrite Hput, Hdel'.
  split; [reflexivity |]. split; [reflexivity |].
  intros [_ Hle].
  assert (Horphan : orphaned (lesson_course_id l) id w1).
  { split.
    - apply find_some in Hfind. destruct Hfind as [Hin Hid]. apply Z.eqb_eq in Hid.
      unfold course_gone. rewrite Hc1. simpl. split.
      + rewrite Forall_forall in Hle. specialize (Hle c Hin). lia.
      + intros Hx. apply in_map_iff in Hx. destruct Hx as (x & Hx & Hx').
        apply in_delete_where in Hx'. destruct Hx' as [_ Hx'].
        apply Z.eqb_neq in Hx'. contradiction.
    - exists l. rewrite Hl1. split; [exact Hl | reflexivity]. }
  assert (Hlater : orphaned (lesson_course_id l) id
            (snd (serve (app jwt_verify jwt_sign bcrypt_hash bcrypt_compare isEmail
                             normalizeEmail) history w1))).
  { apply serve_keeps; [| | exact Horphan].
    - intros r. apply orphan_kept_by_app.
    - intros t w2 H2. exact H2. }
  split; [exact (proj2 Hlater) |].
  apply orphan_is_stuck with (cid := lesson_course_id l). exact Hlater.
Qed.

(** Ann deletes course 1 of the demo state, cat creates a course, which
    gets id 2, and ann then tries to delete lesson 1. *)
Lemma course_deletion_orphans_lessons_witness :
  fst (run (delete_lesson (Demo.req (Some "Bearer ann") (EpDeleteLesson 1))
                          (ReqUser 1 "ann@x.com" "instructor") 1)
           (snd (serve Demo.server
                   [(8000, Demo.req (Some "Bearer cat") (EpPostCourse "Logic" "d"))]
                   (snd (run (delete_course (Demo.req (Some "Bearer ann") (EpDeleteCourse 1))
                                            (ReqUser 1 "ann@x.com" "instructor") 1)
                             Demo.campus)))))
  = json_error 500 "Failed to delete lesson".
Proof.
  destruct (course_deletion_orphans_lessons Demo.verify Demo.sign Demo.hash Demo.compare
              Demo.is_email Demo.normalize
              (Demo.req (Some "Bearer ann") (EpDeleteCourse 1))
              (Demo.req (Some "Bearer ann") (EpDeleteLesson 1))
              (ReqUser 1 "ann@x.com" "instructor") (ReqUser 1 "ann@x.com" "instructor")
              1 None None None Demo.campus (Lesson 1 1 "Lesson" "text" 0 5 5)
              [(8000, Demo.req (Some "Bearer cat") (EpPostCourse "Logic" "d"))])
    as (_ & _ & _ & _ & _ & H).
  - reflexivity.
  - reflexivity.
  - destruct H as (_ & _ & H).
    + split; simpl; repeat constructor; simpl; [tauto | lia].
    + exact H.
Defined.

(** ** Progress *)

Lemma run_post_progress_refused req user lesson_id_ completed_ w :
  match find (fun l => lesson_id l =? lesson_id_) (rows (lessons w)) with
  | None =>
      run (post_progress req user lesson_id_ completed_) w
      = (json_error 404 "Lesson not found", w)
  | Some l =>
      find (is_pair (id_of user) (lesson_course_id l)) (rows (enrollments w)) = None ->
      run (post_progress req user lesson_id_ completed_) w
      = (json_error 403 "Must be enrolled in course to track progress", w)
  end.
Proof.
  unfold post_progress. simpl.
  destruct (find _ (rows (lessons w))) as [l |]; simpl; [| reflexivity].
  intros He. rewrite He. reflexivity.
Qed.

Lemma nodup_map_inj {R K} (proj : R -> K) (l : list R) (a b : R) :
  NoDup (map proj l) -> In a l -> In b l -> proj a = proj b -> a = b.
Proof.
  induction l as [| r l IH]; simpl; [tauto |].
  intros Hnd Ha Hb Hk. inversion Hnd as [| ? ? Hnotin Hnd']; subst.
  destruct Ha as [-> | Ha], Hb as [-> | Hb]; auto.
  - exfalso. apply Hnotin. rewrite Hk. apply in_map. exact Hb.
  - exfalso. apply Hnotin. rewrite <- Hk. apply in_map. exact Ha.
Qed.

Lemma is_pair_spec s c e : is_pair s c e = true <-> enrollment_pair e = (s, c).
Proof.
  unfold is_pair, enrollment_pair. rewrite andb_true_iff, !Z.eqb_eq.
  split; [intros [-> ->]; reflexivity | intros [= -> ->]; split; reflexivity].
Qed.

(** X14. Progress can be recorded only on an existing lesson of a course
    the student is enrolled in: a missing lesson answers 404, a lesson of
    a course without an enrollment of the student answers 403, and
    neither changes the state.  Unenrolling takes effect at once: after a
    student has deleted their enrollment in the lesson's course, their
    next progress request on the lesson answers 403. *)
Theorem progress_requires_enrollment (req req' : request) (user : req_user)
    (lesson_id_ : Z) (completed_ : jsval) (w : world) :
  (find (fun l => lesson_id l =? lesson_id_) (rows (lessons w)) = None ->
   run (post_progress req user lesson_id_ completed_) w
     = (json_error 404 "Lesson not found", w))
  /\ (forall l,
        find (fun l => lesson_id l =? lesson_id_) (rows (lessons w)) = Some l ->
        find (is_pair (id_of user) (lesson_course_id l)) (rows (enrollments w)) = None ->
        run (post_progress req user lesson_id_ completed_) w
          = (json_error 403 "Must be enrolled in course to track progress", w))
  /\ (forall l e,
        find (fun l => lesson_id l =? lesson_id_) (rows (lessons w)) = Some l ->
        find (is_pair (id_of user) (lesson_course_id l)) (rows (enrollments w)) = Some e ->
        NoDup (map enrollment_pair (rows (enrollments w))) ->
        fst (run (delete_enrollment req' user (enrollment_id e)) w) = Response 204 Empty
        /\ fst (run (post_progress req user lesson_id_ completed_)
                    (snd (run (delete_enrollment req' user (enrollment_id e)) w)))
           = json_error 403 "Must be enrolled in course to track progress").
Proof.
  pose proof (run_post_progress_refused req user lesson_id_ completed_ w) as H.
  split; [| split].
  - intros Hl. rewrite Hl in H. exact H.
  - intros l Hl He. rewrite Hl in H. exact (H He).
  - intros l e Hl He Hnd. clear H.
    apply find_some in He. destruct He as [Hin Hpair].
    assert (Howned : owned_by (enrollment_id e) (id_of user) e = true).
    { unfold owned_by. unfold is_pair in Hpair. apply andb_true_iff in Hpair.
      destruct Hpair as [Hs _]. rewrite Z.eqb_refl, Hs. reflexivity. }
    rewrite run_delete_enrollment.
    destruct (find (owned_by (enrollment_id e) (id_of user)) (rows (enrollments w)))
      as [e' |] eqn:Hfind.
    2:{ rewrite find_none_iff in Hfind. rewrite (Hfind e Hin) in Howned. discriminate. }
    cbn [fst snd]. split; [reflexivity |].
    match goal with
    | |- context [run (auditLog ?a ?b ?c ?d ?x) ?w0] =>
        set (w1 := snd (run (auditLog a b c d x) w0));
        destruct (auditLog_keeps_tables a b c d x w0) as (_ & _ & Hl1 & He1 & _)
    end.
    fold w1 in Hl1, He1. cbn in Hl1, He1.
    pose proof (run_post_progress_refused req user lesson_id_ completed_ w1) as H.
    rewrite Hl1, Hl in H. rewrite H; [reflexivity |].
    rewrite He1. cbn [rows]. apply find_none_iff. intros r Hr.
    apply in_delete_where in Hr. destruct Hr as [Hr Hid].
    destruct (is_pair (id_of user) (lesson_course_id l) r) eqn:Hrp; [| reflexivity].
    exfalso. apply is_pair_spec in Hrp. apply is_pair_spec in Hpair.
    assert (r = e) by (apply (nodup_map_inj enrollment_pair _ r e Hnd Hr Hin); congruence).
    subst r. rewrite Z.eqb_refl in Hid. discriminate.
Qed.

(** Bob, enrolled in course 1 on the demo state, unenrolls and then
    reports lesson 1 as completed. *)
Lemma progress_requires_enrollment_witness :
  fst (run (post_progress (Demo.req (Some "Bearer bob") (EpPostProgress 1 (JBool true)))
                          (ReqUser 2 "bob@x.com" "student") 1 (JBool true))
           (snd (run (delete_enrollment (Demo.req (Some "Bearer bob") (EpDeleteEnrollment 1))
                                        (ReqUser 2 "bob@x.com" "student") 1) Demo.campus)))
  = json_error 403 "Must be enrolled in course to track progress".
Proof.
  destruct (progress_requires_enrollment
              (Demo.req (Some "Bearer bob") (EpPostProgress 1 (JBool true)))
              (Demo.req (Some "Bearer bob") (EpDeleteEnrollment 1))
              (ReqUser 2 "bob@x.com" "student") 1 (JBool true) Demo.campus)
    as (_ & _ & H).
  destruct (H (Lesson 1 1 "Lesson" "text" 0 5 5) (Enrollment 1 2 1 6)) as (_ & H2).
  - reflexivity.
  - reflexivity.
  - simpl. repeat constructor. simpl. tauto.
  - exact H2.
Defined.

Lemma in_update_where_other {R} (p : R -> bool) (f : R -> R) (l : list R) (r : R) :
  (forall x, p (f x) = p x) -> p r = false ->
  In r (update_where p f l) <-> In r l.
Proof.
  intros Hf Hr. unfold update_where. rewrite in_map_iff. split.
  - intros (x & Hx & Hin). destruct (p x) eqn:Hpx.
    + subst r. rewrite Hf, Hpx in Hr. discriminate.
    + subst r. exact Hin.
  - intros Hin. exists r. rewrite Hr. auto.
Qed.

Lemma auditLog_keeps_progress uid act rtype rid addr w :
  progress (snd (run (auditLog uid act rtype rid addr) w)) = progress w.
Proof. apply (auditLog_keeps_tables uid act rtype rid addr w). Qed.

(** X15. A progress request touches the rows of its own (student, lesson)
    pair only: whatever its outcome, every other row of the progress
    table, of this student or of any other, is there afterwards exactly
    as before, and no such row appears. *)
Theorem progress_write_is_scoped (req : request) (user : req_user) (lesson_id_ : Z)
    (completed_ : jsval) (w : world) (p : progress_row) :
  is_progress (id_of user) lesson_id_ p = false ->
  In p (rows (progress (snd (run (post_progress req user lesson_id_ completed_) w))))
  <-> In p (rows (progress w)).
Proof.
  intros Hp.
  pose proof (run_post_progress_refused req user lesson_id_ completed_ w) as Href.
  destruct (find (fun l => lesson_id l =? lesson_id_) (rows (lessons w))) as [l |] eqn:Hl;
    [| rewrite Href; reflexivity].
  destruct (find (is_pair (id_of user) (lesson_course_id l)) (rows (enrollments w)))
    as [e |] eqn:He; [| rewrite (Href eq_refl); reflexivity].
  rewrite (run_post_progress req user lesson_id_ completed_ w l e Hl He).
  destruct (find (is_progress (id_of user) lesson_id_) (rows (progress w))) as [q |];
    cbn zeta; cbn [snd]; rewrite auditLog_keeps_progress; cbn [progress with_progress rows].
  - apply in_update_where_other; [| exact Hp]. intros x. apply is_progress_stamped.
  - rewrite in_app_iff. split; [| tauto]. intros [H | [H | []]]; [exact H |].
    subst p. unfold is_progress, stamped in Hp. simpl in Hp.
    rewrite !Z.eqb_refl in Hp. discriminate.
Qed.

(** Dan's row stays when bob reports lesson 1. *)
Lemma progress_write_is_scoped_witness :
  In (Progress 1 4 1 1 (Some 5500))
     (rows (progress
        (snd (run (post_progress (Demo.req (Some "Bearer bob") (EpPostProgress 1 (JBool true)))
                                 (ReqUser 2 "bob@x.com" "student") 1 (JBool true))
                  (with_progress (Table [Progress 1 4 1 1 (Some 5500)] 1) Demo.campus))))).
Proof.
  apply (progress_write_is_scoped
           (Demo.req (Some "Bearer bob") (EpPostProgress 1 (JBool true)))
           (ReqUser 2 "bob@x.com" "student") 1 (JBool true)
           (with_progress (Table [Progress 1 4 1 1 (Some 5500)] 1) Demo.campus)
           (Progress 1 4 1 1 (Some 5500))).
  - reflexivity.
  - simpl. left. reflexivity.
Defined.

(** ** Registrations in flight together *)

(** X16. Two registrations of the same unused email that are in flight
    together, each having run its lookup before either runs its INSERT:
    the first is answered 201 and the second, whose INSERT violates the
    uniqueness of emails, is answered 500 "Registration failed" and not
    409; one user is added.  Served one after the other, the second is
    answered 409. *)
Theorem concurrent_registration_is_500 (jwt_sign : Z -> string -> string)
    (bcrypt_hash : string -> string) (req1 req2 : request) (e p1 p2 r1 r2 : string)
    (w : world) :
  find (fun u => String.eqb (email u) e) (rows (users w)) = None ->
  valid_role r1 = true ->
  let first := register jwt_sign bcrypt_hash req1 e p1 r1 in
  let second := register jwt_sign bcrypt_hash req2 e p2 r2 in
  let id := last_id (users w) + 1 in
  fst (race [true; false] first second w)
    = (Response 201 (JsonAuth (jwt_sign id r1) id e r1),
       json_error 500 "Registration failed")
  /\ rows (users (snd (race [true; false] first second w)))
     = (rows (users w) ++ [User id e (bcrypt_hash p1) r1])%list
  /\ In "Registration error: SQLITE_CONSTRAINT: UNIQUE constraint failed: users.email"
        (console (snd (race [true; false] first second w)))
  /\ fst (race [] first second w)
     = (Response 201 (JsonAuth (jwt_sign id r1) id e r1),
        json_error 409 "User already exists").
Proof.
  intros Hfind Hrole first second id. subst first second id.
  assert (Hex : existsb (fun u => String.eqb (email u) e) (rows (users w)) = false)
    by (rewrite find_existsb, Hfind; reflexivity).
  assert (Hex' : forall h r,
            existsb (fun u => String.eqb (email u) e)
                    (rows (users w) ++ [User (last_id (users w) + 1) e h r]) = true).
  { intros h r. rewrite existsb_app. simpl. rewrite String.eqb_refl.
    rewrite orb_true_r. reflexivity. }
  assert (Hfind' : forall h r,
            find (fun u => String.eqb (email u) e)
                 (rows (users w) ++ [User (last_id (users w) + 1) e h r])
            = Some (User (last_id (users w) + 1) e h r)).
  { intros h r. rewrite find_app_last by exact Hfind. simpl.
    rewrite String.eqb_refl. reflexivity. }
  unfold race, interleave, step, register, try_catch, ebind, eret, await, await_run,
    lift, call, failed, auditLog.
  simpl. rewrite Hfind. simpl. rewrite Hex, Hrole. simpl.
  destruct (audit_fault w); simpl; rewrite Hex', Hfind'; simpl;
    repeat split; apply in_or_app; right; left; reflexivity.
Qed.

(** Eve's registration sent twice to the demo state. *)
Lemma concurrent_registration_is_500_witness :
  fst (race [true; false]
         (register Demo.sign Demo.hash Signup.eve "eve@x.com" "password5" "instructor")
         (register Demo.sign Demo.hash Signup.eve "eve@x.com" "password5" "instructor")
         Demo.campus)
  = (Response 201 (JsonAuth "token-for-instructor" 5 "eve@x.com" "instructor"),
     json_error 500 "Registration failed").
Proof.
  destruct (concurrent_registration_is_500 Demo.sign Demo.hash Signup.eve Signup.eve
              "eve@x.com" "password5" "password5" "instructor" "instructor" Demo.campus)
    as (H & _).
  - reflexivity.
  - reflexivity.
  - exact H.
Defined.

(** ** Reading a lesson *)

(** X17. Reading a lesson by id asks for authentication only: any
    authenticated user, whatever their role and whether or not they are
    enrolled in the lesson's course, is answered 200 with the lesson, and
    nothing is written. *)
Theorem lesson_is_readable_by_any_user (jwt_verify : string -> verify_result)
    (req : request) (id : Z) (w : world) (user : req_user) (l : lesson_row) :
  fst (run (authenticateToken jwt_verify req) w) = inr user ->
  1 <= id ->
  find (fun l => lesson_id l =? id) (rows (lessons w)) = Some l ->
  run (get_lesson_route jwt_verify req id) w = (Response 200 (JsonLesson (Some l)), w)
  /\ forall es,
       run (get_lesson_route jwt_verify req id) (with_enrollments es w)
       = (Response 200 (JsonLesson (Some l)), with_enrollments es w).
Proof.
  intros Hauth Hid Hl.
  assert (Hread : forall w', users w' = users w -> lessons w' = lessons w ->
            run (get_lesson_route jwt_verify req id) w'
            = (Response 200 (JsonLesson (Some l)), w')).
  { intros w' Hu Hls. unfold get_lesson_route, authenticated. rewrite run_bind.
    pose proof (authenticateToken_keeps_world jwt_verify req w') as Hw.
    assert (Hsame : fst (run (authenticateToken jwt_verify req) w') = inr user).
    { rewrite <- Hauth. unfold authenticateToken.
      destruct (nonempty _); [| reflexivity].
      destruct (jwt_verify _); try reflexivity.
      destruct (_ || _); [reflexivity |]. simpl. rewrite Hu.
      destruct (find _ (rows (users w))); reflexivity. }
    destruct (run (authenticateToken jwt_verify req) w') as [a w1].
    simpl in Hw, Hsame. subst w1 a.
    unfold validate, is_int_min. rewrite (proj2 (Z.leb_le 1 id) Hid).
    unfold get_lesson. simpl. rewrite Hls, Hl. reflexivity. }
  split; [apply Hread; reflexivity |].
  intros es. apply Hread; reflexivity.
Qed.

(** Dan, a student who is not enrolled in course 1, reads its lesson. *)
Lemma lesson_is_readable_by_any_user_witness :
  run (get_lesson_route Demo.verify (Demo.req (Some "Bearer dan") (EpOther GET)) 1)
      Demo.campus
  = (Response 200 (JsonLesson (Some (Lesson 1 1 "Lesson" "text" 0 5 5))), Demo.campus).
Proof.
  destruct (lesson_is_readable_by_any_user Demo.verify
              (Demo.req (Some "Bearer dan") (EpOther GET)) 1 Demo.campus
              (ReqUser 4 "dan@x.com" "student") (Lesson 1 1 "Lesson" "text" 0 5 5))
    as (H & _).
  - reflexivity.
  - lia.
  - reflexivity.
  - exact H.
Defined.

(** ** Pagination *)

(** X18. Validated pagination parameters give a LIMIT between 1 and 100
    (20 when absent) and an OFFSET between 0 and 999900 that is 0 for the
    first page or when no page is given; consecutive pages are
    adjacent: the offset of page [p + 1] is the offset of page [p] plus
    the limit. *)
Theorem pagination_is_bounded (page limit : option Z) :
  paginationValidator page limit = true ->
  1 <= fst (applyPagination page limit) <= 100
  /\ 0 <= snd (applyPagination page limit) <= 999900
  /\ (limit = None -> fst (applyPagination page limit) = 20)
  /\ (page = None \/ page = Some 1 -> snd (applyPagination page limit) = 0)
  /\ forall p, page = Some p ->
       snd (applyPagination (Some (p + 1)) limit)
       = snd (applyPagination page limit) + fst (applyPagination page limit).
Proof.
  unfold paginationValidator, applyPagination, or_default, optional.
  intros Hv. apply andb_true_iff in Hv. destruct Hv as [Hp Hl].
  assert (Hlim : 1 <= match limit with
                      | Some n => if n =? 0 then 20 else n
                      | None => 20
                      end <= 100).
  { destruct limit as [n |]; [| lia]. apply andb_true_iff in Hl.
    destruct Hl as [H1 H2]. apply Z.leb_le in H1, H2.
    destruct (Z.eqb_spec n 0); lia. }
  assert (Hpage : 1 <= match page with
                       | Some n => if n =? 0 then 1 else n
                       | None => 1
                       end <= 10000).
  { destruct page as [n |]; [| lia]. apply andb_true_iff in Hp.
    destruct Hp as [H1 H2]. apply Z.leb_le in H1, H2.
    destruct (Z.eqb_spec n 0); lia. }
  cbn [fst snd]. split; [exact Hlim |]. split; [nia |]. split; [| split].
  - intros ->. reflexivity.
  - intros [-> | ->]; simpl; lia.
  - intros p ->. apply andb_true_iff in Hp. destruct Hp as [H1 _]. apply Z.leb_le in H1.
    destruct (Z.eqb_spec p 0); [lia |]. destruct (Z.eqb_spec (p + 1) 0); lia.
Qed.

(** Page 3 of 25 rows each. *)
Lemma pagination_is_bounded_witness :
  snd (applyPagination (Some (3 + 1)) (Some 25))
  = snd (applyPagination (Some 3) (Some 25)) + fst (applyPagination (Some 3) (Some 25)).
Proof.
  destruct (pagination_is_bounded (Some 3) (Some 25)) as (_ & _ & _ & _ & H).
  - reflexivity.
  - apply (H 3). reflexivity.
Defined.

(** ** Enrolling and then recording progress *)

Lemma run_post_enrollment_new req user course_id_ w c :
  find (fun c => course_id c =? course_id_) (rows (courses w)) = Some c ->
  find (is_pair (id_of user) course_id_) (rows (enrollments w)) = None ->
  let fresh := Enrollment (last_id (enrollments w) + 1) (id_of user) course_id_
                          (current_timestamp w) in
  status (fst (run (post_enrollment req user course_id_) w)) = 201
  /\ snd (run (post_enrollment req user course_id_) w)
     = snd (run (auditLog (Some (id_of user)) "ENROLLMENT_CREATED" "enrollment"
                          (Some (last_id (enrollments w) + 1)) (ip req))
                (with_enrollments
                   (Table (rows (enrollments w) ++ [fresh]) (last_id (enrollments w) + 1)) w)).
Proof.
  intros Hc He. unfold post_enrollment. simpl. rewrite Hc. simpl. rewrite He. simpl.
  rewrite find_existsb, He. simpl.
  destruct (audit_fault w); simpl; split; reflexivity.
Qed.

(** X20. Enrollment is what opens progress tracking: a student who is not
    enrolled in the course of an existing lesson is refused with 403;
    once their enrollment request has been answered with 201, their
    progress request on the lesson is answered 200 with a row of theirs
    for that lesson carrying the reported completion. *)
Theorem enrollment_enables_progress (req req' : request) (user : req_user)
    (lesson_id_ : Z) (completed_ : jsval) (w : world) (l : lesson_row) (c : course_row) :
  find (fun l => lesson_id l =? lesson_id_) (rows (lessons w)) = Some l ->
  find (fun c => course_id c =? lesson_course_id l) (rows (courses w)) = Some c ->
  find (is_pair (id_of user) (lesson_course_id l)) (rows (enrollments w)) = None ->
  run (post_progress req user lesson_id_ completed_) w
    = (json_error 403 "Must be enrolled in course to track progress", w)
  /\ status (fst (run (post_enrollment req' user (lesson_course_id l)) w)) = 201
  /\ exists p,
       fst (run (post_progress req user lesson_id_ completed_)
                (snd (run (post_enrollment req' user (lesson_course_id l)) w)))
       = Response 200 (JsonProgress (Some p))
       /\ progress_student_id p = id_of user
       /\ progress_lesson_id p = lesson_id_
       /\ completed p = (if truthy completed_ then 1 else 0).
Proof.
  intros Hl Hc He.
  pose proof (run_post_progress_refused req user lesson_id_ completed_ w) as Href.
  rewrite Hl in Href. split; [exact (Href He) |].
  destruct (run_post_enrollment_new req' user (lesson_course_id l) w c Hc He) as [H201 Hw1].
  split; [exact H201 |]. rewrite Hw1.
  match goal with
  | |- context [run (auditLog ?a ?b ?x ?d ?e) ?w0] =>
      set (w1 := snd (run (auditLog a b x d e) w0));
      destruct (auditLog_keeps_tables a b x d e w0) as (_ & _ & Hl1 & He1 & _)
  end.
  fold w1 in Hl1, He1. cbn in Hl1, He1.
  destruct (post_progress_row req user lesson_id_ completed_ w1 l
              (Enrollment (last_id (enrollments w) + 1) (id_of user) (lesson_course_id l)
                          (current_timestamp w)))
    as (p & Hres & Hfind & _).
  - rewrite Hl1. exact Hl.
  - rewrite He1. cbn [rows]. rewrite find_app_last by exact He.
    unfold is_pair. simpl. rewrite !Z.eqb_refl. reflexivity.
  - exists (stamped completed_ (clock w1) p). split; [exact Hres |].
    apply find_some in Hfind. destruct Hfind as [_ Hp].
    unfold is_progress in Hp. apply andb_true_iff in Hp. destruct Hp as [Hs Hls].
    apply Z.eqb_eq in Hs, Hls. repeat split; assumption.
Qed.

(** Dan, not enrolled on the demo state, enrolls in course 1 and reports
    lesson 1. *)
Lemma enrollment_enables_progress_witness :
  run (post_progress (Demo.req (Some "Bearer dan") (EpPostProgress 1 (JBool true)))
                     (ReqUser 4 "dan@x.com" "student") 1 (JBool true)) Demo.campus
  = (json_error 403 "Must be enrolled in course to track progress", Demo.campus).
Proof.
  destruct (enrollment_enables_progress
              (Demo.req (Some "Bearer dan") (EpPostProgress 1 (JBool true)))
              (Demo.req (Some "Bearer dan") (EpPostEnrollment 1))
              (ReqUser 4 "dan@x.com" "student") 1 (JBool true) Demo.campus
              (Lesson 1 1 "Lesson" "text" 0 5 5) (Course 1 "Intro" "d" 1 4 4))
    as (H & _).
  - reflexivity.
  - reflexivity.
  - reflexivity.
  - exact H.
Defined.

(** ** Access control of the mutating routes *)

Lemma success_401 res : status res = 401 -> success res = false.
Proof. unfold success. intros ->. reflexivity. Qed.

(** X24. Every route that changes courses, lessons, enrollments or
    progress sits behind authentication and the role check of its
    resource: course and lesson routes ask for the stored role
    'instructor', enrollment and progress routes for 'student'.  A request
    that fails authentication is answered 401, one whose user has another
    role 403, and both leave the whole state untouched; a response with a
    success status implies that the requester was authenticated with the
    role of the route. *)
Theorem mutating_routes_check_the_role
    (jwt_verify : string -> verify_result) (jwt_sign : Z -> string -> string)
    (bcrypt_hash : string -> string) (bcrypt_compare : string -> string -> bool)
    (isEmail : string -> bool) (normalizeEmail : string -> string)
    (req : request) (w : world) (r : string) :
  required_role (target req) = Some r ->
  (forall res, fst (run (authenticateToken jwt_verify req) w) = inl res ->
     status res = 401
     /\ run (route jwt_verify jwt_sign bcrypt_hash bcrypt_compare isEmail normalizeEmail req) w
        = (res, w))
  /\ (forall user, fst (run (authenticateToken jwt_verify req) w) = inr user ->
        role_of user <> r ->
        run (route jwt_verify jwt_sign bcrypt_hash bcrypt_compare isEmail normalizeEmail req) w
        = (json_error 403 "Insufficient permissions", w))
  /\ (success (fst (run (route jwt_verify jwt_sign bcrypt_hash bcrypt_compare isEmail
                               normalizeEmail req) w)) = true ->
      exists user, fst (run (authenticateToken jwt_verify req) w) = inr user
                   /\ role_of user = r).
Proof.
  intros Hrole.
  assert (Hroute : exists valid handler,
            run (route jwt_verify jwt_sign bcrypt_hash bcrypt_compare isEmail
                       normalizeEmail req) w
            = run (protected jwt_verify req [r] valid handler) w).
  { unfold route. destruct (target req); try discriminate Hrole;
      injection Hrole as <-; eexists; eexists; reflexivity. }
  destruct Hroute as (valid & handler & Hroute). rewrite Hroute, run_protected.
  assert (Hinc : forall user, roles_include [r] (role_of user) = String.eqb (role_of user) r).
  { intros user. unfold roles_include. simpl. apply orb_false_r. }
  destruct (fst (run (authenticateToken jwt_verify req) w)) as [res | user] eqn:Ha.
  - pose proof (authenticateToken_failure jwt_verify req w res Ha) as H401.
    split; [| split].
    + intros res' [= <-]. split; [exact H401 | reflexivity].
    + intros user [=].
    + cbn [fst]. rewrite (success_401 res H401). discriminate.
  - rewrite Hinc. split; [| split].
    + intros res [=].
    + intros user' [= <-] Hne. apply String.eqb_neq in Hne. rewrite Hne. reflexivity.
    + destruct (String.eqb_spec (role_of user) r) as [Heq | Hne].
      * intros _. exists user. split; [reflexivity | exact Heq].
      * cbn [fst]. discriminate.
Qed.

(** Student bob asks for the deletion of course 1 on the demo state. *)
Lemma mutating_routes_check_the_role_witness :
  run (route Demo.verify Demo.sign Demo.hash Demo.compare Demo.is_email Demo.normalize
             (Demo.req (Some "Bearer bob") (EpDeleteCourse 1))) Demo.campus
  = (json_error 403 "Insufficient permissions", Demo.campus).
Proof.
  destruct (mutating_routes_check_the_role Demo.verify Demo.sign Demo.hash Demo.compare
              Demo.is_email Demo.normalize
              (Demo.req (Some "Bearer bob") (EpDeleteCourse 1)) Demo.campus "instructor")
    as (_ & H & _).
  - reflexivity.
  - apply (H (ReqUser 2 "bob@x.com" "student")).
    + reflexivity.
    + discriminate.
Defined.

(** ** Startup checks *)

Example parseInt_samples :
  parseInt "12" = Some 12 /\ parseInt "  -7x" = Some (-7) /\ parseInt "+15.5" = Some 15
  /\ parseInt "twelve" = None /\ parseInt "" = None /\ parseInt "-" = None
  /\ split_comma "a,,b" "" = ["a"; ""; "b"].
Proof. repeat split. Qed.

(** A text that starts with a character that is neither white space, a
    sign nor a digit is not a number. *)
Lemma parseInt_not_a_number (c : ascii) (rest : string) :
  is_space c = false -> digit_value c = None ->
  c <> "+"%char -> c <> "-"%char ->
  parseInt (String c rest) = None.
Proof.
  intros Hspace Hdigit Hplus Hminus. unfold parseInt. cbn [ltrim]. rewrite Hspace.
  destruct c as [[] [] [] [] [] [] [] []];
    try discriminate Hdigit; try (exfalso; apply Hplus; reflexivity);
    try (exfalso; apply Hminus; reflexivity); reflexivity.
Qed.

(** X21. The startup check of BCRYPT_ROUNDS compares the result of
    [parseInt] with 10 and 15, and both comparisons are false for [NaN].
    For values of the variables that are ASCII text: a configuration that
    is accepted with BCRYPT_ROUNDS unset is also accepted with it set to
    any text that starts with a character that is neither white space, a
    sign nor a digit, while a value that parses to a number outside
    10..15 stops the process, provided the secret passed its check. *)
Theorem rounds_check_accepts_non_numbers (secret origins : option string)
    (c : ascii) (rest : string) :
  ascii_value secret = true -> ascii_value origins = true ->
  ascii_text (String c rest) = true ->
  validate_configuration (Environment secret None origins) = Starts ->
  is_space c = false -> digit_value c = None ->
  c <> "+"%char -> c <> "-"%char ->
  BCRYPT_ROUNDS (Environment secret (Some (String c rest)) origins) = None
  /\ validate_configuration (Environment secret (Some (String c rest)) origins) = Starts
  /\ forall text n,
       ascii_text text = true ->
       parseInt text = Some n -> n < 10 \/ n > 15 ->
       validate_configuration (Environment secret (Some text) origins)
       = Exits "FATAL: BCRYPT_ROUNDS must be between 10 and 15".
Proof.
  intros _ _ _ Hstart Hspace Hdigit Hplus Hminus.
  assert (Hnan : BCRYPT_ROUNDS (Environment secret (Some (String c rest)) origins) = None).
  { unfold BCRYPT_ROUNDS, nonempty. simpl.
    apply parseInt_not_a_number; assumption. }
  unfold validate_configuration in *. cbn [env_JWT_SECRET] in *.
  destruct (match nonempty secret with
            | Some s => (String.length s <? 32)%nat
            | None => true
            end); [discriminate Hstart |].
  split; [exact Hnan |]. split.
  - rewrite Hnan.
    change (ALLOWED_ORIGINS (Environment secret (Some (String c rest)) origins))
      with (ALLOWED_ORIGINS (Environment secret None origins)).
    destruct (BCRYPT_ROUNDS (Environment secret None origins)) as [n |].
    + destruct ((n <? 10) || (n >? 15)); [discriminate Hstart | exact Hstart].
    + exact Hstart.
  - intros text n _ Hparse Hout.
    assert (Hrounds : BCRYPT_ROUNDS (Environment secret (Some text) origins) = Some n).
    { unfold BCRYPT_ROUNDS, nonempty. simpl.
      destruct (String.eqb_spec text "") as [-> | _]; [discriminate Hparse | exact Hparse]. }
    rewrite Hrounds.
    assert (Hcmp : (n <? 10) || (n >? 15) = true).
    { apply orb_true_iff. destruct Hout as [H | H].
      - left. apply Z.ltb_lt. exact H.
      - right. apply gtb_true. exact H. }
    rewrite Hcmp. reflexivity.
Qed.

(** BCRYPT_ROUNDS=twelve. *)
Lemma rounds_check_accepts_non_numbers_witness :
  validate_configuration
    (Environment (Some "0123456789abcdef0123456789abcdef") (Some "twelve")
                 (Some "https://campus.example"))
  = Starts.
Proof.
  destruct (rounds_check_accepts_non_numbers
              (Some "0123456789abcdef0123456789abcdef") (Some "https://campus.example")
              "t"%char "welve") as (_ & H & _).
  - reflexivity.
  - reflexivity.
  - reflexivity.
  - reflexivity.
  - reflexivity.
  - reflexivity.
  - discriminate.
  - discriminate.
  - exact H.
Defined.

(** ** The client and the server together *)

Lemma substring_all (s : string) : String.substring 0 (String.length s) s = s.
Proof. induction s as [| c s IH]; simpl; [reflexivity | rewrite IH; reflexivity]. Qed.

Lemma bearer_of_client_header (token : string) :
  token <> "" -> nonempty (bearer (Some ("Bearer " +:+ token))) = Some token.
Proof.
  intros Hne.
  change ("Bearer " +:+ token)
    with (String "B" (String "e" (String "a" (String "r" (String "e" (String "r"
           (String " " token))))))).
  unfold bearer. cbn.
  rewrite Nat.sub_0_r, substring_all.
  destruct token as [| c rest]; [contradiction |]. reflexivity.
Qed.

Lemma visible_not_whitespace c : visible c = true -> http_whitespace c = false.
Proof.
  unfold visible, http_whitespace. cbv zeta. intros H.
  apply andb_true_iff in H. destruct H as [H1 H2].
  apply Nat.leb_le in H1, H2.
  repeat (apply orb_false_iff; split); apply Nat.eqb_neq; lia.
Qed.

Lemma strip_trailing_visible t : visible_text t = true -> strip_trailing t = t.
Proof.
  induction t as [| c t IH]; simpl; [reflexivity |].
  intros H. apply andb_true_iff in H. destruct H as [Hc Ht].
  rewrite (IH Ht), (visible_not_whitespace c Hc). destruct t; reflexivity.
Qed.

Lemma strip_trailing_prefix (p t : string) :
  visible_text t = true -> t <> "" -> strip_trailing (p +:+ t) = p +:+ t.
Proof.
  intros Hv Hne. induction p as [| a p IH].
  - apply strip_trailing_visible, Hv.
  - change (String a p +:+ t) with (String a (p +:+ t)). cbn [strip_trailing].
    rewrite IH. destruct (p +:+ t) eqn:E; [| reflexivity].
    destruct p; [| discriminate E]. simpl in E. contradiction.
Qed.

Lemma has_forbidden_visible t : visible_text t = true -> has_forbidden t = false.
Proof.
  induction t as [| c t IH]; simpl; [reflexivity |].
  intros H. apply andb_true_iff in H. destruct H as [Hc Ht]. rewrite (IH Ht).
  unfold visible in Hc. cbv zeta in Hc. apply andb_true_iff in Hc. destruct Hc as [H1 H2].
  apply Nat.leb_le in H1, H2.
  repeat (apply orb_false_iff; split); try reflexivity; apply Nat.eqb_neq; lia.
Qed.

(** The Authorization header of a token of visible characters reaches
    the server as it was written. *)
Lemma header_value_bearer (token : string) :
  visible_text token = true -> token <> "" ->
  header_value ("Bearer " +:+ token) = Some ("Bearer " +:+ token).
Proof.
  intros Hv Hne. unfold header_value.
  assert (Hlead : strip_leading ("Bearer " +:+ token) = "Bearer " +:+ token) by reflexivity.
  rewrite Hlead, (strip_trailing_prefix "Bearer " token Hv Hne).
  assert (Hok : has_forbidden ("Bearer " +:+ token) = false).
  { change (has_forbidden ("Bearer " +:+ token)) with (has_forbidden token).
    apply has_forbidden_visible, Hv. }
  rewrite Hok. reflexivity.
Qed.

(** Trailing white space of a stored token does not reach the server, and
    a token of white space reaches it as no token at all. *)
Example header_values_are_normalized :
  header_value "Bearer abc " = Some "Bearer abc"
  /\ header_value "Bearer  " = Some "Bearer"
  /\ nonempty (bearer (header_value "Bearer  ")) = None
  /\ client_request (Browser (Some (String "a" (String (ascii_of_nat 10) "b"))) "/")
                    None None EpHealth = None.
Proof. repeat split. Qed.

(** X22. What the client sends is what the server reads.  For a stored
    token of visible ASCII characters, as a JWT is, the request built by
    [apiRequest] carries 'Bearer ' followed by the token, the header
    passes the normalization of [fetch] unchanged, and the token the
    server extracts from it is exactly the stored token; the request
    carries the content type application/json, so the content-type
    check does not stop it; and from a page on the origin of the API
    [fetch] hands this very request to the server.  When no token is
    stored, the request has no Authorization header and authentication
    answers 401 "Authentication required". *)
Theorem client_header_round_trip (jwt_verify : string -> verify_result)
    (server : request -> prog response)
    (b : browser) (addr remote : option string) (target : endpoint) (w : world) :
  (forall token, getAuthToken b = Some token ->
     visible_text token = true -> token <> "" ->
     exists req,
       client_request b addr remote target = Some req
       /\ authorization req = Some ("Bearer " +:+ token)
       /\ nonempty (bearer (authorization req)) = Some token
       /\ is_body_method (method_of target) && negb (json_content_type (content_type req))
          = false
       /\ fetch SameOrigin server req w
          = (Some (fst (run (server req) w)), snd (run (server req) w)))
  /\ (nonempty (getAuthToken b) = None ->
      exists req,
        client_request b addr remote target = Some req
        /\ run (authenticateToken jwt_verify req) w
           = (inl (json_error 401 "Authentication required"), w)).
Proof.
  split.
  - intros token Ht Hv Hne. unfold client_request. rewrite Ht.
    assert (Hn : nonempty (Some token) = Some token)
      by (destruct token; [contradiction | reflexivity]).
    rewrite Hn, (header_value_bearer token Hv Hne).
    eexists. split; [reflexivity |]. cbn [authorization content_type].
    split; [reflexivity |]. split; [apply bearer_of_client_header, Hne |].
    split; [apply andb_false_r |].
    unfold fetch. destruct (run (server _) w). reflexivity.
  - intros Hnone. unfold client_request. rewrite Hnone.
    eexists. split; reflexivity.
Qed.

(** Bob's browser holds the token "bob". *)
Lemma client_header_round_trip_witness :
  exists req,
    client_request (Browser (Some "bob") "/") (Some "10.0.0.1") None EpHealth = Some req
    /\ authorization req = Some "Bearer bob"
    /\ nonempty (bearer (authorization req)) = Some "bob"
    /\ is_body_method (method_of EpHealth) && negb (json_content_type (content_type req))
       = false
    /\ fetch SameOrigin Demo.server req Demo.campus
       = (Some (fst (run (Demo.server req) Demo.campus)),
          snd (run (Demo.server req) Demo.campus)).
Proof.
  destruct (client_header_round_trip Demo.verify Demo.server (Browser (Some "bob") "/")
              (Some "10.0.0.1") None EpHealth Demo.campus) as (H & _).
  apply (H "bob").
  - reflexivity.
  - reflexivity.
  - discriminate.
Defined.

Lemma preflight_is_refused jwt_verify jwt_sign bcrypt_hash bcrypt_compare isEmail
    normalizeEmail req w :
  run (app jwt_verify jwt_sign bcrypt_hash bcrypt_compare isEmail normalizeEmail
           (preflight req)) w
  = (json_error 401 "Authentication required", w).
Proof. reflexivity. Qed.

(** X23. A failed login as the client sees it.  From a page on the
    origin of the API: when the credentials are ASCII text and
    well-formed but wrong (no user has the email, or the password does
    not match) and the limiter lets the request through, the server
    answers 401 "Invalid credentials", and [apiRequest], which treats
    every 401 alike, removes the stored token, sends the browser to
    /login and rejects with "Session expired. Please login again.".
    From a page on another origin the login never reaches its route,
    whatever the credentials: the preflight carries no Authorization
    header, the server answers it 401, and [fetch] fails with a network
    error, leaving the browser and the server as they were. *)
Theorem failed_login_reads_as_expired_session
    (jwt_verify : string -> verify_result) (jwt_sign : Z -> string -> string)
    (bcrypt_hash : string -> string) (bcrypt_compare : string -> string -> bool)
    (isEmail : string -> bool) (normalizeEmail : string -> string)
    (addr remote : option string) (e p : string) (b : browser) (w : world)
    (req : request) :
  e <> "" -> p <> "" ->
  client_request b addr remote (EpLogin e p) = Some req ->
  (ascii_text e = true -> ascii_text p = true ->
   isEmail e = true -> isLength 1 128 p = true ->
   fst (run (perClientRateLimit req) w) = None ->
   (forall u, find (fun u => String.eqb (email u) (normalizeEmail e)) (rows (users w))
              = Some u ->
              bcrypt_compare p (password_hash u) = false) ->
   fst (run (app jwt_verify jwt_sign bcrypt_hash bcrypt_compare isEmail normalizeEmail req) w)
     = json_error 401 "Invalid credentials"
   /\ fst (api_login SameOrigin
                     (app jwt_verify jwt_sign bcrypt_hash bcrypt_compare isEmail
                          normalizeEmail) addr remote e p b w)
      = (Rejected "Session expired. Please login again.", Browser None "/login"))
  /\ (forall allowed,
        api_login (OtherOrigin allowed)
                  (app jwt_verify jwt_sign bcrypt_hash bcrypt_compare isEmail normalizeEmail)
                  addr remote e p b w
        = (Failed NetworkError, b, w)).
Proof.
  intros He Hp Hreq.
  assert (Hlogin : forall from,
            api_login from
              (app jwt_verify jwt_sign bcrypt_hash bcrypt_compare isEmail normalizeEmail)
              addr remote e p b w
            = let '(answer, w') :=
                fetch from (app jwt_verify jwt_sign bcrypt_hash bcrypt_compare isEmail
                                normalizeEmail) req w in
              match answer with
              | None => (Failed NetworkError, b, w')
              | Some res => let '(s, b') := settle res b in (s, b', w')
              end).
  { intros from. unfold api_login.
    destruct (String.eqb_spec e ""); [contradiction |].
    destruct (String.eqb_spec p ""); [contradiction |].
    cbn [orb]. unfold apiRequest. rewrite Hreq. reflexivity. }
  assert (Htarget : target req = EpLogin e p /\ content_type req = Some "application/json").
  { unfold client_request in Hreq. destruct (nonempty (getAuthToken b)).
    - destruct (header_value _); [| discriminate Hreq]. injection Hreq as <-. split; reflexivity.
    - injection Hreq as <-. split; reflexivity. }
  destruct Htarget as [Htarget Hct].
  split.
  - intros _ _ Hemail Hlen Hpass Hwrong.
    assert (Hres : fst (run (app jwt_verify jwt_sign bcrypt_hash bcrypt_compare isEmail
                                 normalizeEmail req) w)
                   = json_error 401 "Invalid credentials").
    { unfold app. rewrite Htarget, Hct. cbn [method_of is_body_method].
      change (json_content_type (Some "application/json")) with true. cbn [negb andb].
      rewrite run_bind.
      destruct (rate_limit_keeps_tables req w) as (Hu & _).
      destruct (run (perClientRateLimit req) w) as [limited w1].
      cbn [fst snd] in Hpass, Hu. subst limited.
      unfold route. rewrite Htarget, Hemail, Hlen.
      cbn [andb validate]. rewrite run_login, Hu.
      destruct (find _ (rows (users w))) as [u |] eqn:Hfind; [| reflexivity].
      rewrite (Hwrong u eq_refl). reflexivity. }
    split; [exact Hres |].
    rewrite Hlogin. unfold fetch.
    destruct (run (app jwt_verify jwt_sign bcrypt_hash bcrypt_compare isEmail normalizeEmail
                       req) w) as [res w1].
    cbn [fst] in Hres. subst res. reflexivity.
  - intros allowed. rewrite Hlogin. unfold fetch. rewrite preflight_is_refused.
    rewrite andb_false_r. reflexivity.
Qed.

(** Bob mistypes his password on the demo state, on a page served from
    the origin of the API. *)
Lemma failed_login_reads_as_expired_session_witness :
  fst (api_login SameOrigin Demo.server (Some "10.0.0.1") None "bob@x.com" "password2"
                 (Browser None "/login") (with_clock 7000 Demo.campus))
  = (Rejected "Session expired. Please login again.", Browser None "/login").
Proof.
  destruct (failed_login_reads_as_expired_session Demo.verify Demo.sign Demo.hash
              Demo.compare Demo.is_email Demo.normalize (Some "10.0.0.1") None
              "bob@x.com" "password2" (Browser None "/login")
              (with_clock 7000 Demo.campus)
              (Request None (Some "application/json") (Some "10.0.0.1") None
                       (EpLogin "bob@x.com" "password2"))) as (H & _).
  - discriminate.
  - discriminate.
  - reflexivity.
  - destruct H as (_ & H).
    + reflexivity.
    + reflexivity.
    + reflexivity.
    + reflexivity.
    + reflexivity.
    + intros u [= <-]. reflexivity.
    + exact H.
Defined.

(** ** What the limiter counts *)

(** X25. The health check is served behind the rate limiter and without
    authentication: it is answered 200 when the limiter lets the request
    through and 429 otherwise, in particular once the client has used up
    its window, and it is counted like any other request.  A preflight
    (OPTIONS) request, answered by the middleware in front of the
    limiter, is not counted and changes nothing. *)
Theorem health_check_is_rate_limited
    (jwt_verify : string -> verify_result) (jwt_sign : Z -> string -> string)
    (bcrypt_hash : string -> string) (bcrypt_compare : string -> string -> bool)
    (isEmail : string -> bool) (normalizeEmail : string -> string)
    (req req' : request) (w : world) :
  target req = EpHealth ->
  method_of (target req') = OPTIONS ->
  let server := app jwt_verify jwt_sign bcrypt_hash bcrypt_compare isEmail normalizeEmail in
  (fst (run (perClientRateLimit req) w) = None ->
   fst (run (server req) w) = Response 200 JsonHealth)
  /\ (forall d, rateLimiters w !! clientKey req = Some d ->
        clock w - resetTime d <= RATE_LIMIT_WINDOW_MS ->
        count d >= RATE_LIMIT_MAX_REQUESTS ->
        fst (run (server req) w) = json_error 429 "Too many requests")
  /\ snd (run (server req) w) = snd (run (perClientRateLimit req) w)
  /\ snd (run (server req') w) = w.
Proof.
  intros Htarget Hoptions server. subst server.
  assert (Happ : run (app jwt_verify jwt_sign bcrypt_hash bcrypt_compare isEmail
                          normalizeEmail req) w
                 = match fst (run (perClientRateLimit req) w) with
                   | Some res => (res, snd (run (perClientRateLimit req) w))
                   | None => (Response 200 JsonHealth, snd (run (perClientRateLimit req) w))
                   end).
  { unfold app. rewrite Htarget. cbn [method_of is_body_method andb]. rewrite run_bind.
    destruct (run (perClientRateLimit req) w) as [[res |] w1]; cbn [fst snd].
    - reflexivity.
    - unfold route. rewrite Htarget. reflexivity. }
  rewrite Happ. split; [| split; [| split]].
  - intros ->. reflexivity.
  - intros d Hd Hwin Hfull. rewrite (limiter_within req w d Hd Hwin). cbn zeta.
    cbn [count]. rewrite (gtb_true (count d + 1) RATE_LIMIT_MAX_REQUESTS) by lia.
    reflexivity.
  - destruct (fst (run (perClientRateLimit req) w)); reflexivity.
  - unfold app. rewrite Hoptions. destruct (nonempty (authorization req')); reflexivity.
Qed.

(** The client of the demo state with its window used up asks for
    /health. *)
Lemma health_check_is_rate_limited_witness :
  fst (run (Demo.server (Demo.req None EpHealth))
           (with_rateLimiters {[ "10.0.0.1" := Limiter 100 1000 ]} Demo.campus))
  = json_error 429 "Too many requests".
Proof.
  destruct (health_check_is_rate_limited Demo.verify Demo.sign Demo.hash Demo.compare
              Demo.is_email Demo.normalize (Demo.req None EpHealth)
              (Demo.req None (EpOther OPTIONS))
              (with_rateLimiters {[ "10.0.0.1" := Limiter 100 1000 ]} Demo.campus))
    as (_ & H & _).
  - reflexivity.
  - reflexivity.
  - apply (H (Limiter 100 1000)).
    + reflexivity.
    + unfold RATE_LIMIT_WINDOW_MS. simpl. lia.
    + unfold RATE_LIMIT_MAX_REQUESTS. simpl. lia.
Defined.

(** ** An update that meets a deletion *)

Lemma update_where_none {R} (p : R -> bool) (f : R -> R) (l : list R) :
  find p l = None -> update_where p f l = l.
Proof.
  intros H. unfold update_where. rewrite <- (map_id l) at 2. apply map_ext_in.
  intros r Hr. rewrite (proj1 (find_none_iff p l) H r Hr). reflexivity.
Qed.

(** X26. The update of a course does not look at the number of rows it
    changed.  When the owner's PUT has passed its lookup and the course
    is deleted before the UPDATE runs, the UPDATE changes no row, and the
    request is still answered 200, with no course in the body, and is
    recorded as COURSE_UPDATED in the audit log. *)
Theorem update_of_vanished_course_answers_200 (req : request) (user : req_user) (id : Z)
    (title_ description_ : option string) (w w' : world) (c : course_row) :
  find (fun c => course_id c =? id) (rows (courses w)) = Some c ->
  instructor_id c = id_of user ->
  title_ <> None \/ description_ <> None ->
  find (fun c => course_id c =? id) (rows (courses w')) = None ->
  audit_fault w' = false ->
  let suspended := fst (step (put_course req user id title_ description_) w) in
  fst (run suspended w') = Response 200 (JsonCourse None)
  /\ rows (courses (snd (run suspended w'))) = rows (courses w')
  /\ rows (audit_log (snd (run suspended w')))
     = (rows (audit_log w')
        ++ [Audit (last_id (audit_log w') + 1) (Some (id_of user)) "COURSE_UPDATED" "course"
                  (Some id) (current_timestamp w') (ip req)])%list.
Proof.
  intros Hc Hown Hfield Hgone Haudit suspended. subst suspended.
  unfold put_course, try_catch, ebind, eret, await, await_run, lift, call, failed, push,
    auditLog, step.
  simpl. rewrite Hc. simpl. rewrite Hown, Z.eqb_refl. simpl.
  destruct title_ as [t |], description_ as [d |]; simpl;
    try (exfalso; destruct Hfield as [H | H]; apply H; reflexivity);
    rewrite Haudit; simpl;
    rewrite !update_where_none by exact Hgone; rewrite Hgone; repeat split.
Qed.

(** Ann renames course 1 of the demo state while another of her sessions
    deletes it. *)
Lemma update_of_vanished_course_answers_200_witness :
  fst (run (fst (step (put_course (Demo.req (Some "Bearer ann") (EpPutCourse 1 (Some "Logic") None))
                                  (ReqUser 1 "ann@x.com" "instructor") 1 (Some "Logic") None)
                      Demo.campus))
           (with_courses (Table [] 1) Demo.campus))
  = Response 200 (JsonCourse None).
Proof.
  destruct (update_of_vanished_course_answers_200
              (Demo.req (Some "Bearer ann") (EpPutCourse 1 (Some "Logic") None))
              (ReqUser 1 "ann@x.com" "instructor") 1 (Some "Logic") None
              Demo.campus (with_courses (Table [] 1) Demo.campus) (Course 1 "Intro" "d" 1 4 4))
    as (H & _).
  - reflexivity.
  - reflexivity.
  - left. discriminate.
  - reflexivity.
  - reflexivity.
  - exact H.
Defined.
